(** * akaDns: a shallow embedding of [set_dns_crossplatform.py]

    The script configures, verifies and reverts a host's DNS resolver
    settings.  This development embeds the functions of the script that
    its specification talks about and settles the specification's claims
    on them.

    Conventions of the embedding.
    - A Python [str] is a Rocq [string]; a character is a code point in
      U+0000..U+00FF.
    - A Python computation that may raise is a value of [py A]: either
      [Ret a] or [Raise e].  A computation that touches the host (files,
      external commands) is a function [World -> py A * World].
    - Console output ([print]) is not modelled, except for one event per
      iteration of the restore loops (the progress line each iteration
      starts with).
    - The script as found does not parse as a whole (the body of
      [flush_dns_macos] is inconsistently indented and a block near the
      end of the file uses [return] outside a function).  Each function is
      embedded as it is written. *)

From Stdlib Require Import ZArith Ascii String List Bool Lia.
From stdpp Require Import base option list strings gmap.

Local Open Scope string_scope.
Local Open Scope Z_scope.

(* stdpp keeps [simpl] from unfolding string concatenation. *)
#[local] Arguments String.append !s1 s2 : simpl nomatch.

(** ** Exceptions and results *)

Inductive exn : Type :=
| NameError
| AttributeError
| TypeError
| ValueError
| IndexError
| JSONDecodeError
| FileNotFoundError
| PermissionError
| OSError
| TimeoutExpired
| CalledProcessError (captured : bool)
| SystemExit (code : Z).

(** [except Exception] catches everything but [SystemExit]. *)
Definition is_Exception (e : exn) : bool :=
  match e with SystemExit _ => false | _ => true end.

(** [IOError] is an alias of [OSError]; these are its subclasses here. *)
Definition is_OSError (e : exn) : bool :=
  match e with
  | FileNotFoundError | PermissionError | OSError => true
  | _ => false
  end.

Inductive py (A : Type) : Type :=
| Ret (a : A)
| Raise (e : exn).
Arguments Ret {A} a.
Arguments Raise {A} e.

Definition py_bind {A B : Type} (c : py A) (k : A -> py B) : py B :=
  match c with Ret a => k a | Raise e => Raise e end.

(** ** Characters and strings, with Python's names *)

Definition chr (n : nat) : ascii := ascii_of_nat n.
Definition ord (c : ascii) : nat := nat_of_ascii c.

Definition LF : ascii := chr 10.
Definition CR : ascii := chr 13.
Definition QUOTE : ascii := chr 34.
Definition BACKSLASH : ascii := chr 92.

Definition str1 (c : ascii) : string := String c EmptyString.

Definition in_range (lo hi : nat) (c : ascii) : bool :=
  (Nat.leb lo (ord c) && Nat.leb (ord c) hi)%bool.

(** [str.isspace] on one character (Unicode White_Space below U+0100). *)
Definition isspace (c : ascii) : bool :=
  (in_range 9 13 c || in_range 28 32 c
   || Nat.eqb (ord c) 133 || Nat.eqb (ord c) 160)%bool.

Definition isdigit (c : ascii) : bool := in_range 48 57 c.

(** [str.lower] on one character. *)
Definition lower_char (c : ascii) : ascii :=
  if in_range 65 90 c then chr (ord c + 32)
  else if (in_range 192 222 c && negb (Nat.eqb (ord c) 215))%bool
       then chr (ord c + 32)
       else c.

Fixpoint lower (s : string) : string :=
  match s with
  | EmptyString => EmptyString
  | String c s' => String (lower_char c) (lower s')
  end.

Fixpoint startswith (s p : string) : bool :=
  match p, s with
  | EmptyString, _ => true
  | String a p', String b s' => (Ascii.eqb a b && startswith s' p')%bool
  | String _ _, EmptyString => false
  end.

(** [needle in hay] for strings. *)
Fixpoint contains (needle hay : string) : bool :=
  (startswith hay needle
   || match hay with
      | EmptyString => false
      | String _ hay' => contains needle hay'
      end)%bool.

Fixpoint lstrip (s : string) : string :=
  match s with
  | EmptyString => EmptyString
  | String c s' => if isspace c then lstrip s' else s
  end.

Fixpoint rstrip (s : string) : string :=
  match s with
  | EmptyString => EmptyString
  | String c s' =>
      match rstrip s' with
      | EmptyString => if isspace c then EmptyString else str1 c
      | r => String c r
      end
  end.

Definition strip (s : string) : string := rstrip (lstrip s).

Definition endswith (s p : string) : bool :=
  startswith (String.rev s) (String.rev p).

(** [s.split(sep)] for a one-character separator: never empty. *)
Fixpoint split (sep : ascii) (s : string) : list string :=
  match s with
  | EmptyString => [EmptyString]
  | String c s' =>
      if Ascii.eqb c sep then EmptyString :: split sep s'
      else match split sep s' with
           | g :: gs => String c g :: gs
           | [] => [str1 c]
           end
  end.

(** [s.split(sep, 1)]: at most one cut, at the first separator. *)
Fixpoint split1 (sep : ascii) (s : string) : list string :=
  match s with
  | EmptyString => [EmptyString]
  | String c s' =>
      if Ascii.eqb c sep then [EmptyString; s']
      else match split1 sep s' with
           | g :: gs => String c g :: gs
           | [] => [str1 c]
           end
  end.

(** [sep.join(parts)]. *)
Fixpoint join (sep : string) (parts : list string) : string :=
  match parts with
  | [] => EmptyString
  | [p] => p
  | p :: ps => p ++ sep ++ join sep ps
  end.

(** The first [n] characters, [s[:n]]. *)
Fixpoint take_str (n : nat) (s : string) : string :=
  match n, s with
  | S n', String c s' => String c (take_str n' s')
  | _, _ => EmptyString
  end.

(** ** [get_os] *)

(** Reading a name that no assignment, definition or import of the
    enclosing scopes binds. *)
Definition unbound_name (name : string) : py string := Raise NameError.

(** [platform_system] stands for [platform.system()].  The third test
    reads the name [system]; the function binds [system_to_check] and
    [system_lower] only, and the module has no global or import of that
    name. *)
Definition get_os (platform_system : string)
    (test_platform_system : option string) : py string :=
  let system_to_check :=
    match test_platform_system with
    | Some s => s
    | None => platform_system
    end in
  let system_lower := lower system_to_check in
  if contains "windows" system_lower then Ret "windows"
  else if contains "linux" system_lower then Ret "linux"
  else
    py_bind (unbound_name "system") (fun system =>
    if contains "darwin" system then Ret "macos"
    else Ret "unknown").

(** ** The regular expression of [is_valid_ip] *)

(** The fragment of [re] patterns the script uses in [is_valid_ip]:
    anchors, character sets, concatenation and greedy options.  A bounded
    repetition [r{lo,hi}] is unfolded by [rep]. *)
Inductive regex : Type :=
| REmpty
| RBol
| REol
| RSet (p : ascii -> bool)
| RCat (a b : regex)
| ROpt (a : regex).

(** The backtracking matcher, in continuation-passing style: [pos] is the
    number of characters consumed so far, [s] the rest of the subject.
    [$] matches at the end of the subject and just before a line feed that
    ends the subject. *)
Fixpoint re_exec (r : regex) (pos : nat) (s : string)
    (k : nat -> string -> bool) : bool :=
  match r with
  | REmpty => k pos s
  | RBol => (Nat.eqb pos 0 && k pos s)%bool
  | REol =>
      match s with
      | EmptyString => k pos s
      | String c EmptyString => (Ascii.eqb c LF && k pos s)%bool
      | _ => false
      end
  | RSet p =>
      match s with
      | String c s' => (p c && k (S pos) s')%bool
      | EmptyString => false
      end
  | RCat a b => re_exec a pos s (fun pos' s' => re_exec b pos' s' k)
  | ROpt a => (re_exec a pos s k || k pos s)%bool
  end.

(** [r{n}] and [r{lo,hi}] with [lo <= hi]. *)
Fixpoint rep_opt (n : nat) (r : regex) : regex :=
  match n with
  | O => REmpty
  | S n' => ROpt (RCat r (rep_opt n' r))
  end.

Fixpoint rep (lo extra : nat) (r : regex) : regex :=
  match lo with
  | O => rep_opt extra r
  | S lo' => RCat r (rep lo' extra r)
  end.

(** [pattern.match(s)] is truthy. *)
Definition re_match (r : regex) (s : string) : bool :=
  re_exec r 0 s (fun _ _ => true).

Definition DOT : ascii := chr 46.

(** [r"^(?:[0-9]{1,3}\.){3}[0-9]{1,3}$"] *)
Definition ip_pattern : regex :=
  RCat RBol
    (RCat (rep 3 0 (RCat (rep 1 2 (RSet isdigit)) (RSet (Ascii.eqb DOT))))
       (RCat (rep 1 2 (RSet isdigit)) REol)).

(** ** [int] *)

Fixpoint digits_value (acc : Z) (s : string) : option Z :=
  match s with
  | EmptyString => Some acc
  | String c s' =>
      if isdigit c
      then digits_value (10 * acc + Z.of_nat (ord c - 48)) s'
      else None
  end.

(** [int(s)] for a string: surrounding whitespace is dropped, a sign is
    allowed, then decimal digits.  (Python also allows single underscores
    between digits; no caller in the script can pass one.) *)
Definition int (s : string) : py Z :=
  let body := strip s in
  let (neg, ds) :=
    match body with
    | String c r =>
        if Ascii.eqb c (chr 45) then (true, r)
        else if Ascii.eqb c (chr 43) then (false, r)
        else (false, body)
    | EmptyString => (false, body)
    end in
  match ds with
  | EmptyString => Raise ValueError
  | _ =>
      match digits_value 0 ds with
      | Some v => Ret (if neg then - v else v)
      | None => Raise ValueError
      end
  end.

(** ** [is_valid_ip] *)

Fixpoint is_valid_ip_parts (parts : list string) : py bool :=
  match parts with
  | [] => Ret true
  | part :: rest =>
      py_bind (int part) (fun v =>
      if negb ((0 <=? v) && (v <=? 255))%bool then Ret false
      else is_valid_ip_parts rest)
  end.

Definition is_valid_ip (ip : string) : py bool :=
  if re_match ip_pattern ip then
    let parts := split DOT ip in
    is_valid_ip_parts parts
  else Ret false.

(** ** The host *)

(** A path names a regular file or a symbolic link.  A link carries the
    text [os.readlink] returns and what [open] sees through it ([None]
    when the link dangles). *)
Inductive node : Type :=
| File (content : string)
| Symlink (target : string) (through : option string).

Record CompletedProcess : Type := {
  returncode : Z;
  stdout : string;
  stderr : string
}.

(** What running a command line does: it runs to completion at once, it
    runs to completion after more than the probes' two seconds, its
    executable is not found, or it cannot be started for another reason
    (for instance a file without the execute permission). *)
Inductive outcome : Type :=
| Exits (cp : CompletedProcess)
| ExitsLate (cp : CompletedProcess)
| NoSuchFile
| CannotRun.

Inductive event : Type :=
| Ran (argv : list string)
| Restoring (point : string).

Record World : Type := {
  system_name : string;               (* platform.system() *)
  euid : Z;                           (* os.geteuid() *)
  user_is_admin : option bool;        (* IsUserAnAdmin() != 0, when it exists *)
  fs : gmap string node;
  denied : gset string;               (* paths that open() and os.remove() refuse *)
  proc : list string -> outcome;
  log : list event
}.

Definition with_fs (f : gmap string node) (w : World) : World :=
  {| system_name := system_name w; euid := euid w;
     user_is_admin := user_is_admin w; fs := f; denied := denied w;
     proc := proc w; log := log w |}.

Definition record (e : event) (w : World) : World :=
  {| system_name := system_name w; euid := euid w;
     user_is_admin := user_is_admin w; fs := fs w; denied := denied w;
     proc := proc w; log := log w ++ [e] |}.

(** Computations on the host. *)
Definition M (A : Type) : Type := World -> py A * World.

Definition ret {A : Type} (a : A) : M A := fun w => (Ret a, w).
Definition raise {A : Type} (e : exn) : M A := fun w => (Raise e, w).
Definition lift {A : Type} (c : py A) : M A := fun w => (c, w).

Definition bind {A B : Type} (c : M A) (k : A -> M B) : M B :=
  fun w =>
    match c w with
    | (Ret a, w') => k a w'
    | (Raise e, w') => (Raise e, w')
    end.

Notation "'let*' x ':=' c 'in' k" := (bind c (fun x => k))
  (at level 10, x name, c at level 100, k at level 200).
Notation "c ';;' k" := (bind c (fun _ => k))
  (at level 100, k at level 200, right associativity).

(** [try: c  except <the classes of catches>: h]. *)
Definition try_except {A : Type} (c : M A) (catches : exn -> bool)
    (h : exn -> M A) : M A :=
  fun w =>
    match c w with
    | (Ret a, w') => (Ret a, w')
    | (Raise e, w') => if catches e then h e w' else (Raise e, w')
    end.

(** *** Files *)

Fixpoint universal_newlines (s : string) : string :=
  match s with
  | EmptyString => EmptyString
  | String c s' =>
      if Ascii.eqb c CR then
        match s' with
        | String d s'' =>
            if Ascii.eqb d LF then String LF (universal_newlines s'')
            else String LF (universal_newlines s')
        | EmptyString => str1 LF
        end
      else String c (universal_newlines s')
  end.

Definition seen (n : node) : option string :=
  match n with
  | File c => Some c
  | Symlink _ through => through
  end.

(** [os.path.exists], [os.path.islink], [os.readlink]. *)
Definition path_exists (w : World) (path : string) : bool :=
  match fs w !! path with
  | Some n => match seen n with Some _ => true | None => false end
  | None => false
  end.

Definition path_islink (w : World) (path : string) : bool :=
  match fs w !! path with
  | Some (Symlink _ _) => true
  | _ => false
  end.

Definition readlink (w : World) (path : string) : py string :=
  match fs w !! path with
  | Some (Symlink target _) => Ret target
  | Some (File _) => Raise OSError
  | None => Raise FileNotFoundError
  end.

(** [open(path, 'r')] followed by [read()]: the whole text. *)
Definition read_text (path : string) : M string :=
  fun w =>
    if decide (path ∈ denied w) then (Raise PermissionError, w)
    else match fs w !! path with
         | Some n =>
             match seen n with
             | Some c => (Ret (universal_newlines c), w)
             | None => (Raise FileNotFoundError, w)
             end
         | None => (Raise FileNotFoundError, w)
         end.

Definition written (n : option node) (content : string) : node :=
  match n with
  | Some (Symlink target _) => Symlink target (Some content)
  | _ => File content
  end.

(** [open(path, 'w')] followed by [write(content)]. *)
Definition write_text (path content : string) : M unit :=
  fun w =>
    if decide (path ∈ denied w) then (Raise PermissionError, w)
    else (Ret tt, with_fs (<[path := written (fs w !! path) content]> (fs w)) w).

(** [os.remove(path)]. *)
Definition os_remove (path : string) : M unit :=
  fun w =>
    if decide (path ∈ denied w) then (Raise PermissionError, w)
    else match fs w !! path with
         | Some _ => (Ret tt, with_fs (delete path (fs w)) w)
         | None => (Raise FileNotFoundError, w)
         end.

(** [f.readlines()]: the lines, each with its line feed. *)
Fixpoint readlines (s : string) : list string :=
  match s with
  | EmptyString => []
  | String c s' =>
      if Ascii.eqb c LF then str1 LF :: readlines s'
      else match readlines s' with
           | l :: ls => String c l :: ls
           | [] => [str1 c]
           end
  end.

(** *** External commands *)

(** What a command that exits with status 0 does to the files: [cp -f]
    and [mv], with or without [sudo] in front; every other command leaves
    the files as they are. *)
Definition copy_file (src dst : string) (f : gmap string node) : gmap string node :=
  match f !! src with
  | Some n =>
      match seen n with
      | Some c => <[dst := written (f !! dst) c]> f
      | None => f
      end
  | None => f
  end.

Definition move_file (src dst : string) (f : gmap string node) : gmap string node :=
  match f !! src with
  | Some n => <[dst := n]> (delete src f)
  | None => f
  end.

Definition without_sudo (argv : list string) : list string :=
  match argv with
  | cmd :: rest => if String.eqb cmd "sudo" then rest else argv
  | [] => []
  end.

Definition effect (argv : list string) (f : gmap string node) : gmap string node :=
  match without_sudo argv with
  | [cmd; a; b; c] =>
      if (String.eqb cmd "cp" && String.eqb a "-f")%bool then copy_file b c f
      else if (String.eqb cmd "mv" && String.eqb a "-f")%bool then move_file b c f
      else f
  | [cmd; a; b] =>
      if String.eqb cmd "mv" then move_file a b f else f
  | _ => f
  end.

Definition completed (argv : list string) (check capture : bool)
    (cp : CompletedProcess) (w : World) : py CompletedProcess * World :=
  if returncode cp =? 0 then (Ret cp, with_fs (effect argv (fs w)) w)
  else if check then (Raise (CalledProcessError capture), w)
  else (Ret cp, w).

(** [subprocess.run(argv, capture_output=capture, text=True, check=check)];
    [timeout] says whether [timeout=2] is passed. *)
Definition subprocess_run (argv : list string) (check capture timeout : bool)
    : M CompletedProcess :=
  fun w =>
    let w1 := record (Ran argv) w in
    match proc w argv with
    | Exits cp => completed argv check capture cp w1
    | ExitsLate cp =>
        if timeout then (Raise TimeoutExpired, w1)
        else completed argv check capture cp w1
    | NoSuchFile => (Raise FileNotFoundError, w1)
    | CannotRun => (Raise PermissionError, w1)
    end.

(** ** [parse_dns_config] *)

Definition EQUALS : ascii := chr 61.

Fixpoint parse_dns_config_lines (lines : list string) (dns_servers : list string)
    : py (list string) :=
  match lines with
  | [] => Ret dns_servers
  | line :: rest =>
      let line := strip line in
      if (String.eqb line EmptyString || startswith line "#")%bool
      then parse_dns_config_lines rest dns_servers
      else if contains "=" line then
        match split1 EQUALS line with
        | [_; ip_address] =>
            let ip_address := strip ip_address in
            py_bind (is_valid_ip ip_address) (fun ok =>
            if ok then
              if (length dns_servers <? 3)%nat
              then parse_dns_config_lines rest (dns_servers ++ [ip_address])
              else Ret dns_servers
            else parse_dns_config_lines rest dns_servers)
        | _ => Raise ValueError
        end
      else parse_dns_config_lines rest dns_servers
  end.

(** The result is [None] for Python's [None]. *)
Definition parse_dns_config (filepath : string) : M (option (list string)) :=
  fun w =>
    if negb (path_exists w filepath) then (Ret None, w)
    else
      try_except
        (let* text := read_text filepath in
         let lines := readlines text in
         match lines with
         | [] => ret None
         | _ =>
             let* dns_servers := lift (parse_dns_config_lines lines []) in
             match dns_servers with
             | [] => ret None
             | _ => ret (Some dns_servers)
             end
         end)
        is_Exception
        (fun _ => ret None) w.

(** ** Helpers for Linux *)

(** The exceptions the probes of [is_command_available] catch. *)
Definition is_probe_error (e : exn) : bool :=
  match e with
  | CalledProcessError _ | FileNotFoundError | TimeoutExpired => true
  | _ => false
  end.

Definition is_command_available (command : string) : M bool :=
  try_except
    (subprocess_run [command; "--version"] true true true ;; ret true)
    is_probe_error
    (fun _ =>
       try_except
         (subprocess_run [command; "--help"] true true true ;; ret true)
         is_probe_error
         (fun _ =>
            if String.eqb command "which" then
              try_except
                (subprocess_run ["which"; "ls"] true true true ;; ret true)
                is_probe_error
                (fun _ => ret false)
            else ret false)).

Fixpoint span_nonspace (s : string) : string :=
  match s with
  | EmptyString => EmptyString
  | String c s' => if isspace c then EmptyString else String c (span_nonspace s')
  end.

Definition drop3 (s : string) : string :=
  match s with
  | String _ (String _ (String _ r)) => r
  | _ => EmptyString
  end.

(** [re.search(r"dev\s+([^\s]+)", text)]: the first group of the
    leftmost match, [None] when there is none. *)
Fixpoint search_dev (text : string) : option string :=
  let here :=
    if startswith text "dev" then
      match drop3 text with
      | String c r =>
          if isspace c then
            match lstrip r with
            | EmptyString => None
            | g => Some (span_nonspace g)
            end
          else None
      | EmptyString => None
      end
    else None in
  match here with
  | Some g => Some g
  | None =>
      match text with
      | EmptyString => None
      | String _ text' => search_dev text'
      end
  end.

(** The result is [None] for Python's [None]. *)
Definition get_default_linux_interface : M (option string) :=
  try_except
    (let* result := subprocess_run ["ip"; "route"; "get"; "1.1.1.1"] true true false in
     ret (search_dev (stdout result)))
    is_Exception
    (fun _ => ret None).

Definition is_service_active (service_name : string) : M bool :=
  let* avail := is_command_available "systemctl" in
  if negb avail then ret false
  else
    try_except
      (let* result := subprocess_run ["systemctl"; "is-active"; service_name] false true false in
       ret ((returncode result =? 0) && String.eqb (strip (stdout result)) "active")%bool)
      is_Exception
      (fun _ => ret false).

(** ** [set_dns_linux] *)

(** A block of a function either returns from the function ([Some b]) or
    falls through to the statement after it ([None]). *)

Definition COLON : ascii := chr 58.

Definition nmcli_active_devices (out : string) : list string :=
  flat_map
    (fun line =>
       if endswith line ":connected"
       then match split COLON line with d :: _ => [d] | [] => [] end
       else [])
    (split LF (strip out)).

Fixpoint set_dns_linux_nmcli_devices (active_devices : list string)
    (dns_servers_comma_str : string) : M (option bool) :=
  match active_devices with
  | [] => ret None
  | device :: rest =>
      let cmd_set_dns := ["nmcli"; "dev"; "mod"; device; "ipv4.dns"; dns_servers_comma_str] in
      let* set_dns_result := subprocess_run cmd_set_dns false true false in
      if returncode set_dns_result =? 0 then
        let cmd_ignore_auto := ["nmcli"; "dev"; "mod"; device; "ipv4.ignore-auto-dns"; "yes"] in
        subprocess_run cmd_ignore_auto false true false ;;
        let cmd_reapply := ["nmcli"; "dev"; "reapply"; device] in
        let* reapply_result := subprocess_run cmd_reapply false true false in
        if returncode reapply_result =? 0 then ret (Some true)
        else set_dns_linux_nmcli_devices rest dns_servers_comma_str
      else set_dns_linux_nmcli_devices rest dns_servers_comma_str
  end.

(** Method 1: NetworkManager. *)
Definition set_dns_linux_nmcli (dns_servers : list string) : M (option bool) :=
  let dns_servers_comma_str := join "," dns_servers in
  let* avail := is_command_available "nmcli" in
  if avail then
    try_except
      (let* result := subprocess_run ["nmcli"; "-t"; "-f"; "DEVICE,STATE"; "dev"] true true false in
       let active_devices := nmcli_active_devices (stdout result) in
       set_dns_linux_nmcli_devices active_devices dns_servers_comma_str)
      is_Exception
      (fun _ => ret None)
  else ret None.

(** Method 2: systemd-resolved, on the interface of the default route. *)
Definition set_dns_linux_resolvectl (dns_servers : list string) : M (option bool) :=
  let* avail := is_command_available "resolvectl" in
  if avail then
    let* interface := get_default_linux_interface in
    match interface with
    | Some interface =>
        let cmd := (["resolvectl"; "dns"; interface] ++ dns_servers)%list in
        try_except
          (let* result := subprocess_run cmd false true false in
           if returncode result =? 0 then ret (Some true) else ret None)
          is_Exception
          (fun _ => ret None)
    | None => ret None
    end
  else ret None.

Definition resolv_conf_path : string := "/etc/resolv.conf".

Definition known_dynamic_targets : list string :=
  [ "systemd/resolve/stub-resolv.conf";
    "systemd/resolve/resolv.conf";
    "NetworkManager/resolv.conf";
    "run/resolvconf/resolv.conf" ].

Definition generator_comments : list string :=
  [ "# Generated by NetworkManager";
    "# Generated by resolvconf";
    "# Generated by systemd-resolved";
    "# Dynamic resolv.conf(5) file for glibc resolver(3) generated by resolvconf(8)";
    "#     DO NOT EDIT THIS FILE BY HAND -- YOUR CHANGES WILL BE OVERWRITTEN" ].

(** The backup path of the direct-file method of [set_dns_linux]. *)
Definition set_backup_path : string := "/etc/resolv.conf.bak_set_dns_py".

Definition temp_resolv_path : string := "/tmp/resolv.conf.new".

Definition new_resolv_content (dns_servers : list string) : string :=
  fold_left (fun acc server => acc ++ "nameserver " ++ server ++ str1 LF)
    dns_servers
    ("# DNS configuration managed by set_dns_crossplatform.py (manual override)" ++ str1 LF).

(** Check 1: a symbolic link to a file some service regenerates. *)
Definition safety_check_symlink : M (option bool) :=
  fun w =>
    if path_islink w resolv_conf_path then
      match readlink w resolv_conf_path with
      | Ret link_target =>
          if existsb (fun target => contains target link_target) known_dynamic_targets
          then (Ret (Some false), w)
          else (Ret None, w)
      | Raise e => (Raise e, w)
      end
    else (Ret None, w).

(** Check 2: a generator's comment in the first 1024 characters. *)
Definition safety_check_comments : M (option bool) :=
  try_except
    (let* text := read_text resolv_conf_path in
     let current_content := take_str 1024 text in
     if existsb (fun comment => contains comment current_content) generator_comments
     then ret (Some false)
     else ret None)
    is_Exception
    (fun _ => ret (Some false)).

(** Backup, then overwrite through a temporary file. *)
Definition backup_and_write (dns_servers : list string) : M bool :=
  try_except
    (subprocess_run ["sudo"; "cp"; "-f"; resolv_conf_path; set_backup_path] true false false ;;
     write_text temp_resolv_path (new_resolv_content dns_servers) ;;
     subprocess_run ["sudo"; "mv"; "-f"; temp_resolv_path; resolv_conf_path] true false false ;;
     ret true)
    is_Exception
    (fun _ => ret false).

(** Method 3: the file itself, as the last resort. *)
Definition set_dns_linux_resolv_conf (dns_servers : list string) : M bool :=
  let* r1 := safety_check_symlink in
  match r1 with
  | Some b => ret b
  | None =>
      let* r2 := safety_check_comments in
      match r2 with
      | Some b => ret b
      | None => backup_and_write dns_servers
      end
  end.

Definition set_dns_linux (dns_servers : list string) : M bool :=
  match dns_servers with
  | [] => ret false
  | _ =>
      let* r1 := set_dns_linux_nmcli dns_servers in
      match r1 with
      | Some b => ret b
      | None =>
          let* r2 := set_dns_linux_resolvectl dns_servers in
          match r2 with
          | Some b => ret b
          | None => set_dns_linux_resolv_conf dns_servers
          end
      end
  end.

(** ** JSON values, [json.dumps(..., indent=4)] and [json.loads] *)

(** Python values of the kinds [json.load] returns.  [JNull] is [None].
    Floating-point numbers are outside the embedding: [json_loads]
    rejects a text that holds one. *)
#[warnings="-register-all"]
Inductive json : Type :=
| JNull
| JBool (b : bool)
| JInt (z : Z)
| JStr (s : string)
| JArr (items : list json)
| JObj (pairs : list (string * json)).

(** Truth value of a Python object, as [if x:] tests it. *)
Definition truthy (v : json) : bool :=
  match v with
  | JNull => false
  | JBool b => b
  | JInt z => negb (z =? 0)
  | JStr s => negb (String.eqb s EmptyString)
  | JArr items => match items with [] => false | _ => true end
  | JObj pairs => match pairs with [] => false | _ => true end
  end.

(** [d[k] = v] on a dict kept in insertion order. *)
Fixpoint dict_set (k : string) (v : json) (d : list (string * json))
    : list (string * json) :=
  match d with
  | [] => [(k, v)]
  | (k', v') :: d' =>
      if String.eqb k k' then (k, v) :: d' else (k', v') :: dict_set k v d'
  end.

(** [dict(pairs)]. *)
Definition dict_of_pairs (pairs : list (string * json)) : list (string * json) :=
  fold_left (fun d kv => dict_set (fst kv) (snd kv) d) pairs [].

Fixpoint dict_lookup (k : string) (d : list (string * json)) : option json :=
  match d with
  | [] => None
  | (k', v) :: d' => if String.eqb k k' then Some v else dict_lookup k d'
  end.

(** [x.get(k, default)]: only a dict has the method. *)
Definition py_get (x : json) (k : string) (default : json) : py json :=
  match x with
  | JObj d => Ret (match dict_lookup k d with Some v => v | None => default end)
  | _ => Raise AttributeError
  end.

(** [x.items()]. *)
Definition py_items (x : json) : py (list (string * json)) :=
  match x with
  | JObj d => Ret d
  | _ => Raise AttributeError
  end.

(** *** Encoding *)

Definition hex_digit (n : nat) : ascii :=
  if (n <? 10)%nat then chr (48 + n) else chr (87 + n).

(** One character of a string, as [ensure_ascii] writes it. *)
Definition escape_char (c : ascii) : string :=
  if Ascii.eqb c QUOTE then String BACKSLASH (str1 QUOTE)
  else if Ascii.eqb c BACKSLASH then String BACKSLASH (str1 BACKSLASH)
  else if Nat.eqb (ord c) 8 then String BACKSLASH "b"
  else if Nat.eqb (ord c) 12 then String BACKSLASH "f"
  else if Nat.eqb (ord c) 10 then String BACKSLASH "n"
  else if Nat.eqb (ord c) 13 then String BACKSLASH "r"
  else if Nat.eqb (ord c) 9 then String BACKSLASH "t"
  else if in_range 32 126 c then str1 c
  else String BACKSLASH
         ("u00" ++ String (hex_digit (ord c / 16)) (str1 (hex_digit (ord c mod 16)))).

Fixpoint escape (s : string) : string :=
  match s with
  | EmptyString => EmptyString
  | String c s' => escape_char c ++ escape s'
  end.

Definition encode_string (s : string) : string :=
  String QUOTE (escape s ++ str1 QUOTE).

Fixpoint spaces (n : nat) : string :=
  match n with
  | O => EmptyString
  | S n' => String " " (spaces n')
  end.

Definition newline_indent (level : nat) : string :=
  String LF (spaces (4 * level)).

Fixpoint pos_digits (fuel : nat) (n : N) (acc : string) : string :=
  match fuel with
  | O => acc
  | S fuel' =>
      let acc' := String (chr (48 + N.to_nat (n mod 10))) acc in
      if (n / 10 =? 0)%N then acc' else pos_digits fuel' (n / 10)%N acc'
  end.

Definition encode_int (z : Z) : string :=
  let n := Z.abs_N z in
  let ds := pos_digits (S (N.to_nat (N.log2 n))) n EmptyString in
  if z <? 0 then String (chr 45) ds else ds.

(** [json.dumps(v, indent=4)], at nesting depth [level]. *)
Fixpoint encode (level : nat) (v : json) : string :=
  match v with
  | JNull => "null"
  | JBool true => "true"
  | JBool false => "false"
  | JInt z => encode_int z
  | JStr s => encode_string s
  | JArr [] => "[]"
  | JArr (x :: xs) =>
      "[" ++ newline_indent (S level) ++ encode (S level) x
      ++ (fix more (l : list json) : string :=
            match l with
            | [] => EmptyString
            | y :: l' =>
                "," ++ newline_indent (S level) ++ encode (S level) y ++ more l'
            end) xs
      ++ newline_indent level ++ "]"
  | JObj [] => "{}"
  | JObj ((k, x) :: xs) =>
      "{" ++ newline_indent (S level) ++ encode_string k ++ ": " ++ encode (S level) x
      ++ (fix more (l : list (string * json)) : string :=
            match l with
            | [] => EmptyString
            | (k', y) :: l' =>
                "," ++ newline_indent (S level) ++ encode_string k' ++ ": "
                ++ encode (S level) y ++ more l'
            end) xs
      ++ newline_indent level ++ "}"
  end.

Definition json_dumps (v : json) : string := encode 0 v.

(** *** Decoding *)

Definition is_json_ws (c : ascii) : bool :=
  (Ascii.eqb c " " || Nat.eqb (ord c) 9 || Nat.eqb (ord c) 10 || Nat.eqb (ord c) 13)%bool.

Fixpoint skip_ws (s : string) : string :=
  match s with
  | EmptyString => EmptyString
  | String c s' => if is_json_ws c then skip_ws s' else s
  end.

Definition hex_value (c : ascii) : option nat :=
  if in_range 48 57 c then Some (ord c - 48)%nat
  else if in_range 97 102 c then Some (ord c - 87)%nat
  else if in_range 65 70 c then Some (ord c - 55)%nat
  else None.

Definition hex4 (a b c d : ascii) : option nat :=
  match hex_value a, hex_value b, hex_value c, hex_value d with
  | Some x, Some y, Some z, Some t => Some (((x * 16 + y) * 16 + z) * 16 + t)%nat
  | _, _, _, _ => None
  end.

Definition unescape (e : ascii) : option ascii :=
  if Ascii.eqb e QUOTE then Some QUOTE
  else if Ascii.eqb e BACKSLASH then Some BACKSLASH
  else if Ascii.eqb e "/" then Some "/"%char
  else if Ascii.eqb e "b" then Some (chr 8)
  else if Ascii.eqb e "f" then Some (chr 12)
  else if Ascii.eqb e "n" then Some (chr 10)
  else if Ascii.eqb e "r" then Some (chr 13)
  else if Ascii.eqb e "t" then Some (chr 9)
  else None.

Definition cons_str (c : ascii) (r : option (string * string)) : option (string * string) :=
  match r with
  | Some (s, rest) => Some (String c s, rest)
  | None => None
  end.

(** [scanstring], from just after the opening quote: the string and the
    text after its closing quote.  An escape of a code point above U+00FF
    is outside the embedding and is rejected. *)
Fixpoint scanstring (s : string) : option (string * string) :=
  match s with
  | EmptyString => None
  | String c r =>
      if Ascii.eqb c QUOTE then Some (EmptyString, r)
      else if Ascii.eqb c BACKSLASH then
        match r with
        | String e r' =>
            if Ascii.eqb e "u" then
              match r' with
              | String h1 (String h2 (String h3 (String h4 r''))) =>
                  match hex4 h1 h2 h3 h4 with
                  | Some n =>
                      if (n <? 256)%nat then cons_str (chr n) (scanstring r'')
                      else None
                  | None => None
                  end
              | _ => None
              end
            else
              match unescape e with
              | Some ch => cons_str ch (scanstring r')
              | None => None
              end
        | EmptyString => None
        end
      else if (ord c <? 32)%nat then None
      else cons_str c (scanstring r)
  end.

Fixpoint scan_digits (s : string) : string * string :=
  match s with
  | String c r =>
      if isdigit c then let (ds, rest) := scan_digits r in (String c ds, rest)
      else (EmptyString, s)
  | EmptyString => (EmptyString, EmptyString)
  end.

(** The text continues a number as a fraction or an exponent. *)
Definition float_tail (s : string) : bool :=
  match s with
  | String c (String d r) =>
      if Ascii.eqb c "." then isdigit d
      else if (Ascii.eqb c "e" || Ascii.eqb c "E")%bool then
        if isdigit d then true
        else if (Ascii.eqb d "+" || Ascii.eqb d "-")%bool then
          match r with String f _ => isdigit f | EmptyString => false end
        else false
      else false
  | _ => false
  end.

(** An integer literal: an optional minus sign, then [0] or a digit
    from 1 to 9 followed by any digits. *)
Definition scan_int (s : string) : option (Z * string) :=
  let (neg, body) :=
    match s with
    | String c r => if Ascii.eqb c "-" then (true, r) else (false, s)
    | EmptyString => (false, s)
    end in
  match body with
  | String c r =>
      if Ascii.eqb c "0" then
        if float_tail r then None else Some (0, r)
      else if isdigit c then
        let (ds, rest) := scan_digits body in
        if float_tail rest then None
        else match digits_value 0 ds with
             | Some v => Some (if neg then - v else v, rest)
             | None => None
             end
      else None
  | EmptyString => None
  end.

Fixpoint parse_value (fuel : nat) (s : string) : option (json * string) :=
  match fuel with
  | O => None
  | S fuel' =>
      match s with
      | EmptyString => None
      | String c r =>
          if Ascii.eqb c QUOTE then
            match scanstring r with
            | Some (str, rest) => Some (JStr str, rest)
            | None => None
            end
          else if Ascii.eqb c "{" then
            match skip_ws r with
            | String d r1 =>
                if Ascii.eqb d "}" then Some (JObj [], r1)
                else match parse_pairs fuel' (String d r1) with
                     | Some (pairs, rest) => Some (JObj (dict_of_pairs pairs), rest)
                     | None => None
                     end
            | EmptyString => None
            end
          else if Ascii.eqb c "[" then
            match skip_ws r with
            | String d r1 =>
                if Ascii.eqb d "]" then Some (JArr [], r1)
                else match parse_items fuel' (String d r1) with
                     | Some (items, rest) => Some (JArr items, rest)
                     | None => None
                     end
            | EmptyString => None
            end
          else if startswith s "null" then Some (JNull, drop3 r)
          else if startswith s "true" then Some (JBool true, drop3 r)
          else if startswith s "false" then
            Some (JBool false, match drop3 r with String _ t => t | EmptyString => EmptyString end)
          else
            match scan_int s with
            | Some (z, rest) => Some (JInt z, rest)
            | None => None
            end
      end
  end
with parse_items (fuel : nat) (s : string) : option (list json * string) :=
  match fuel with
  | O => None
  | S fuel' =>
      match parse_value fuel' s with
      | Some (v, rest) =>
          match skip_ws rest with
          | String d r1 =>
              if Ascii.eqb d "," then
                match parse_items fuel' (skip_ws r1) with
                | Some (items, rest') => Some (v :: items, rest')
                | None => None
                end
              else if Ascii.eqb d "]" then Some ([v], r1)
              else None
          | EmptyString => None
          end
      | None => None
      end
  end
with parse_pairs (fuel : nat) (s : string) : option (list (string * json) * string) :=
  match fuel with
  | O => None
  | S fuel' =>
      match s with
      | String q r =>
          if Ascii.eqb q QUOTE then
            match scanstring r with
            | Some (key, rest) =>
                match skip_ws rest with
                | String d r1 =>
                    if Ascii.eqb d ":" then
                      match parse_value fuel' (skip_ws r1) with
                      | Some (v, rest1) =>
                          match skip_ws rest1 with
                          | String e r2 =>
                              if Ascii.eqb e "," then
                                match parse_pairs fuel' (skip_ws r2) with
                                | Some (pairs, rest') => Some ((key, v) :: pairs, rest')
                                | None => None
                                end
                              else if Ascii.eqb e "}" then Some ([(key, v)], r2)
                              else None
                          | EmptyString => None
                          end
                      | None => None
                      end
                    else None
                | EmptyString => None
                end
            | None => None
            end
          else None
      | EmptyString => None
      end
  end.

(** [json.loads(text)]. *)
Definition json_loads (text : string) : py json :=
  match parse_value (2 * String.length text + 2) (skip_ws text) with
  | Some (v, rest) =>
      match skip_ws rest with
      | EmptyString => Ret v
      | _ => Raise JSONDecodeError
      end
  | None => Raise JSONDecodeError
  end.

(** ** The snapshot file *)

Definition ORIGINAL_DNS_CONFIG_FILE : string := "original_dns_config.json".

Definition save_original_dns_settings (original_settings : json) (filepath : string)
    : M unit :=
  if truthy original_settings then
    try_except
      (write_text filepath (json_dumps original_settings))
      is_Exception
      (fun _ => ret tt)
  else ret tt.

Definition load_original_dns_settings (filepath : string) : M json :=
  fun w =>
    if negb (path_exists w filepath) then (Ret JNull, w)
    else
      try_except
        (let* text := read_text filepath in
         lift (json_loads text))
        is_Exception
        (fun _ => ret JNull) w.

(** ** Restoring *)

(** What one iteration of a restore loop does to the loop: it goes on
    with the next entry, having restored this one ([Next true]) or not
    ([Next false]), or it leaves the function ([Return b]). *)
Inductive step : Type :=
| Next (ok : bool)
| Return (b : bool).

Definition emit (e : event) : M unit := fun w => (Ret tt, record e w).

Definition is_str (v : json) (s : string) : bool :=
  match v with
  | JStr t => String.eqb t s
  | _ => false
  end.

Fixpoint all_strs (items : list json) : py (list string) :=
  match items with
  | [] => Ret []
  | JStr s :: rest => py_bind (all_strs rest) (fun l => Ret (s :: l))
  | _ :: _ => Raise TypeError
  end.

Fixpoint chars (s : string) : list string :=
  match s with
  | EmptyString => []
  | String c s' => str1 c :: chars s'
  end.

(** [sep.join(x)] for a Python object [x]: it iterates a list, the
    characters of a string or the keys of a dict, and every item must be a
    string. *)
Definition py_join (sep : string) (x : json) : py string :=
  match x with
  | JArr items => py_bind (all_strs items) (fun l => Ret (join sep l))
  | JStr s => Ret (join sep (chars s))
  | JObj d => Ret (join sep (map fst d))
  | _ => Raise TypeError
  end.

(** The backup path the direct-file branch of [restore_dns_linux] reads. *)
Definition restore_backup_path : string := "/etc/resolv.conf.bak".

Definition restore_dns_linux_entry (interface_id : string)
    (is_dhcp servers method : json) : M step :=
  try_except
    (if (is_str method "nmcli" || is_str method "nmcli_unknown_fallback_to_dhcp")%bool then
       let* dns :=
         if truthy is_dhcp then ret EmptyString else lift (py_join "," servers) in
       let cmd_dns := ["nmcli"; "dev"; "mod"; interface_id; "ipv4.dns"; dns] in
       let cmd_auto :=
         ["nmcli"; "dev"; "mod"; interface_id; "ipv4.ignore-auto-dns";
          if truthy is_dhcp then "no" else "yes"] in
       subprocess_run cmd_dns true true false ;;
       subprocess_run cmd_auto true true false ;;
       subprocess_run ["nmcli"; "dev"; "reapply"; interface_id] true true false ;;
       ret (Next true)
     else if is_str method "resolvectl" then
       subprocess_run ["resolvectl"; "revert"; interface_id] true true false ;;
       ret (Next true)
     else if is_str method "resolv.conf" then
       fun w =>
         if path_exists w restore_backup_path then
           (subprocess_run ["mv"; restore_backup_path; "/etc/resolv.conf"] true false false ;;
            ret (Next true)) w
         else (Ret (Next false), w)
     else ret (Next false))
    is_Exception
    (fun e =>
       match e with
       | CalledProcessError captured =>
           (* e.stderr.strip(): e.stderr is None unless the output was captured *)
           if captured then ret (Next false) else raise AttributeError
       | FileNotFoundError => ret (Return false)
       | _ => ret (Next false)
       end).

Fixpoint restore_dns_linux_loop (items : list (string * json)) (success : bool)
    : M bool :=
  match items with
  | [] => ret success
  | (interface_id, config) :: rest =>
      lift (py_get config "method" (JStr "unknown")) ;;
      emit (Restoring interface_id) ;;
      let* is_dhcp := lift (py_get config "dhcp" (JBool false)) in
      let* servers := lift (py_get config "servers" (JArr [])) in
      let* method := lift (py_get config "method" (JStr EmptyString)) in
      let* st := restore_dns_linux_entry interface_id is_dhcp servers method in
      match st with
      | Next ok => restore_dns_linux_loop rest (success && ok)%bool
      | Return b => ret b
      end
  end.

Definition restore_dns_linux (settings : json) : M bool :=
  let* items := lift (py_items settings) in
  restore_dns_linux_loop items true.

(** *** Windows and macOS *)

Definition isprintable (c : ascii) : bool :=
  (in_range 32 126 c || (in_range 161 255 c && negb (Nat.eqb (ord c) 173)))%bool.

Definition repr_char (quote : ascii) (c : ascii) : string :=
  if (Ascii.eqb c quote || Ascii.eqb c BACKSLASH)%bool then String BACKSLASH (str1 c)
  else if Nat.eqb (ord c) 9 then String BACKSLASH "t"
  else if Nat.eqb (ord c) 10 then String BACKSLASH "n"
  else if Nat.eqb (ord c) 13 then String BACKSLASH "r"
  else if isprintable c then str1 c
  else String BACKSLASH
         ("x" ++ String (hex_digit (ord c / 16)) (str1 (hex_digit (ord c mod 16)))).

Definition APOSTROPHE : ascii := chr 39.

Definition repr_str (s : string) : string :=
  let quote :=
    if (contains (str1 APOSTROPHE) s && negb (contains (str1 QUOTE) s))%bool
    then QUOTE else APOSTROPHE in
  String quote
    ((fix go (t : string) : string :=
        match t with
        | EmptyString => EmptyString
        | String c t' => repr_char quote c ++ go t'
        end) s ++ str1 quote).

(** [repr(v)] *)
Fixpoint py_repr (v : json) : string :=
  match v with
  | JNull => "None"
  | JBool true => "True"
  | JBool false => "False"
  | JInt z => encode_int z
  | JStr s => repr_str s
  | JArr items => "[" ++ join ", " (map py_repr items) ++ "]"
  | JObj pairs =>
      "{" ++ join ", " (map (fun kv => repr_str (fst kv) ++ ": " ++ py_repr (snd kv)) pairs)
      ++ "}"
  end.

(** [str(v)], as an f-string formats [v]. *)
Definition py_str (v : json) : string :=
  match v with
  | JStr s => s
  | _ => py_repr v
  end.

(** The items of [x[0]] and [x[1:]] when both exist. *)
Definition head_and_tail (x : json) : py (json * list json) :=
  match x with
  | JArr (v :: rest) => Ret (v, rest)
  | JArr [] => Raise IndexError
  | JStr (String c rest) => Ret (JStr (str1 c), map JStr (chars rest))
  | JStr EmptyString => Raise IndexError
  | JObj _ => Raise IndexError (* KeyError: no key of a loaded dict is 0 *)
  | _ => Raise TypeError
  end.

Definition quoted (s : string) : string := String QUOTE (s ++ str1 QUOTE).

Fixpoint restore_dns_windows_add (interface_name : string) (rest : list json) (i : nat)
    : M unit :=
  match rest with
  | [] => ret tt
  | dns_server_ip :: rest' =>
      let cmd_add :=
        ["netsh"; "interface"; "ipv4"; "add"; "dnsserver";
         "name=" ++ quoted interface_name;
         "addr=" ++ quoted (py_str dns_server_ip);
         "index=" ++ encode_int (Z.of_nat (i + 1)); "validate=no"] in
      subprocess_run cmd_add true true false ;;
      restore_dns_windows_add interface_name rest' (S i)
  end.

Definition restore_dns_windows_entry (interface_name : string) (is_dhcp servers : json)
    : M step :=
  try_except
    (if truthy is_dhcp then
       subprocess_run
         ["netsh"; "interface"; "ipv4"; "set"; "dnsservers";
          "name=" ++ quoted interface_name; "source=dhcp"] true true false ;;
       ret (Next true)
     else if truthy servers then
       let* ht := lift (head_and_tail servers) in
       subprocess_run
         ["netsh"; "interface"; "ipv4"; "set"; "dnsserver";
          "name=" ++ quoted interface_name; "static";
          "addr=" ++ quoted (py_str (fst ht)); "validate=no"] true true false ;;
       restore_dns_windows_add interface_name (snd ht) 1 ;;
       ret (Next true)
     else ret (Next false))
    is_Exception
    (fun e =>
       match e with
       | FileNotFoundError => ret (Return false)
       | _ => ret (Next false)
       end).

Fixpoint restore_dns_windows_loop (items : list (string * json)) (success : bool)
    : M bool :=
  match items with
  | [] => ret success
  | (interface_name, config) :: rest =>
      emit (Restoring interface_name) ;;
      let* is_dhcp := lift (py_get config "dhcp" (JBool false)) in
      let* servers := lift (py_get config "servers" (JArr [])) in
      let* st := restore_dns_windows_entry interface_name is_dhcp servers in
      match st with
      | Next ok => restore_dns_windows_loop rest (success && ok)%bool
      | Return b => ret b
      end
  end.

Definition restore_dns_windows (settings : json) : M bool :=
  let* items := lift (py_items settings) in
  restore_dns_windows_loop items true.

Definition restore_dns_macos_entry (service_name : string) (is_dhcp servers : json)
    : M step :=
  try_except
    (let* cmd :=
       if truthy is_dhcp then
         ret (Some ["sudo"; "networksetup"; "-setdnsservers"; service_name; "empty"])
       else if truthy servers then
         match servers with
         | JArr items =>
             (* ' '.join(cmd) wants strings only *)
             let* l := lift (all_strs items) in
             ret (Some (["sudo"; "networksetup"; "-setdnsservers"; service_name] ++ l)%list)
         | _ => raise TypeError
         end
       else ret None in
     match cmd with
     | Some cmd => subprocess_run cmd true true false ;; ret (Next true)
     | None => ret (Next false)
     end)
    is_Exception
    (fun e =>
       match e with
       | FileNotFoundError => ret (Return false)
       | _ => ret (Next false)
       end).

Fixpoint restore_dns_macos_loop (items : list (string * json)) (success : bool)
    : M bool :=
  match items with
  | [] => ret success
  | (service_name, config) :: rest =>
      emit (Restoring service_name) ;;
      let* is_dhcp := lift (py_get config "dhcp" (JBool false)) in
      let* servers := lift (py_get config "servers" (JArr [])) in
      let* st := restore_dns_macos_entry service_name is_dhcp servers in
      match st with
      | Next ok => restore_dns_macos_loop rest (success && ok)%bool
      | Return b => ret b
      end
  end.

Definition restore_dns_macos (settings : json) : M bool :=
  let* items := lift (py_items settings) in
  restore_dns_macos_loop items true.

(** ** Flushing the resolver caches *)

Definition flush_dns_windows : M bool :=
  try_except
    (subprocess_run ["ipconfig"; "/flushdns"] true true false ;; ret true)
    is_Exception
    (fun _ => ret false).

(** [sudo <argv>] without [check]: whether it exited with status 0; any
    exception counts as a failure. *)
Definition run_ok (argv : list string) : M bool :=
  try_except
    (let* result := subprocess_run argv false true false in
     ret (returncode result =? 0))
    is_Exception
    (fun _ => ret false).

(** The fallback to an init script, taken when [restarted] is false. *)
Definition init_d_restart (restarted : bool) (script : string) : M bool :=
  fun w =>
    if (negb restarted && path_exists w script)%bool
    then run_ok ["sudo"; script; "restart"] w
    else (Ret restarted, w).

Definition flush_dns_linux_nscd : M bool :=
  let* avail := is_command_available "nscd" in
  if avail then
    let* systemctl := is_command_available "systemctl" in
    let* restarted_nscd :=
      if systemctl then
        try_except
          (let* a1 := is_service_active "nscd" in
           let* active := if a1 then ret true else is_service_active "nscd.service" in
           if active then
             let* result := subprocess_run ["sudo"; "systemctl"; "restart"; "nscd"] false true false in
             ret (returncode result =? 0)
           else ret false)
          is_Exception
          (fun _ => ret false)
      else ret false in
    init_d_restart restarted_nscd "/etc/init.d/nscd"
  else ret false.

Definition flush_dns_linux_dnsmasq : M bool :=
  let* avail := is_command_available "dnsmasq" in
  if avail then
    let* systemctl := is_command_available "systemctl" in
    let* restarted_dnsmasq :=
      if systemctl then
        try_except
          (let* a1 := is_service_active "dnsmasq" in
           let* active_dnsmasq_service :=
             if a1 then ret (Some "dnsmasq")
             else
               let* a2 := is_service_active "dnsmasq.service" in
               ret (if a2 then Some "dnsmasq.service" else None) in
           match active_dnsmasq_service with
           | Some name =>
               let* result := subprocess_run ["sudo"; "systemctl"; "restart"; name] false true false in
               ret (returncode result =? 0)
           | None => ret false
           end)
          is_Exception
          (fun _ => ret false)
      else ret false in
    init_d_restart restarted_dnsmasq "/etc/init.d/dnsmasq"
  else ret false.

Definition flush_dns_linux : M bool :=
  let* avail := is_command_available "resolvectl" in
  let* flushed_successfully :=
    if avail then run_ok ["sudo"; "resolvectl"; "flush-caches"] else ret false in
  if flushed_successfully then ret true
  else
    let* flushed_successfully := flush_dns_linux_nscd in
    if flushed_successfully then ret true
    else flush_dns_linux_dnsmasq.

(** [a or b] on strings. *)
Definition str_or (a b : string) : string :=
  if String.eqb a EmptyString then b else a.

(** The body of this function is indented inconsistently in the script;
    it is read here by its [try]/[if]/[else] keywords. *)
Definition flush_dns_macos : M bool :=
  let* flushed_dscache :=
    try_except
      (let* result_dscache := subprocess_run ["sudo"; "dscacheutil"; "-flushcache"] false true false in
       if returncode result_dscache =? 0 then ret true
       else
         let error_msg := str_or (strip (stderr result_dscache)) (strip (stdout result_dscache)) in
         ret (contains "command not found" (lower error_msg)
              || contains "No such file or directory" (lower error_msg))%bool)
      is_Exception
      (fun e => match e with FileNotFoundError => ret true | _ => ret false end) in
  let* flushed_mdnsresponder := run_ok ["sudo"; "killall"; "-HUP"; "mDNSResponder"] in
  ret (flushed_mdnsresponder || flushed_dscache)%bool.

Definition flush_dns : M unit :=
  fun w =>
    (let* current_os := lift (get_os (system_name w) None) in
     if String.eqb current_os "windows" then flush_dns_windows ;; ret tt
     else if String.eqb current_os "linux" then flush_dns_linux ;; ret tt
     else if String.eqb current_os "macos" then flush_dns_macos ;; ret tt
     else ret tt) w.

(** ** Privileges *)

Definition check_privileges : M bool :=
  fun w =>
    (let* current_os_for_privileges := lift (get_os (system_name w) None) in
     if String.eqb current_os_for_privileges "windows" then
       match user_is_admin w with
       | Some is_admin => ret is_admin
       | None => ret false (* AttributeError *)
       end
     else if (String.eqb current_os_for_privileges "linux"
              || String.eqb current_os_for_privileges "macos")%bool then
       ret (euid w =? 0)
     else ret false) w.

(** ** The restore flow *)

(** [sys.exit(1)] *)
Definition sys_exit {A : Type} (code : Z) : M A := raise (SystemExit code).

Definition run_restore_dns_flow : M unit :=
  fun w0 =>
    (let* privileged := check_privileges in
     if negb privileged then
       lift (get_os (system_name w0) None) ;;
       sys_exit 1
     else
       let* original_settings := load_original_dns_settings ORIGINAL_DNS_CONFIG_FILE in
       if negb (truthy original_settings) then sys_exit 1
       else
         let* current_os := lift (get_os (system_name w0) None) in
         let* restored_ok :=
           if String.eqb current_os "windows" then
             let* settings := lift (py_get original_settings "windows" (JObj [])) in
             restore_dns_windows settings
           else if String.eqb current_os "linux" then
             let* settings := lift (py_get original_settings "linux" (JObj [])) in
             restore_dns_linux settings
           else if String.eqb current_os "macos" then
             let* settings := lift (py_get original_settings "macos" (JObj [])) in
             restore_dns_macos settings
           else sys_exit 1 in
         (if restored_ok then
            try_except (os_remove ORIGINAL_DNS_CONFIG_FILE) is_OSError (fun _ => ret tt)
          else ret tt) ;;
         flush_dns) w0.

(** ** The snapshot, typed *)

(** The [dhcp] field: a boolean, or a marker string for the methods that
    do not tell. *)
Inductive DhcpFlag : Type :=
| Dhcp (b : bool)
| DhcpMarker (marker : string).

Record AttachmentSnapshot : Type := {
  servers : list string;
  is_dhcp : DhcpFlag;
  method : string
}.

(** Platform name to attachment point to snapshot, in insertion order. *)
Definition HostSnapshot : Type := list (string * list (string * AttachmentSnapshot)).

Definition dhcp_to_py (d : DhcpFlag) : json :=
  match d with
  | Dhcp b => JBool b
  | DhcpMarker m => JStr m
  end.

(** The dict the snapshotters build for one attachment point. *)
Definition attachment_to_py (a : AttachmentSnapshot) : json :=
  JObj [("servers", JArr (map JStr (servers a)));
        ("dhcp", dhcp_to_py (is_dhcp a));
        ("method", JStr (method a))].

Definition points_to_py (points : list (string * AttachmentSnapshot)) : json :=
  JObj (map (fun kv => (fst kv, attachment_to_py (snd kv))) points).

Definition snapshot_to_py (S : HostSnapshot) : json :=
  JObj (map (fun kv => (fst kv, points_to_py (snd kv))) S).

(** Keys of a dict are distinct. *)
Definition snapshot_keys_distinct (S : HostSnapshot) : Prop :=
  NoDup (map fst S) /\ Forall (fun kv => NoDup (map fst (snd kv))) S.

(** * Predicates of the specification and example hosts *)

(** ** Dotted quads *)

Definition all_digits (g : string) : bool :=
  forallb isdigit (list_ascii_of_string g).

(** The value of a string of decimal digits (0 when it is not one). *)
Definition group_value (g : string) : Z :=
  match digits_value 0 g with
  | Some v => v
  | None => 0
  end.

(** A decimal group with numeric value in [0,255], as the specification
    words it: digits, at least one, of any number. *)
Definition decimal_group (g : string) : Prop :=
  g <> EmptyString /\ all_digits g = true /\ 0 <= group_value g <= 255.

(** The same with the pattern's bound on the number of digits. *)
Definition octet (g : string) : Prop :=
  (1 <= String.length g <= 3)%nat /\ all_digits g = true /\ 0 <= group_value g <= 255.

Definition dotted (a b c d : string) : string :=
  a ++ "." ++ b ++ "." ++ c ++ "." ++ d.

(** "Exactly four dot-separated decimal groups, each in [0,255], with no
    leading or trailing content." *)
Definition spec_dotted_quad (s : string) : Prop :=
  exists a b c d, s = dotted a b c d
    /\ decimal_group a /\ decimal_group b /\ decimal_group c /\ decimal_group d.

Definition octet_quad (s : string) : Prop :=
  exists a b c d, s = dotted a b c d /\ octet a /\ octet b /\ octet c /\ octet d.

(** The string ends with a line feed. *)
Fixpoint ends_with_lf (s : string) : bool :=
  match s with
  | EmptyString => false
  | String c EmptyString => Ascii.eqb c LF
  | String _ r => ends_with_lf r
  end.

(** ** The configuration file *)

(** The server a line of the configuration file contributes, if any:
    blank lines and comments contribute none, nor do lines without a
    separator, nor entries whose address is not valid. *)
Definition entry_of_line (line : string) : option string :=
  let line := strip line in
  if (String.eqb line EmptyString || startswith line "#")%bool then None
  else if contains "=" line then
    match split1 EQUALS line with
    | [_; ip_address] =>
        match is_valid_ip (strip ip_address) with
        | Ret true => Some (strip ip_address)
        | _ => None
        end
    | _ => None
    end
  else None.

(** The first three servers of a text, or [None] when it has none. *)
Definition kept_servers (text : string) : option (list string) :=
  match take 3 (omap entry_of_line (readlines text)) with
  | [] => None
  | l => Some l
  end.

(** The text [open(path, 'r')] reads, when it can. *)
Definition readable_text (w : World) (path : string) : option string :=
  if decide (path ∈ denied w) then None
  else match fs w !! path with
       | Some n => universal_newlines <$> seen n
       | None => None
       end.

Definition line (s : string) : string := s ++ str1 LF.

Definition config_example : string :=
  line "# c" ++ line "A=8.8.8.8" ++ line EmptyString ++ line "B=1.1.1.1"
  ++ line "C=9.9.9.9" ++ line "D=4.4.4.4".

Definition config_only_comments : string :=
  line "# Comment 1" ++ line EmptyString ++ line "# Comment 2" ++ line "   ".

Definition config_all_invalid : string :=
  line "GoogleDNS1=8.8.8.256" ++ line "NoEqualsHere" ++ line "InvalidIP=1.2.3.4.5".

(** A host with nothing on it but one file. *)
Definition host_with_file (path content : string) : World :=
  {| system_name := "Linux"; euid := 0; user_is_admin := None;
     fs := {[ path := File content ]}; denied := ∅;
     proc := fun _ => NoSuchFile; log := [] |}.

(** ** The safety gate *)

(** [/etc/resolv.conf] is a symbolic link to a path some daemon manages. *)
Definition link_is_managed (w : World) : bool :=
  match fs w !! resolv_conf_path with
  | Some (Symlink target _) =>
      existsb (fun known => contains known target) known_dynamic_targets
  | _ => false
  end.

(** The first 1024 characters of [/etc/resolv.conf] hold a generator's
    marker. *)
Definition has_generator_marker (w : World) : bool :=
  match readable_text w resolv_conf_path with
  | Some text =>
      existsb (fun marker => contains marker (take_str 1024 text)) generator_comments
  | None => false
  end.

Definition ok : CompletedProcess :=
  {| returncode := 0; stdout := EmptyString; stderr := EmptyString |}.

Definition failed : CompletedProcess :=
  {| returncode := 1; stdout := EmptyString; stderr := "error" |}.

(** A host of systemd-resolved: the resolver file is the stub link. *)
Definition host_stub_link : World :=
  {| system_name := "Linux"; euid := 0; user_is_admin := None;
     fs := {[ resolv_conf_path :=
                Symlink "../run/systemd/resolve/stub-resolv.conf"
                  (Some (line "nameserver 127.0.0.53")) ]};
     denied := ∅;
     proc := fun argv => match argv with "sudo" :: _ => Exits ok | _ => NoSuchFile end;
     log := [] |}.

(** ** Example hosts for the direct-file method *)

Definition original_resolv_conf : string := line "nameserver 192.168.1.1".

(** A host without NetworkManager and systemd-resolved, whose resolver
    file is a plain file; [sudo] and [mv] work. *)
Definition host_plain_file : World :=
  {| system_name := "Linux"; euid := 0; user_is_admin := None;
     fs := {[ resolv_conf_path := File original_resolv_conf ]};
     denied := ∅;
     proc := fun argv =>
       match argv with
       | cmd :: _ =>
           if (String.eqb cmd "sudo" || String.eqb cmd "mv")%bool
           then Exits ok else NoSuchFile
       | [] => NoSuchFile
       end;
     log := [] |}.

(** The entry the snapshotter records for the direct-file method. *)
Definition resolv_conf_entry : string * json :=
  (resolv_conf_path,
   JObj [("servers", JArr [JStr "192.168.1.1"]);
         ("dhcp", JBool false);
         ("method", JStr "resolv.conf")]).

(** ** Example hosts for NetworkManager and systemd-resolved *)

Definition nmcli_listing : string :=
  line "eth0:connected" ++ line "wlan0:connected" ++ line "lo:unmanaged".

(** A host of NetworkManager with two connected devices; every [nmcli]
    command succeeds. *)
Definition host_two_devices : World :=
  {| system_name := "Linux"; euid := 0; user_is_admin := None;
     fs := {[ resolv_conf_path := File original_resolv_conf ]};
     denied := ∅;
     proc := fun argv =>
       match argv with
       | cmd :: rest =>
           if String.eqb cmd "nmcli" then
             match rest with
             | ["-t"; "-f"; "DEVICE,STATE"; "dev"] =>
                 Exits {| returncode := 0; stdout := nmcli_listing; stderr := EmptyString |}
             | _ => Exits ok
             end
           else NoSuchFile
       | [] => NoSuchFile
       end;
     log := [] |}.

Definition nmcli_set_dns (device dns : string) : list string :=
  ["nmcli"; "dev"; "mod"; device; "ipv4.dns"; dns].
Definition nmcli_ignore_auto (device : string) : list string :=
  ["nmcli"; "dev"; "mod"; device; "ipv4.ignore-auto-dns"; "yes"].
Definition nmcli_reapply (device : string) : list string :=
  ["nmcli"; "dev"; "reapply"; device].

(** The command runs to completion with status 0. *)
Definition exits_ok (w : World) (argv : list string) : Prop :=
  exists cp, proc w argv = Exits cp /\ returncode cp = 0.

(** The command runs to completion with another status. *)
Definition exits_bad (w : World) (argv : list string) : Prop :=
  exists cp, proc w argv = Exits cp /\ returncode cp <> 0.

(** The command runs to completion. *)
Definition exits (w : World) (argv : list string) : Prop :=
  exists cp, proc w argv = Exits cp.

(** The executable of a tool is not installed: both probes fail to find
    it. *)
Definition tool_absent (w : World) (command : string) : Prop :=
  proc w [command; "--version"] = NoSuchFile
  /\ proc w [command; "--help"] = NoSuchFile.

(** No command fails to start for a reason other than a missing
    executable. *)
Definition calm (w : World) : Prop := forall argv, proc w argv <> CannotRun.

Definition ip_route_output : string :=
  line "1.1.1.1 via 192.168.1.1 dev enp3s0 src 192.168.1.20 uid 0".

(** A host of systemd-resolved without NetworkManager. *)
Definition host_resolved : World :=
  {| system_name := "Linux"; euid := 0; user_is_admin := None;
     fs := {[ resolv_conf_path :=
                Symlink "../run/systemd/resolve/stub-resolv.conf"
                  (Some (line "nameserver 127.0.0.53")) ]};
     denied := ∅;
     proc := fun argv =>
       match argv with
       | cmd :: rest =>
           if String.eqb cmd "resolvectl" then Exits ok
           else if String.eqb cmd "ip" then
             Exits {| returncode := 0; stdout := ip_route_output; stderr := EmptyString |}
           else NoSuchFile
       | [] => NoSuchFile
       end;
     log := [] |}.

(** ** Example hosts for the restore flow *)

(** A snapshot taken on Windows. *)
Definition windows_snapshot : json :=
  JObj [("windows",
         JObj [("Ethernet",
                JObj [("servers", JArr [JStr "192.168.1.1"]);
                      ("dhcp", JBool true);
                      ("method", JStr "netsh")])])].

(** A Linux host, run as root, that holds the snapshot of another
    platform. *)
Definition host_foreign_snapshot : World :=
  {| system_name := "Linux"; euid := 0; user_is_admin := None;
     fs := {[ ORIGINAL_DNS_CONFIG_FILE := File (json_dumps windows_snapshot) ]};
     denied := ∅;
     proc := fun _ => NoSuchFile;
     log := [] |}.

(** ** Restoring with a missing backup *)

(** The points whose iteration of a restore loop began, in order. *)
Definition visited (l : list event) : list string :=
  omap (fun e => match e with Restoring point => Some point | Ran _ => None end) l.

(** Every command finds its executable. *)
Definition no_tool_missing (w : World) : Prop :=
  forall argv, proc w argv <> NoSuchFile.

Definition items_to_py (points : list (string * AttachmentSnapshot))
    : list (string * json) :=
  map (fun kv => (fst kv, attachment_to_py (snd kv))) points.

Definition nmcli_entry (servers : list string) : AttachmentSnapshot :=
  {| servers := servers; is_dhcp := Dhcp false; method := "nmcli" |}.

Definition direct_file_entry : AttachmentSnapshot :=
  {| servers := ["192.168.1.1"]; is_dhcp := Dhcp false; method := "resolv.conf" |}.

(** A snapshot with a direct-file entry followed by two devices of
    NetworkManager. *)
Definition three_points : list (string * AttachmentSnapshot) :=
  [(resolv_conf_path, direct_file_entry);
   ("eth0", nmcli_entry ["192.168.1.1"]);
   ("eth1", nmcli_entry ["192.168.1.1"])].

(** A Linux host with no tool installed and no backup file. *)
Definition host_no_tools : World :=
  {| system_name := "Linux"; euid := 0; user_is_admin := None;
     fs := {[ resolv_conf_path := File (new_resolv_content ["8.8.8.8"]);
              ORIGINAL_DNS_CONFIG_FILE :=
                File (json_dumps (JObj [("linux", points_to_py three_points)])) ]};
     denied := ∅;
     proc := fun _ => NoSuchFile;
     log := [] |}.

(** The same host with NetworkManager installed and working. *)
Definition host_nmcli_only : World :=
  {| system_name := "Linux"; euid := 0; user_is_admin := None;
     fs := {[ resolv_conf_path := File (new_resolv_content ["8.8.8.8"]);
              ORIGINAL_DNS_CONFIG_FILE :=
                File (json_dumps (JObj [("linux", points_to_py three_points)])) ]};
     denied := ∅;
     proc := fun _ => Exits ok;
     log := [] |}.

(** ** Values that round-trip *)

(** Dicts with distinct keys, lists, strings, booleans and [None]: what a
    snapshot is made of.  (Integers are left out: no snapshot holds one.) *)
Fixpoint plain (v : json) : Prop :=
  match v with
  | JInt _ => False
  | JArr items =>
      (fix all (l : list json) : Prop :=
         match l with
         | [] => True
         | x :: l' => plain x /\ all l'
         end) items
  | JObj pairs =>
      NoDup (map fst pairs)
      /\ (fix all (l : list (string * json)) : Prop :=
            match l with
            | [] => True
            | kx :: l' => plain (snd kx) /\ all l'
            end) pairs
  | _ => True
  end.

(** The items of a list after the first, as [encode] writes them. *)
Fixpoint encode_items (level : nat) (l : list json) : string :=
  match l with
  | [] => EmptyString
  | y :: l' =>
      "," ++ newline_indent (S level) ++ encode (S level) y ++ encode_items level l'
  end.

Definition encode_pair (level : nat) (kx : string * json) : string :=
  encode_string (fst kx) ++ ": " ++ encode (S level) (snd kx).

(** The entries of a dict after the first, as [encode] writes them. *)
Fixpoint encode_pairs (level : nat) (l : list (string * json)) : string :=
  match l with
  | [] => EmptyString
  | kx :: l' =>
      "," ++ newline_indent (S level) ++ encode_pair level kx ++ encode_pairs level l'
  end.

(** No carriage return in the text. *)
Fixpoint no_cr (s : string) : bool :=
  match s with
  | EmptyString => true
  | String c s' => (negb (Ascii.eqb c CR) && no_cr s')%bool
  end.

(** A snapshot with a static entry, a DHCP entry and an entry of the
    systemd-resolved method with its marker. *)
Definition mixed_snapshot : HostSnapshot :=
  [("linux",
    [("eth0", {| servers := ["8.8.8.8"; "1.1.1.1"]; is_dhcp := Dhcp false;
                 method := "nmcli" |});
     ("wlan0", {| servers := ["192.168.1.1"]; is_dhcp := Dhcp true;
                  method := "nmcli" |});
     ("enp3s0", {| servers := []; is_dhcp := DhcpMarker "unknown_revert_to_resolvectl";
                   method := "resolvectl" |});
     ("tun0", {| servers := []; is_dhcp := Dhcp true;
                 method := "nmcli_unknown_fallback_to_dhcp" |})])].

(** A host with no file at all. *)
Definition host_empty : World :=
  {| system_name := "Linux"; euid := 0; user_is_admin := None;
     fs := ∅; denied := ∅; proc := fun _ => NoSuchFile; log := [] |}.

(** ** Predicates of the proofs *)

(** [re_den r pos u v]: [r] matches [u] when [pos] characters come
    before it and [v] comes after it. *)
Fixpoint re_den (r : regex) (pos : nat) (u v : string) : Prop :=
  match r with
  | REmpty => u = EmptyString
  | RBol => u = EmptyString /\ pos = 0%nat
  | REol => u = EmptyString /\ (v = EmptyString \/ v = str1 LF)
  | RSet p => exists c, u = str1 c /\ p c = true
  | RCat a b =>
      exists u1 u2, u = u1 ++ u2 /\ re_den a pos u1 (u2 ++ v)
        /\ re_den b (pos + String.length u1) u2 v
  | ROpt a => re_den a pos u v \/ u = EmptyString
  end.

Definition digits13 (g : string) : Prop :=
  (1 <= String.length g <= 3)%nat /\ all_digits g = true.

Definition digit_group : regex := rep 1 2 (RSet isdigit).

Definition octet_ok (g : string) : bool :=
  ((0 <=? group_value g) && (group_value g <=? 255))%bool.

(** [keeps I E c]: from a host that satisfies [I], the computation [c]
    ends in a host that satisfies [I], and an exception it raises
    satisfies [E]. *)
Definition keeps {A : Type} (I : World -> Prop) (E : exn -> Prop) (c : M A) : Prop :=
  forall w, I w ->
    I (snd (c w)) /\ match fst (c w) with Ret _ => True | Raise e => E e end.

Definition with_log (l : list event) (w : World) : World :=
  {| system_name := system_name w; euid := euid w;
     user_is_admin := user_is_admin w; fs := fs w; denied := denied w;
     proc := proc w; log := l |}.

(** [w] is [w0] but for its log. *)
Definition only_logged (w0 w : World) : Prop := w = with_log (log w) w0.

Definition any_exn (e : exn) : Prop := True.

Definition harmless (argv : list string) : Prop := forall f, effect argv f = f.

(** The file at [path] is [v], and the paths in [d] are the refused ones. *)
Definition file_at (path : string) (v : option node * gset string) (w : World) : Prop :=
  fs w !! path = fst v /\ denied w = snd v.

Definition file_of (path : string) (w : World) : option node * gset string :=
  (fs w !! path, denied w).

Definition no_exn (e : exn) : Prop := False.

Definition probe_exn (e : exn) : Prop := is_probe_error e = true.

Definition caught_exn (e : exn) : Prop := is_Exception e = true.


(** The host after [os.remove] of the snapshot file. *)
Definition without_snapshot (w : World) : World :=
  with_fs (delete ORIGINAL_DNS_CONFIG_FILE (fs w)) w.

(** [hoare I Q E c]: as [keeps], and a value [c] returns satisfies [Q]. *)
Definition hoare {A : Type} (I : World -> Prop) (Q : A -> Prop) (E : exn -> Prop)
    (c : M A) : Prop :=
  forall w, I w ->
    I (snd (c w)) /\ match fst (c w) with Ret a => Q a | Raise e => E e end.

(** The host is [w0] but for its log, and the points visited are [v]. *)
Definition restoring (w0 : World) (v : list string) (w : World) : Prop :=
  only_logged w0 w /\ visited (log w) = v.

(** What the body of a restore iteration may raise: never a
    [CalledProcessError] without captured output, and no
    [FileNotFoundError] when no tool is missing ([missing = false]). *)
Definition body_exn (missing : bool) (e : exn) : Prop :=
  e <> CalledProcessError false /\ (missing = false -> e <> FileNotFoundError)
  /\ is_Exception e = true.

(** What an iteration may tell the loop: to go on, or (only when a tool
    is missing) to return false. *)
Definition step_ok (missing : bool) (st : step) : Prop :=
  match st with
  | Next _ => True
  | Return b => b = false /\ missing = true
  end.

(** An encoded value starts with a character that is neither white space
    nor a closing bracket. *)
Definition opens_value (d : ascii) : Prop :=
  is_json_ws d = false /\ Ascii.eqb d "]" = false /\ Ascii.eqb d "}" = false.

(** With fuel no less than the length of its text, an encoded value is
    decoded to itself, whatever follows it. *)
Definition round_trips (v : json) : Prop :=
  forall level fuel rest,
    (String.length (encode level v) <= fuel)%nat ->
    parse_value fuel (encode level v ++ rest) = Some (v, rest).

(** * The mutators and snapshotters of the other methods and platforms *)

(** ** More of Python's strings and lists *)

(** [s.split()]: the maximal runs of characters that are not white
    space, in order. *)
Fixpoint split_ws (s : string) : list string :=
  match s with
  | EmptyString => []
  | String c s' =>
      if isspace c then split_ws s'
      else
        match s' with
        | EmptyString => [str1 c]
        | String d _ =>
            if isspace d then str1 c :: split_ws s'
            else match split_ws s' with
                 | g :: gs => String c g :: gs
                 | [] => [str1 c]
                 end
        end
  end.

(** The line boundaries of [str.splitlines] below U+0100. *)
Definition is_linebreak (c : ascii) : bool :=
  (in_range 10 13 c || in_range 28 30 c || Nat.eqb (ord c) 133)%bool.

(** [s.splitlines()]: the lines without their boundaries; a carriage
    return followed by a line feed is one boundary. *)
Fixpoint splitlines (s : string) : list string :=
  match s with
  | EmptyString => []
  | String c s' =>
      if is_linebreak c then
        match s' with
        | String d s'' =>
            if (Ascii.eqb c CR && Ascii.eqb d LF)%bool
            then EmptyString :: splitlines s''
            else EmptyString :: splitlines s'
        | EmptyString => [EmptyString]
        end
      else
        match splitlines s' with
        | l :: ls => String c l :: ls
        | [] => [str1 c]
        end
  end.

(** [l[i]] for an index that is not negative. *)
Definition py_index {A : Type} (l : list A) (i : nat) : py A :=
  match l !! i with
  | Some x => Ret x
  | None => Raise IndexError
  end.

Definition nonempty (s : string) : bool := negb (String.eqb s EmptyString).

(** The dict literal [{"servers": ..., "dhcp": ..., "method": ...}] of the
    snapshotters. *)
Definition snapshot_entry (servers : list string) (dhcp : json) (method : string) : json :=
  JObj [("servers", JArr (map JStr servers)); ("dhcp", dhcp); ("method", JStr method)].

(** ** [set_dns_windows] *)

(** The names of the interfaces that [netsh interface show interface]
    lists as enabled and connected: the first two lines are the header;
    a name is the fourth word of a line and the words after it. *)
Definition netsh_active_interfaces (interfaces_output : string) : list string :=
  let lines := split LF (strip interfaces_output) in
  if (2 <? length lines)%nat then
    flat_map
      (fun line =>
         let parts := split_ws line in
         if ((4 <=? length parts)%nat
             && String.eqb (nth 0 parts EmptyString) "Enabled"
             && String.eqb (nth 1 parts EmptyString) "Connected")%bool
         then
           let interface_name := join " " (drop 3 parts) in
           if nonempty interface_name then [interface_name] else []
         else [])
      (drop 2 lines)
  else [].

Definition netsh_set_primary (interface_name dns_server_ip : string) : list string :=
  ["netsh"; "interface"; "ipv4"; "set"; "dnsserver";
   "name=" ++ quoted interface_name; "static";
   "addr=" ++ quoted dns_server_ip; "validate=no"].

Definition netsh_add_server (interface_name dns_server_ip : string) (index : nat)
    : list string :=
  ["netsh"; "interface"; "ipv4"; "add"; "dnsserver";
   "name=" ++ quoted interface_name;
   "addr=" ++ quoted dns_server_ip;
   "index=" ++ encode_int (Z.of_nat index); "validate=no"].

(** The loop over [enumerate(dns_servers[1:], start=1)]: [Some false]
    when the function returns from inside it, [None] when it runs to its
    end.  (The commands are passed with [shell=True]; the host's [proc]
    answers for the command line.) *)
Fixpoint set_dns_windows_add (interface_name : string) (rest : list string) (i : nat)
    : M (option bool) :=
  match rest with
  | [] => ret None
  | dns_server_ip :: rest' =>
      let cmd_add := netsh_add_server interface_name dns_server_ip (i + 1) in
      let* returned :=
        try_except
          (subprocess_run cmd_add true true false ;; ret None)
          is_Exception
          (fun e =>
             match e with
             | FileNotFoundError => ret (Some false)
             | _ => ret None
             end) in
      match returned with
      | Some b => ret (Some b)
      | None => set_dns_windows_add interface_name rest' (S i)
      end
  end.

(** One iteration of the loop over the active interfaces: [Next true]
    when [overall_success] is set, [Next false] when it is left as it
    was. *)
Definition set_dns_windows_interface (interface_name : string)
    (primary : string) (others : list string) : M step :=
  try_except
    (subprocess_run (netsh_set_primary interface_name primary) true true false ;;
     let* returned := set_dns_windows_add interface_name others 1 in
     match returned with
     | Some b => ret (Return b)
     | None => ret (Next true)
     end)
    is_Exception
    (fun e =>
       match e with
       | FileNotFoundError => ret (Return false)
       | _ => ret (Next false)
       end).

Fixpoint set_dns_windows_loop (active_interfaces : list string)
    (primary : string) (others : list string) (overall_success : bool) : M bool :=
  match active_interfaces with
  | [] => ret overall_success
  | interface_name :: rest =>
      let* st := set_dns_windows_interface interface_name primary others in
      match st with
      | Next ok => set_dns_windows_loop rest primary others (overall_success || ok)%bool
      | Return b => ret b
      end
  end.

Definition set_dns_windows (dns_servers : list string) : M bool :=
  match dns_servers with
  | [] => ret false
  | primary :: others =>
      try_except
        (let* result :=
           subprocess_run ["netsh"; "interface"; "show"; "interface"] true true false in
         let active_interfaces := netsh_active_interfaces (stdout result) in
         match active_interfaces with
         | [] => ret false
         | _ => set_dns_windows_loop active_interfaces primary others false
         end)
        is_Exception
        (fun _ => ret false)
  end.

(** ** [set_dns_macos] *)

Definition asterisk_note : string :=
  "An asterisk (*) denotes that a network service is disabled.".

(** The services to configure, from the output of
    [networksetup -listallnetworkservices]; [None] when the function
    returns false for want of any. *)
Definition set_dns_macos_services (out : string) : option (list string) :=
  let services := split LF (strip out) in
  if (match services with [] => true | _ => false end
      || ((length services =? 1)%nat
          && contains asterisk_note (nth 0 services EmptyString)))%bool
  then
    let actual_services :=
      List.filter
        (fun s => (negb (startswith s "An asterisk") && nonempty (strip s))%bool)
        services in
    match actual_services with
    | [] => None
    | _ => Some actual_services
    end
  else Some services.

Definition networksetup_set (service dns_servers_str : string) : list string :=
  ["sudo"; "networksetup"; "-setdnsservers"; service; dns_servers_str].

Fixpoint set_dns_macos_loop (services : list string) (dns_servers_str : string)
    (success_on_any_service : bool) : M bool :=
  match services with
  | [] => ret success_on_any_service
  | service :: rest =>
      if startswith (strip service) "An asterisk"
      then set_dns_macos_loop rest dns_servers_str success_on_any_service
      else if negb (nonempty (strip service))
      then set_dns_macos_loop rest dns_servers_str success_on_any_service
      else
        let* st :=
          try_except
            (let* set_result :=
               subprocess_run (networksetup_set service dns_servers_str) false true false in
             if returncode set_result =? 0 then ret (Next true) else ret (Next false))
            is_Exception
            (fun e =>
               match e with
               | FileNotFoundError => ret (Return false)
               | _ => ret (Next false)
               end) in
        match st with
        | Next ok =>
            set_dns_macos_loop rest dns_servers_str (success_on_any_service || ok)%bool
        | Return b => ret b
        end
  end.

Definition set_dns_macos (dns_servers : list string) : M bool :=
  match dns_servers with
  | [] => ret false
  | _ =>
      try_except
        (let* result :=
           subprocess_run ["networksetup"; "-listallnetworkservices"] false true false in
         if negb (returncode result =? 0) then ret false
         else
           match set_dns_macos_services (stdout result) with
           | None => ret false
           | Some services =>
               let dns_servers_str := join " " dns_servers in
               let dns_servers_str :=
                 if nonempty dns_servers_str then dns_servers_str else "empty" in
               set_dns_macos_loop services dns_servers_str false
           end)
        is_Exception
        (fun e =>
           match e with
           | CalledProcessError captured =>
               (* e.stderr.strip(): e.stderr is None unless the output was captured *)
               if captured then ret false else raise AttributeError
           | _ => ret false
           end)
  end.

(** ** [get_current_dns_macos] *)

(** The result of a snapshotter is a dict or [None] ([JNull]). *)
Definition dict_or_none (original_settings : list (string * json)) : json :=
  match original_settings with
  | [] => JNull
  | _ => JObj original_settings
  end.

Fixpoint get_current_dns_macos_loop (services : list string)
    (original_settings : list (string * json)) : M (list (string * json)) :=
  match services with
  | [] => ret original_settings
  | service :: rest =>
      let* original_settings :=
        try_except
          (let* result_dns :=
             subprocess_run ["networksetup"; "-getdnsservers"; service] true true false in
           let output := strip (stdout result_dns) in
           if (contains "aren't any DNS Servers set" output || negb (nonempty output))%bool
           then
             ret (dict_set service (snapshot_entry [] (JBool true) "networksetup")
                    original_settings)
           else
             let current_dns_servers := split LF output in
             ret (dict_set service
                    (snapshot_entry current_dns_servers (JBool false) "networksetup")
                    original_settings))
          is_Exception
          (fun _ => ret original_settings) in
      get_current_dns_macos_loop rest original_settings
  end.

Definition get_current_dns_macos : M json :=
  try_except
    (let* result_services :=
       subprocess_run ["networksetup"; "-listallnetworkservices"] true true false in
     let services :=
       List.filter
         (fun s => (negb (startswith s "An asterisk") && nonempty (strip s))%bool)
         (split LF (strip (stdout result_services))) in
     match services with
     | [] => ret JNull
     | _ =>
         let* original_settings := get_current_dns_macos_loop services [] in
         ret (dict_or_none original_settings)
     end)
    is_Exception
    (fun _ => ret JNull).

(** ** [get_current_dns_linux] *)

(** The loop over the lines of [nmcli dev show <device>]: the servers of
    the [IP4.DNS] lines, and the first server of each [DHCP4.OPTION[6]]
    line. *)
Fixpoint nmcli_show_lines (Ls : list string) (dns_servers dhcp_dns : list string)
    : py (list string * list string) :=
  match Ls with
  | [] => Ret (dns_servers, dhcp_dns)
  | L :: rest =>
      py_bind
        (if contains "IP4.DNS[" L then
           py_bind (py_index (split1 COLON L) 1) (fun x =>
           let dns_ip := strip x in
           Ret (if nonempty dns_ip then (dns_servers ++ [dns_ip])%list else dns_servers))
         else Ret dns_servers)
        (fun dns_servers =>
      py_bind
        (if contains "DHCP4.OPTION[6]" L then
           py_bind (py_index (split1 EQUALS L) 1) (fun x =>
           py_bind (py_index (split " " (strip x)) 0) (fun dhcp_dns_ip =>
           Ret (if nonempty dhcp_dns_ip then (dhcp_dns ++ [dhcp_dns_ip])%list else dhcp_dns)))
         else Ret dhcp_dns)
        (fun dhcp_dns => nmcli_show_lines rest dns_servers dhcp_dns))
  end.

(** The entry recorded for a device of NetworkManager. *)
Definition nmcli_device_entry (show_stdout : string) : py json :=
  py_bind (nmcli_show_lines (splitlines show_stdout) [] []) (fun r =>
  match fst r, snd r with
  | _ :: _, _ => Ret (snapshot_entry (fst r) (JBool false) "nmcli")
  | [], _ :: _ => Ret (snapshot_entry (snd r) (JBool true) "nmcli")
  | [], [] => Ret (snapshot_entry [] (JBool true) "nmcli_unknown_fallback_to_dhcp")
  end).

(** The loop over the lines of the device listing.  It runs inside the
    [try] of the NetworkManager method: an exception ends the loop and
    the method, and the entries recorded before it stay in
    [original_settings].  The loop therefore returns the dict together
    with a flag that says whether an exception ended it. *)
Fixpoint get_current_dns_linux_nmcli_loop (lines : list string)
    (original_settings : list (string * json)) : M (list (string * json) * bool) :=
  match lines with
  | [] => ret (original_settings, false)
  | line :: rest =>
      let parts := split COLON line in
      if ((length parts =? 3)%nat && String.eqb (nth 2 parts EmptyString) "connected")%bool
      then
        let device := nth 0 parts EmptyString in
        let* entry :=
          try_except
            (let* show_result :=
               subprocess_run ["nmcli"; "dev"; "show"; device] true true false in
             let* entry := lift (nmcli_device_entry (stdout show_result)) in
             ret (Some entry))
            is_Exception
            (fun _ => ret None) in
        match entry with
        | Some entry =>
            get_current_dns_linux_nmcli_loop rest (dict_set device entry original_settings)
        | None => ret (original_settings, true)
        end
      else get_current_dns_linux_nmcli_loop rest original_settings
  end.

(** Each method returns [original_settings] as it leaves it, and whether
    the function returns it at once. *)
Definition get_current_dns_linux_nmcli : M (list (string * json) * bool) :=
  let* avail := is_command_available "nmcli" in
  if avail then
    let* r :=
      try_except
        (let* result_dev :=
           subprocess_run ["nmcli"; "-t"; "-f"; "DEVICE,TYPE,STATE"; "dev"] true true false in
         get_current_dns_linux_nmcli_loop (split LF (strip (stdout result_dev))) [])
        is_Exception
        (fun _ => ret ([], true)) in
    let original_settings := fst r in
    let raised := snd r in
    ret (original_settings,
         (negb raised && match original_settings with [] => false | _ => true end)%bool)
  else ret ([], false).

(** The loop over the lines of a resolver file: the second word of each
    line that starts with [nameserver]. *)
Fixpoint nameserver_lines (lines : list string) (dns_servers : list string)
    : py (list string) :=
  match lines with
  | [] => Ret dns_servers
  | line :: rest =>
      if startswith (strip line) "nameserver" then
        py_bind (py_index (split_ws (strip line)) 1) (fun server =>
        nameserver_lines rest (dns_servers ++ [server])%list)
      else nameserver_lines rest dns_servers
  end.

Fixpoint resolvectl_status_ips (ips : list string) (dns_servers : list string)
    : py (list string) :=
  match ips with
  | [] => Ret dns_servers
  | ip_addr :: rest =>
      py_bind (is_valid_ip ip_addr) (fun valid =>
      if (valid && negb (existsb (String.eqb ip_addr) dns_servers))%bool
      then resolvectl_status_ips rest (dns_servers ++ [ip_addr])%list
      else resolvectl_status_ips rest dns_servers)
  end.

(** The loop over the lines of [resolvectl status <interface>]. *)
Fixpoint resolvectl_status_lines (lines : list string) (dns_servers : list string)
    : py (list string) :=
  match lines with
  | [] => Ret dns_servers
  | line :: rest =>
      if (contains "DNS Servers:" line || contains "Current DNS Server:" line)%bool then
        let parts := split1 COLON line in
        if (1 <? length parts)%nat then
          let ips := split_ws (strip (nth 1 parts EmptyString)) in
          py_bind (resolvectl_status_ips ips dns_servers) (fun dns_servers =>
          resolvectl_status_lines rest dns_servers)
        else resolvectl_status_lines rest dns_servers
      else resolvectl_status_lines rest dns_servers
  end.

Definition resolvectl_marker : string := "unknown_revert_to_resolvectl".

(** The servers of [/etc/resolv.conf] when it is a link into
    [systemd/resolve]; none otherwise. *)
Definition systemd_resolv_conf_servers : M (list string) :=
  fun w =>
    if path_islink w resolv_conf_path then
      match readlink w resolv_conf_path with
      | Ret link_target =>
          if contains "systemd/resolve" link_target then
            (let* text := read_text resolv_conf_path in
             lift (nameserver_lines (readlines text) [])) w
          else (Ret [], w)
      | Raise e => (Raise e, w)
      end
    else (Ret [], w).

(** The interface of the default route is taken when the search of
    [get_default_linux_interface] finds one (its group is never empty). *)
Definition get_current_dns_linux_resolvectl (original_settings : list (string * json))
    : M (list (string * json) * bool) :=
  let* avail := is_command_available "resolvectl" in
  if avail then
    let* interface := get_default_linux_interface in
    match interface with
    | Some interface =>
        try_except
          (let* result :=
             subprocess_run ["resolvectl"; "status"; interface] true true false in
           let* dns_servers := systemd_resolv_conf_servers in
           let* entry :=
             match dns_servers with
             | _ :: _ =>
                 ret (snapshot_entry dns_servers (JStr resolvectl_marker) "resolvectl")
             | [] =>
                 let* dns_servers :=
                   lift (resolvectl_status_lines (splitlines (stdout result)) []) in
                 match dns_servers with
                 | _ :: _ =>
                     ret (snapshot_entry dns_servers (JStr resolvectl_marker) "resolvectl")
                 | [] => ret (snapshot_entry [] (JBool true) "resolvectl")
                 end
             end in
           let original_settings := dict_set interface entry original_settings in
           ret (original_settings,
                match original_settings with [] => false | _ => true end))
          is_Exception
          (fun _ => ret (original_settings, false))
    | None => ret (original_settings, false)
    end
  else ret (original_settings, false).

(** The direct read of the resolver file, and the end of the function. *)
Definition get_current_dns_linux_resolv_conf (original_settings : list (string * json))
    : M json :=
  let* returned :=
    try_except
      (fun w =>
         if (path_exists w resolv_conf_path && negb (path_islink w resolv_conf_path))%bool
         then
           (let* content := read_text resolv_conf_path in
            if contains "# Generated by" content then ret (Some JNull)
            else
              let* text := read_text resolv_conf_path in
              let* dns_servers := lift (nameserver_lines (readlines text) []) in
              match dns_servers with
              | _ :: _ =>
                  ret (Some (JObj (dict_set resolv_conf_path
                                     (snapshot_entry dns_servers (JBool false) "resolv.conf")
                                     original_settings)))
              | [] => ret None
              end) w
         else (Ret None, w))
      is_Exception
      (fun _ => ret None) in
  match returned with
  | Some v => ret v
  | None => ret (dict_or_none original_settings)
  end.

Definition get_current_dns_linux : M json :=
  let* r1 := get_current_dns_linux_nmcli in
  if snd r1 then ret (JObj (fst r1))
  else
    let* r2 := get_current_dns_linux_resolvectl (fst r1) in
    if snd r2 then ret (JObj (fst r2))
    else get_current_dns_linux_resolv_conf (fst r2).

(** ** [get_current_dns_windows] *)

(** The fragment of [re] patterns that [re.findall] is given in the
    script: a sequence of items with one group.  Repetitions are greedy and
    give back what they took, one character at a time, when the rest of
    the pattern fails. *)
Inductive item : Type :=
| ILit (s : string)                          (* literal text *)
| IRep (lo extra : nat) (p : ascii -> bool)  (* a class, lo to lo + extra times *)
| IStar (p : ascii -> bool)                  (* a class, any number of times *)
| IPlus (p : ascii -> bool)                  (* a class, at least once *)
| IBol                                       (* ^ under re.MULTILINE *)
| IOpen                                      (* ( *)
| IClose.                                    (* ) *)

(** The matchers pass on the rest of the subject, the position reached
    and whether it is the start of a line. *)
Fixpoint lit_exec {A : Type} (lit s : string) (pos : nat) (bol : bool)
    (k : string -> nat -> bool -> option A) : option A :=
  match lit with
  | EmptyString => k s pos bol
  | String a lit' =>
      match s with
      | String c s' =>
          if Ascii.eqb a c then lit_exec lit' s' (S pos) (Ascii.eqb c LF) k else None
      | EmptyString => None
      end
  end.

Fixpoint exactly_exec {A : Type} (n : nat) (p : ascii -> bool) (s : string) (pos : nat)
    (bol : bool) (k : string -> nat -> bool -> option A) : option A :=
  match n with
  | O => k s pos bol
  | S n' =>
      match s with
      | String c s' =>
          if p c then exactly_exec n' p s' (S pos) (Ascii.eqb c LF) k else None
      | EmptyString => None
      end
  end.

Fixpoint upto_exec {A : Type} (n : nat) (p : ascii -> bool) (s : string) (pos : nat)
    (bol : bool) (k : string -> nat -> bool -> option A) : option A :=
  match n with
  | O => k s pos bol
  | S n' =>
      match s with
      | String c s' =>
          if p c then
            match upto_exec n' p s' (S pos) (Ascii.eqb c LF) k with
            | Some r => Some r
            | None => k s pos bol
            end
          else k s pos bol
      | EmptyString => k s pos bol
      end
  end.

Fixpoint star_exec {A : Type} (p : ascii -> bool) (s : string) (pos : nat) (bol : bool)
    (k : string -> nat -> bool -> option A) : option A :=
  match s with
  | String c s' =>
      if p c then
        match star_exec p s' (S pos) (Ascii.eqb c LF) k with
        | Some r => Some r
        | None => k s pos bol
        end
      else k s pos bol
  | EmptyString => k s pos bol
  end.

(** A match of the items at a position: where it ends, and where the
    group starts and ends. *)
Fixpoint items_exec (items : list item) (s : string) (pos : nat) (bol : bool)
    (g_start g_end : nat) : option (nat * nat * nat) :=
  match items with
  | [] => Some (pos, g_start, g_end)
  | ILit lit :: r =>
      lit_exec lit s pos bol (fun s' pos' bol' => items_exec r s' pos' bol' g_start g_end)
  | IRep lo extra p :: r =>
      exactly_exec lo p s pos bol (fun s1 pos1 bol1 =>
      upto_exec extra p s1 pos1 bol1 (fun s' pos' bol' =>
      items_exec r s' pos' bol' g_start g_end))
  | IStar p :: r =>
      star_exec p s pos bol (fun s' pos' bol' => items_exec r s' pos' bol' g_start g_end)
  | IPlus p :: r =>
      exactly_exec 1 p s pos bol (fun s1 pos1 bol1 =>
      star_exec p s1 pos1 bol1 (fun s' pos' bol' =>
      items_exec r s' pos' bol' g_start g_end))
  | IBol :: r => if bol then items_exec r s pos bol g_start g_end else None
  | IOpen :: r => items_exec r s pos bol pos g_end
  | IClose :: r => items_exec r s pos bol g_start pos
  end.

(** The scan of [re.findall]: matches are looked for from left to right
    and do not overlap; [skip] counts the characters of the last match
    still to pass.  (No pattern of the script matches the empty text.) *)
Fixpoint findall_from (items : list item) (subject s : string) (pos : nat) (bol : bool)
    (skip : nat) : list string :=
  match skip with
  | S skip' =>
      match s with
      | String c s' => findall_from items subject s' (S pos) (Ascii.eqb c LF) skip'
      | EmptyString => []
      end
  | O =>
      match items_exec items s pos bol 0 0 with
      | Some (e, g_start, g_end) =>
          String.substring g_start (g_end - g_start) subject
          :: match s with
             | String c s' =>
                 findall_from items subject s' (S pos) (Ascii.eqb c LF) (e - pos - 1)
             | EmptyString => []
             end
      | None =>
          match s with
          | String c s' => findall_from items subject s' (S pos) (Ascii.eqb c LF) 0
          | EmptyString => []
          end
      end
  end.

(** [re.findall(pattern, subject)] for a pattern with one group: the
    texts of the group. *)
Definition findall (items : list item) (subject : string) : list string :=
  findall_from items subject subject 0 true 0.

(** [[0-9]{1,3}\.[0-9]{1,3}\.[0-9]{1,3}\.[0-9]{1,3}] *)
Definition ip_items : list item :=
  [IRep 1 2 isdigit; ILit "."; IRep 1 2 isdigit; ILit ".";
   IRep 1 2 isdigit; ILit "."; IRep 1 2 isdigit].

(** [r":\s*(<ip>)"] *)
Definition pattern_after_colon : list item :=
  ([ILit ":"; IStar isspace; IOpen] ++ ip_items ++ [IClose])%list.

(** [r"Statically Configured DNS Servers:\s*(<ip>)"] *)
Definition pattern_static : list item :=
  ([ILit "Statically Configured DNS Servers:"; IStar isspace; IOpen]
   ++ ip_items ++ [IClose])%list.

(** [r"^\s+(<ip>)"] with [re.MULTILINE] *)
Definition pattern_additional : list item :=
  ([IBol; IPlus isspace; IOpen] ++ ip_items ++ [IClose])%list.

(** The entry recorded for an interface, from the output of
    [netsh interface ipv4 show dnsservers]. *)
Definition get_current_dns_windows_entry (output : string) : json :=
  if contains "dhcp" (lower output) then
    let dns_lines := findall pattern_after_colon output in
    snapshot_entry dns_lines (JBool true) "netsh"
  else
    let dns_lines := findall pattern_static output in
    let additional_dns_lines := findall pattern_additional output in
    let current_dns_servers := (dns_lines ++ additional_dns_lines)%list in
    match current_dns_servers with
    | _ :: _ => snapshot_entry current_dns_servers (JBool false) "netsh"
    | [] => snapshot_entry [] (JBool true) "netsh_unknown_fallback_to_dhcp"
    end.

Definition netsh_show_dnsservers (if_name : string) : list string :=
  ["netsh"; "interface"; "ipv4"; "show"; "dnsservers"; "name=" ++ quoted if_name].

Fixpoint get_current_dns_windows_loop (active_interfaces_names : list string)
    (original_settings : list (string * json)) : M (list (string * json)) :=
  match active_interfaces_names with
  | [] => ret original_settings
  | if_name :: rest =>
      let* original_settings :=
        try_except
          (let* result := subprocess_run (netsh_show_dnsservers if_name) true true false in
           let output := strip (stdout result) in
           ret (dict_set if_name (get_current_dns_windows_entry output) original_settings))
          is_Exception
          (fun _ => ret original_settings) in
      get_current_dns_windows_loop rest original_settings
  end.

Definition get_current_dns_windows : M json :=
  try_except
    (let* interfaces_result :=
       subprocess_run ["netsh"; "interface"; "show"; "interface"] true true false in
     let active_interfaces_names := netsh_active_interfaces (stdout interfaces_result) in
     match active_interfaces_names with
     | [] => ret JNull
     | _ =>
         let* original_settings :=
           get_current_dns_windows_loop active_interfaces_names [] in
         ret (dict_or_none original_settings)
     end)
    is_Exception
    (fun _ => ret JNull).

(** ** The set flow *)

Definition run_set_dns_flow : M unit :=
  fun w0 =>
    (let* privileged := check_privileges in
     if negb privileged then
       lift (get_os (system_name w0) None) ;;
       sys_exit 1
     else
       let* current_os := lift (get_os (system_name w0) None) in
       let* os_specific_original_dns :=
         if String.eqb current_os "windows" then get_current_dns_windows
         else if String.eqb current_os "linux" then get_current_dns_linux
         else if String.eqb current_os "macos" then get_current_dns_macos
         else ret (JObj []) in
       (if truthy os_specific_original_dns then
          save_original_dns_settings (JObj [(current_os, os_specific_original_dns)])
            ORIGINAL_DNS_CONFIG_FILE
        else ret tt) ;;
       let* dns_servers_list := parse_dns_config "dnsConf.txt" in
       match dns_servers_list with
       | None => sys_exit 1
       | Some dns_servers_list =>
           let* set_successful :=
             if String.eqb current_os "windows" then
               set_dns_windows dns_servers_list ;;
               set_dns_windows dns_servers_list
             else if String.eqb current_os "linux" then set_dns_linux dns_servers_list
             else if String.eqb current_os "macos" then set_dns_macos dns_servers_list
             else sys_exit 1 in
           if set_successful then flush_dns else ret tt
       end) w0.

(** ** Predicates of the further properties *)

(** A probe of [is_command_available] succeeds: the command exits with
    status 0 within the two seconds. *)
Definition probe (w : World) (argv : list string) : bool :=
  match proc w argv with
  | Exits cp => returncode cp =? 0
  | _ => false
  end.

(** What [is_command_available] finds out: one of its probes succeeds. *)
Definition available (w : World) (command : string) : bool :=
  (probe w [command; "--version"] || probe w [command; "--help"]
   || (String.eqb command "which" && probe w ["which"; "ls"]))%bool.

(** The command runs to completion with status 0, however long it takes. *)
Definition succeeds (w : World) (argv : list string) : bool :=
  match proc w argv with
  | Exits cp | ExitsLate cp => returncode cp =? 0
  | _ => false
  end.

(** No white space in the string. *)
Definition no_space (s : string) : bool :=
  forallb (fun c => negb (isspace c)) (list_ascii_of_string s).

(** A host whose configuration file is the example of the loader. *)
Definition host_with_config : World := host_with_file "dnsConf.txt" config_example.

(** What [open(path)] reads on the host, when it can find the file. *)
Definition content_at (w : World) (path : string) : option string :=
  match fs w !! path with
  | Some n => seen n
  | None => None
  end.

Definition backup_command : list string :=
  ["sudo"; "cp"; "-f"; resolv_conf_path; set_backup_path].

Definition replace_command : list string :=
  ["sudo"; "mv"; "-f"; temp_resolv_path; resolv_conf_path].

(** A host like [host_foreign_snapshot], not run as root. *)
Definition host_unprivileged : World :=
  {| system_name := "Linux"; euid := 1000; user_is_admin := None;
     fs := {[ ORIGINAL_DNS_CONFIG_FILE := File (json_dumps windows_snapshot) ]};
     denied := ∅;
     proc := fun _ => NoSuchFile;
     log := [] |}.

(** ** Restoring, command by command *)

(** Every command runs to completion with status 0. *)
Definition all_succeed (w : World) : Prop := forall argv, succeeds w argv = true.

(** The [dhcp] field of an entry, as [if is_dhcp:] tests it. *)
Definition dhcp_truthy (d : DhcpFlag) : bool := truthy (dhcp_to_py d).

(** The commands that add the servers after the first, numbered from
    [i + 1]. *)
Fixpoint netsh_add_commands (interface_name : string) (others : list string) (i : nat)
    : list (list string) :=
  match others with
  | [] => []
  | dns_server_ip :: rest =>
      netsh_add_server interface_name dns_server_ip (i + 1)
      :: netsh_add_commands interface_name rest (S i)
  end.

Definition netsh_set_dhcp (interface_name : string) : list string :=
  ["netsh"; "interface"; "ipv4"; "set"; "dnsservers";
   "name=" ++ quoted interface_name; "source=dhcp"].

(** The commands [restore_dns_windows] runs for one entry. *)
Definition netsh_restore_commands (interface_name : string) (a : AttachmentSnapshot)
    : list (list string) :=
  if dhcp_truthy (is_dhcp a) then [netsh_set_dhcp interface_name]
  else
    match servers a with
    | [] => []
    | primary :: others =>
        netsh_set_primary interface_name primary
        :: netsh_add_commands interface_name others 1
    end.

(** The command [restore_dns_macos] runs for one entry, if any. *)
Definition networksetup_restore_commands (service_name : string) (a : AttachmentSnapshot)
    : list (list string) :=
  if dhcp_truthy (is_dhcp a)
  then [["sudo"; "networksetup"; "-setdnsservers"; service_name; "empty"]]
  else
    match servers a with
    | [] => []
    | _ => [(["sudo"; "networksetup"; "-setdnsservers"; service_name] ++ servers a)%list]
    end.

(** The entry says how to restore it: DHCP, or at least one server. *)
Definition restorable (a : AttachmentSnapshot) : bool :=
  (dhcp_truthy (is_dhcp a) || match servers a with [] => false | _ => true end)%bool.

(** The events of a restore loop that runs the commands [cmds] of each
    point. *)
Definition restore_events (cmds : string -> AttachmentSnapshot -> list (list string))
    (points : list (string * AttachmentSnapshot)) : list event :=
  flat_map (fun p => Restoring (fst p) :: map Ran (cmds (fst p) (snd p))) points.

(** A snapshot of two interfaces of Windows: one static with three
    servers, one of DHCP. *)
Definition windows_points : list (string * AttachmentSnapshot) :=
  [("Ethernet", {| servers := ["8.8.8.8"; "1.1.1.1"; "9.9.9.9"]; is_dhcp := Dhcp false;
                   method := "netsh" |});
   ("Wi-Fi", {| servers := ["192.168.1.1"]; is_dhcp := Dhcp true; method := "netsh" |})].

(** A host on which every command succeeds. *)
Definition host_all_succeed (name : string) : World :=
  {| system_name := name; euid := 0; user_is_admin := Some true;
     fs := ∅; denied := ∅; proc := fun _ => Exits ok; log := [] |}.

(** A snapshot of two services of macOS: one static, one of DHCP, and one
    entry that says neither. *)
Definition macos_points : list (string * AttachmentSnapshot) :=
  [("Wi-Fi", {| servers := ["8.8.8.8"; "1.1.1.1"]; is_dhcp := Dhcp false;
                method := "networksetup" |});
   ("Ethernet", {| servers := []; is_dhcp := Dhcp true; method := "networksetup" |});
   ("Bridge", {| servers := []; is_dhcp := Dhcp false; method := "networksetup" |})].

(** The commands [restore_dns_linux] runs for an entry of
    NetworkManager. *)
Definition nmcli_restore_commands (interface_id : string) (a : AttachmentSnapshot)
    : list (list string) :=
  [ ["nmcli"; "dev"; "mod"; interface_id; "ipv4.dns";
     if dhcp_truthy (is_dhcp a) then EmptyString else join "," (servers a)];
    ["nmcli"; "dev"; "mod"; interface_id; "ipv4.ignore-auto-dns";
     if dhcp_truthy (is_dhcp a) then "no" else "yes"];
    ["nmcli"; "dev"; "reapply"; interface_id] ].

Definition restore_move_command : list string :=
  ["mv"; restore_backup_path; "/etc/resolv.conf"].

(** A host whose backup is where [restore_dns_linux] looks for it; [mv]
    fails. *)
Definition host_failing_move : World :=
  {| system_name := "Linux"; euid := 0; user_is_admin := None;
     fs := {[ resolv_conf_path := File (new_resolv_content ["8.8.8.8"]);
              restore_backup_path := File original_resolv_conf ]};
     denied := ∅;
     proc := fun _ => Exits failed;
     log := [] |}.

(** The same host with a working [mv]. *)
Definition host_working_move : World :=
  {| system_name := "Linux"; euid := 0; user_is_admin := None;
     fs := {[ resolv_conf_path := File (new_resolv_content ["8.8.8.8"]);
              restore_backup_path := File original_resolv_conf ]};
     denied := ∅;
     proc := fun _ => Exits ok;
     log := [] |}.

(** ** Setting, command by command *)

(** Every command runs to completion, with whatever status. *)
Definition completes (w : World) : Prop :=
  forall argv, exists cp, proc w argv = Exits cp \/ proc w argv = ExitsLate cp.

(** The output of a command that succeeds. *)
Definition output (w : World) (argv : list string) : option string :=
  match proc w argv with
  | Exits cp | ExitsLate cp => if returncode cp =? 0 then Some (stdout cp) else None
  | _ => None
  end.

Definition netsh_show_interfaces : list string := ["netsh"; "interface"; "show"; "interface"].

(** What [set_dns_windows] runs for the interfaces: the command that sets
    the first server and, when it succeeds, the commands that add the
    others. *)
Definition set_dns_windows_events (w : World) (primary : string) (others : list string)
    (active_interfaces : list string) : list event :=
  flat_map
    (fun interface_name =>
       Ran (netsh_set_primary interface_name primary)
       :: (if succeeds w (netsh_set_primary interface_name primary)
           then map Ran (netsh_add_commands interface_name others 1)
           else []))
    active_interfaces.

Definition netsh_listing : string :=
  line "" ++ line "Admin State    State          Type             Interface Name"
  ++ line "-------------------------------------------------------------------------"
  ++ line "Enabled        Connected      Dedicated        Ethernet"
  ++ line "Enabled        Disconnected   Dedicated        Wi-Fi"
  ++ line "Enabled        Connected      Dedicated        Local Area  Connection 2"
  ++ line "".

(** A Windows host with two connected interfaces; setting the first
    server fails on [Ethernet], and every other command succeeds. *)
Definition host_windows : World :=
  {| system_name := "Windows"; euid := 0; user_is_admin := Some true;
     fs := ∅; denied := ∅;
     proc := fun argv =>
       if decide (argv = netsh_show_interfaces) then
         Exits {| returncode := 0; stdout := netsh_listing; stderr := EmptyString |}
       else if decide (argv = netsh_set_primary "Ethernet" "8.8.8.8") then Exits failed
       else Exits ok;
     log := [] |}.

Definition networksetup_list : list string := ["networksetup"; "-listallnetworkservices"].

(** The lines of the listing that [set_dns_macos] takes for services. *)
Definition macos_real_services (services : list string) : list string :=
  List.filter
    (fun s => (negb (startswith (strip s) "An asterisk") && nonempty (strip s))%bool)
    services.

(** The one argument in which [set_dns_macos] passes the servers. *)
Definition macos_servers_argument (dns_servers : list string) : string :=
  if nonempty (join " " dns_servers) then join " " dns_servers else "empty".

Definition networksetup_listing : string :=
  line asterisk_note ++ line "Wi-Fi" ++ line "*Thunderbolt Bridge" ++ line "Ethernet".

(** A macOS host with three services: one with two static servers, one
    of DHCP and a disabled one, for which the commands fail. *)
Definition host_macos : World :=
  {| system_name := "Darwin"; euid := 0; user_is_admin := None;
     fs := ∅; denied := ∅;
     proc := fun argv =>
       if decide (argv = networksetup_list) then
         Exits {| returncode := 0; stdout := networksetup_listing; stderr := EmptyString |}
       else if decide (argv = networksetup_set "*Thunderbolt Bridge" "8.8.8.8 1.1.1.1")
       then Exits failed
       else if decide (argv = ["networksetup"; "-getdnsservers"; "Wi-Fi"]) then
         Exits {| returncode := 0; stdout := line "8.8.8.8" ++ line "8.8.4.4";
                  stderr := EmptyString |}
       else if decide (argv = ["networksetup"; "-getdnsservers"; "Ethernet"]) then
         Exits {| returncode := 0;
                  stdout := line "There aren't any DNS Servers set on Ethernet.";
                  stderr := EmptyString |}
       else if decide (argv = ["networksetup"; "-getdnsservers"; "*Thunderbolt Bridge"])
       then Exits failed
       else Exits ok;
     log := [] |}.

(** ** What the snapshotters return *)

(** The method tags that [restore_dns_linux] knows how to restore. *)
Definition linux_methods : list string :=
  ["nmcli"; "nmcli_unknown_fallback_to_dhcp"; "resolvectl"; "resolv.conf"].

(** A dict of well-formed entries: it is the image of a list of typed
    attachment points with distinct names, each of which satisfies [P]. *)
Definition typed_dict (P : AttachmentSnapshot -> Prop) (d : list (string * json)) : Prop :=
  exists points, d = items_to_py points /\ NoDup (map fst points)
                 /\ Forall (fun p => P (snd p)) points.

(** The result of a snapshotter: [None], or a dict of well-formed entries
    that is not empty. *)
Definition typed_snapshot (P : AttachmentSnapshot -> Prop) (v : json) : Prop :=
  v = JNull
  \/ exists points, points <> [] /\ v = points_to_py points /\ NoDup (map fst points)
                    /\ Forall (fun p => P (snd p)) points.

Definition linux_entry (a : AttachmentSnapshot) : Prop := In (method a) linux_methods.

Definition macos_entry (a : AttachmentSnapshot) : Prop :=
  method a = "networksetup" /\ restorable a = true
  /\ (is_dhcp a = Dhcp true \/ is_dhcp a = Dhcp false).

(** The computation raises nothing but [IndexError]. *)
Definition raises_index_only {A : Type} (c : py A) : Prop :=
  forall e, c = Raise e -> e = IndexError.

Definition nmcli_type_listing : string :=
  line "eth0:ethernet:connected" ++ line "wlan0:wifi:connected"
  ++ line "lo:loopback:unmanaged".

Definition nmcli_show_eth0 : string :=
  line "GENERAL.DEVICE:                         eth0"
  ++ line "IP4.DNS[1]:                             192.168.1.1"
  ++ line "IP4.DNS[2]:                             8.8.4.4".

Definition nmcli_show_wlan0 : string :=
  line "GENERAL.DEVICE:                         wlan0"
  ++ line "DHCP4.OPTION[6]:                        domain_name_servers = 10.0.0.1 10.0.0.2".

(** A host of NetworkManager with a static device and a device of DHCP. *)
Definition host_nmcli_snapshot : World :=
  {| system_name := "Linux"; euid := 0; user_is_admin := None;
     fs := {[ resolv_conf_path := File original_resolv_conf ]};
     denied := ∅;
     proc := fun argv =>
       if decide (argv = ["nmcli"; "--version"]) then Exits ok
       else if decide (argv = ["nmcli"; "-t"; "-f"; "DEVICE,TYPE,STATE"; "dev"]) then
         Exits {| returncode := 0; stdout := nmcli_type_listing; stderr := EmptyString |}
       else if decide (argv = ["nmcli"; "dev"; "show"; "eth0"]) then
         Exits {| returncode := 0; stdout := nmcli_show_eth0; stderr := EmptyString |}
       else if decide (argv = ["nmcli"; "dev"; "show"; "wlan0"]) then
         Exits {| returncode := 0; stdout := nmcli_show_wlan0; stderr := EmptyString |}
       else NoSuchFile;
     log := [] |}.

Definition nmcli_snapshot : list (string * AttachmentSnapshot) :=
  [("eth0", {| servers := ["192.168.1.1"; "8.8.4.4"]; is_dhcp := Dhcp false;
               method := "nmcli" |});
   ("wlan0", {| servers := ["10.0.0.1"]; is_dhcp := Dhcp true; method := "nmcli" |})].

Definition macos_snapshot : list (string * AttachmentSnapshot) :=
  [("Wi-Fi", {| servers := ["8.8.8.8"; "8.8.4.4"]; is_dhcp := Dhcp false;
                method := "networksetup" |});
   ("Ethernet", {| servers := []; is_dhcp := Dhcp true; method := "networksetup" |})].

(** ** What the direct-file method writes *)

Definition resolv_header : string :=
  "# DNS configuration managed by set_dns_crossplatform.py (manual override)".

Definition nameserver_line (server : string) : string :=
  "nameserver " ++ server ++ str1 LF.

Fixpoint nameserver_block (dns_servers : list string) : string :=
  match dns_servers with
  | [] => EmptyString
  | server :: rest => nameserver_line server ++ nameserver_block rest
  end.

(** Every character of the string satisfies [p]. *)
Fixpoint all_chars (p : ascii -> bool) (s : string) : bool :=
  match s with
  | EmptyString => true
  | String c s' => (p c && all_chars p s')%bool
  end.

(** A digit or a dot. *)
Definition ip_char (c : ascii) : bool := (isdigit c || Ascii.eqb c DOT)%bool.

(** A host without NetworkManager and systemd-resolved whose resolver file
    is the one the direct-file method writes for [dns_servers]. *)
Definition host_after_direct_file (dns_servers : list string) : World :=
  {| system_name := "Linux"; euid := 0; user_is_admin := None;
     fs := {[ resolv_conf_path := File (new_resolv_content dns_servers) ]};
     denied := ∅;
     proc := fun _ => NoSuchFile;
     log := [] |}.

(** ** The snapshotter of Windows *)

Definition netsh_static_output : string :=
  line ("Configuration for interface " ++ quoted "Ethernet")
  ++ line "    Statically Configured DNS Servers:    8.8.8.8"
  ++ line "                                          8.8.4.4"
  ++ line "    Register with which suffix:           Primary only".

Definition netsh_dhcp_output : string :=
  line ("Configuration for interface " ++ quoted "Local Area Connection 2")
  ++ line "    DNS servers configured through DHCP:  192.168.1.1"
  ++ line "    Register with which suffix:           Primary only".

(** A Windows host with a static interface and an interface of DHCP. *)
Definition host_windows_snapshot : World :=
  {| system_name := "Windows"; euid := 0; user_is_admin := Some true;
     fs := ∅; denied := ∅;
     proc := fun argv =>
       if decide (argv = netsh_show_interfaces) then
         Exits {| returncode := 0; stdout := netsh_listing; stderr := EmptyString |}
       else if decide (argv = netsh_show_dnsservers "Ethernet") then
         Exits {| returncode := 0; stdout := netsh_static_output; stderr := EmptyString |}
       else if decide (argv = netsh_show_dnsservers "Local Area Connection 2") then
         Exits {| returncode := 0; stdout := netsh_dhcp_output; stderr := EmptyString |}
       else Exits ok;
     log := [] |}.

Definition windows_taken_snapshot : list (string * AttachmentSnapshot) :=
  [("Ethernet", {| servers := ["8.8.8.8"; "8.8.4.4"]; is_dhcp := Dhcp false;
                   method := "netsh" |});
   ("Local Area Connection 2",
    {| servers := ["192.168.1.1"]; is_dhcp := Dhcp true; method := "netsh" |})].

Definition windows_entry (a : AttachmentSnapshot) : Prop :=
  (method a = "netsh" \/ method a = "netsh_unknown_fallback_to_dhcp")
  /\ restorable a = true
  /\ (is_dhcp a = Dhcp true \/ is_dhcp a = Dhcp false).

(** ** The set flow *)

(** The snapshotter that [run_set_dns_flow] calls for a platform; the
    snapshot stays the empty dict for a platform it does not know. *)
Definition current_dns_snapshot (current_os : string) : M json :=
  if String.eqb current_os "windows" then get_current_dns_windows
  else if String.eqb current_os "linux" then get_current_dns_linux
  else if String.eqb current_os "macos" then get_current_dns_macos
  else ret (JObj []).

(** What [run_set_dns_flow] does once the snapshot is saved: it reads
    [dnsConf.txt], sets the servers and flushes the caches. *)
Definition set_from_config (current_os : string) : M unit :=
  let* dns_servers_list := parse_dns_config "dnsConf.txt" in
  match dns_servers_list with
  | None => sys_exit 1
  | Some dns_servers_list =>
      let* set_successful :=
        if String.eqb current_os "windows" then
          set_dns_windows dns_servers_list ;;
          set_dns_windows dns_servers_list
        else if String.eqb current_os "linux" then set_dns_linux dns_servers_list
        else if String.eqb current_os "macos" then set_dns_macos dns_servers_list
        else sys_exit 1 in
      if set_successful then flush_dns else ret tt
  end.

(** The rest of [run_set_dns_flow] once the snapshot is taken. *)
Definition save_and_set (current_os : string) (os_specific_original_dns : json) : M unit :=
  (if truthy os_specific_original_dns then
     save_original_dns_settings (JObj [(current_os, os_specific_original_dns)])
       ORIGINAL_DNS_CONFIG_FILE
   else ret tt) ;;
  set_from_config current_os.

(** A Linux host run as root, without [dnsConf.txt], where every command
    exits with status 0. *)
Definition host_without_config : World :=
  {| system_name := "Linux"; euid := 0; user_is_admin := None;
     fs := {[ resolv_conf_path := File (new_resolv_content ["8.8.8.8"]) ]};
     denied := ∅;
     proc := fun _ => Exits ok;
     log := [] |}.

(** What the set flow does before it reads [dnsConf.txt]: it takes the
    snapshot and saves it when there is one. *)
Definition snapshot_and_save (current_os : string) : M unit :=
  let* os_specific_original_dns := current_dns_snapshot current_os in
  if truthy os_specific_original_dns then
    save_original_dns_settings (JObj [(current_os, os_specific_original_dns)])
      ORIGINAL_DNS_CONFIG_FILE
  else ret tt.

Definition ipconfig_flushdns : list string := ["ipconfig"; "/flushdns"].

(** A Windows host run by an administrator, with the configuration file of
    the example, where the first server cannot be set on [Ethernet]. *)
Definition host_windows_with_config : World :=
  {| system_name := "Windows"; euid := 0; user_is_admin := Some true;
     fs := {[ "dnsConf.txt" := File (line "A=8.8.8.8" ++ line "B=1.1.1.1") ]};
     denied := ∅;
     proc := fun argv =>
       if decide (argv = netsh_show_interfaces) then
         Exits {| returncode := 0; stdout := netsh_listing; stderr := EmptyString |}
       else if decide (argv = netsh_set_primary "Ethernet" "8.8.8.8") then Exits failed
       else Exits ok;
     log := [] |}.

(** ** The patterns of the snapshotter of Windows *)

(** Four groups of one to three digits, separated by dots: what the
    patterns of [get_current_dns_windows] capture. *)
Definition digit_quad (s : string) : Prop :=
  exists a b c d, s = dotted a b c d
    /\ digits13 a /\ digits13 b /\ digits13 c /\ digits13 d.

(** The item is not a parenthesis of the group. *)
Definition group_free (i : item) : bool :=
  match i with
  | IOpen | IClose => false
  | _ => true
  end.

(** A pattern that ends with the group of an address. *)
Definition quad_pattern (items : list item) : Prop :=
  exists pre, forallb group_free pre = true
              /\ items = (pre ++ IOpen :: ip_items ++ [IClose])%list.

Definition quad_servers (a : AttachmentSnapshot) : Prop := Forall digit_quad (servers a).

(** * Properties *)

(** ** [get_os] *)

(** C10.  The claim is that [get_os] returns one of "windows", "linux",
    "macos", "unknown" for every input and never raises, with
    [get_os("Darwin")] = "macos" (as the script's own test
    [test_get_os_macos] expects).  The code does otherwise: for every
    system name the result is "windows", "linux" or the exception
    [NameError]; in particular "Darwin" and "SunOS" raise. *)
Theorem get_os_raises_off_windows_and_linux :
  (forall platform_system test_platform_system,
      get_os platform_system test_platform_system = Ret "windows"
      \/ get_os platform_system test_platform_system = Ret "linux"
      \/ get_os platform_system test_platform_system = Raise NameError)
  /\ (forall platform_system, get_os platform_system (Some "Darwin") = Raise NameError)
  /\ (forall platform_system, get_os platform_system (Some "SunOS") = Raise NameError)
  /\ get_os "Darwin" None = Raise NameError.
Proof.
  repeat split; try reflexivity.
  intros platform_system test_platform_system. unfold get_os.
  destruct (contains "windows" _); [by left|].
  destruct (contains "linux" _); [by right; left|].
  by right; right.
Qed.

(** ** Strings *)

Lemma str_app_assoc (a b c : string) : (a ++ b) ++ c = a ++ (b ++ c).
Proof. induction a as [|x a IH]; simpl; [done | by rewrite IH]. Qed.

Lemma str_app_nil_r (a : string) : a ++ EmptyString = a.
Proof. induction a as [|x a IH]; simpl; [done | by rewrite IH]. Qed.

Lemma str_length_app (a b : string) :
  String.length (a ++ b) = (String.length a + String.length b)%nat.
Proof. induction a as [|x a IH]; simpl; [done | by rewrite IH]. Qed.

Lemma ascii_eqb_true (a b : ascii) : Ascii.eqb a b = true <-> a = b.
Proof. apply Ascii.eqb_eq. Qed.

(** ** The matcher and its meaning *)

Lemma re_exec_spec (r : regex) : forall pos s k,
  re_exec r pos s k = true <->
  exists u v, s = u ++ v /\ re_den r pos u v /\ k (pos + String.length u)%nat v = true.
Proof.
  induction r as [| | |p|a IHa b IHb|a IHa]; intros pos s k; simpl.
  - split.
    + intros H. exists EmptyString, s. by rewrite Nat.add_0_r.
    + intros (u & v & -> & -> & H). by rewrite Nat.add_0_r in H.
  - rewrite andb_true_iff, Nat.eqb_eq. split.
    + intros [-> H]. by exists EmptyString, s.
    + intros (u & v & -> & [-> ->] & H). done.
  - split.
    + destruct s as [|c [|d s]]; intros H.
      * exists EmptyString, EmptyString. rewrite Nat.add_0_r. auto.
      * apply andb_true_iff in H as [Hc H]. apply ascii_eqb_true in Hc as ->.
        exists EmptyString, (str1 LF). rewrite Nat.add_0_r. auto.
      * done.
    + intros (u & v & -> & [-> Hv] & H). rewrite Nat.add_0_r in H.
      destruct Hv as [-> | ->]; simpl; [done|].
      by rewrite H.
  - split.
    + destruct s as [|c s]; [done|]. intros H.
      apply andb_true_iff in H as [Hc H].
      exists (str1 c), s. simpl. rewrite Nat.add_1_r. eauto.
    + intros (u & v & -> & (c & -> & Hc) & H). simpl in *.
      rewrite Nat.add_1_r in H. by rewrite Hc, H.
  - rewrite IHa. split.
    + intros (u1 & v1 & -> & Ha & H). apply IHb in H as (u2 & v & -> & Hb & H).
      exists (u1 ++ u2), v. rewrite str_app_assoc, str_length_app, Nat.add_assoc.
      split; [done|]. split; [|done]. by exists u1, u2.
    + intros (u & v & -> & (u1 & u2 & -> & Ha & Hb) & H).
      exists u1, (u2 ++ v). rewrite str_app_assoc. split; [done|]. split; [done|].
      apply IHb. exists u2, v. rewrite str_length_app, Nat.add_assoc in H. done.
  - rewrite orb_true_iff, IHa. split.
    + intros [(u & v & -> & Ha & H) | H].
      * exists u, v. auto.
      * exists EmptyString, s. rewrite Nat.add_0_r. auto.
    + intros (u & v & -> & [Ha | ->] & H).
      * left. by exists u, v.
      * right. by rewrite Nat.add_0_r in H.
Qed.

(** ** [is_valid_ip] *)

Lemma den_digit_group (pos : nat) (u v : string) :
  re_den digit_group pos u v <-> digits13 u.
Proof.
  unfold digit_group, digits13, all_digits. simpl. split.
  - intros (u1 & u2 & -> & (c1 & -> & H1) & [(u3 & u4 & -> & (c2 & -> & H2) & H) | ->]).
    + destruct H as [(u5 & u6 & -> & (c3 & -> & H3) & ->) | ->]; simpl.
      * rewrite H1, H2, H3. split; [lia|done].
      * rewrite H1, H2. split; [lia|done].
    + simpl. rewrite H1. split; [lia|done].
  - intros [Hlen Hd].
    destruct u as [|c1 [|c2 [|c3 [|c4 u]]]]; simpl in Hlen; try lia; simpl in Hd.
    + exists (str1 c1), EmptyString. apply andb_true_iff in Hd as [H1 _]. eauto 10.
    + apply andb_true_iff in Hd as [H1 Hd]. apply andb_true_iff in Hd as [H2 _].
      exists (str1 c1), (str1 c2). split; [done|]. split; [eauto|]. left.
      exists (str1 c2), EmptyString. eauto 10.
    + apply andb_true_iff in Hd as [H1 Hd]. apply andb_true_iff in Hd as [H2 Hd].
      apply andb_true_iff in Hd as [H3 _].
      exists (str1 c1), (String c2 (str1 c3)). split; [done|]. split; [eauto|]. left.
      exists (str1 c2), (str1 c3). split; [done|]. split; [eauto|]. left.
      exists (str1 c3), EmptyString. eauto 10.
Qed.

Lemma den_dot (pos : nat) (u v : string) :
  re_den (RSet (Ascii.eqb DOT)) pos u v <-> u = ".".
Proof.
  cbn [re_den]. split.
  - intros (c & -> & E). by apply ascii_eqb_true in E as <-.
  - intros ->. by exists DOT.
Qed.

Lemma ip_pattern_matches (s : string) :
  re_match ip_pattern s = true <->
  exists a b c d, digits13 a /\ digits13 b /\ digits13 c /\ digits13 d
    /\ (s = dotted a b c d \/ s = dotted a b c d ++ str1 LF).
Proof.
  unfold re_match. rewrite re_exec_spec. unfold ip_pattern.
  fold digit_group. pose proof den_digit_group as Hg. pose proof den_dot as Hdot.
  generalize dependent (RSet (Ascii.eqb DOT)). intros dot Hdot.
  generalize dependent digit_group. intros grp Hg. simpl. unfold dotted. split.
  - intros (u & v & -> & (u0 & u1 & -> & [-> _] & H) & _).
    destruct H as (x & y & -> & Hx & (d & e & -> & Hd & -> & Hv)).
    destruct Hx as (a' & x1 & -> & (a & dot1 & -> & Ha & E1) & Hx).
    destruct Hx as (b' & x2 & -> & (b & dot2 & -> & Hb & E2) & Hx).
    destruct Hx as (c' & x3 & -> & (c & dot3 & -> & Hc & E3) & ->).
    apply Hdot in E1 as ->, E2 as ->, E3 as ->.
    apply Hg in Ha, Hb, Hc, Hd. exists a, b, c, d.
    repeat (split; [done|]).
    rewrite !str_app_nil_r, !str_app_assoc. simpl.
    destruct Hv as [-> | ->]; [left | right].
    + by rewrite ?str_app_nil_r.
    + by rewrite ?str_app_assoc.
  - intros (a & b & c & d & Ha & Hb & Hc & Hd & Hs).
    exists (dotted a b c d), (if decide (s = dotted a b c d) then EmptyString else str1 LF).
    split.
    { case_decide as E; [by rewrite str_app_nil_r|]. by destruct Hs. }
    split; [|done].
    exists EmptyString, (dotted a b c d). split; [done|]. split; [done|].
    exists (a ++ "." ++ b ++ "." ++ c ++ "."), d. unfold dotted.
    split; [by rewrite !str_app_assoc|]. split.
    + exists (a ++ "."), (b ++ "." ++ c ++ "."). split; [by rewrite !str_app_assoc|].
      split. { exists a, ".". split; [done|]. split; [by apply Hg|]. by apply Hdot. }
      exists (b ++ "."), (c ++ "."). split; [by rewrite !str_app_assoc|].
      split. { exists b, ".". split; [done|]. split; [by apply Hg|]. by apply Hdot. }
      exists (c ++ "."), EmptyString. split; [by rewrite !str_app_nil_r|].
      split; [|done]. exists c, ".". split; [done|]. split; [by apply Hg|]. by apply Hdot.
    + exists d, EmptyString. split; [by rewrite str_app_nil_r|]. split; [by apply Hg|].
      split; [done|]. case_decide; auto.
Qed.

Lemma digit_char (c : ascii) :
  isdigit c = true ->
  isspace c = false /\ Ascii.eqb c DOT = false /\ Ascii.eqb c (chr 45) = false
  /\ Ascii.eqb c (chr 43) = false /\ Ascii.eqb c LF = false.
Proof.
  destruct c as [[] [] [] [] [] [] [] []]; vm_compute; intros H;
    try discriminate H; repeat split.
Qed.

Lemma all_digits_cons (c : ascii) (g : string) :
  all_digits (String c g) = (isdigit c && all_digits g)%bool.
Proof. reflexivity. Qed.

Lemma split_digits_dot (a r : string) :
  all_digits a = true -> split DOT (a ++ String DOT r) = a :: split DOT r.
Proof.
  induction a as [|x a IH]; intros H.
  - simpl. replace (Ascii.eqb DOT DOT) with true by reflexivity. done.
  - rewrite all_digits_cons in H. apply andb_true_iff in H as [Hx Ha].
    apply digit_char in Hx as (_ & Hx & _). simpl. rewrite Hx, (IH Ha). done.
Qed.

Lemma split_digits (d t : string) :
  all_digits d = true -> (t = EmptyString \/ t = str1 LF) ->
  split DOT (d ++ t) = [d ++ t].
Proof.
  intros Hd Ht. induction d as [|x d IH].
  - by destruct Ht as [-> | ->].
  - rewrite all_digits_cons in Hd. apply andb_true_iff in Hd as [Hx Hd].
    apply digit_char in Hx as (_ & Hx & _). simpl. rewrite Hx, (IH Hd). done.
Qed.

Lemma lstrip_digits (g t : string) :
  g <> EmptyString -> all_digits g = true -> lstrip (g ++ t) = g ++ t.
Proof.
  destruct g as [|x g]; [done|]. intros _ H.
  rewrite all_digits_cons in H. apply andb_true_iff in H as [Hx _].
  apply digit_char in Hx as (Hx & _). simpl. by rewrite Hx.
Qed.

Lemma rstrip_digits (g t : string) :
  all_digits g = true -> (t = EmptyString \/ t = str1 LF) -> rstrip (g ++ t) = g.
Proof.
  intros Hg Ht. induction g as [|x g IH].
  - by destruct Ht as [-> | ->].
  - rewrite all_digits_cons in Hg. apply andb_true_iff in Hg as [Hx Hg].
    apply digit_char in Hx as (Hx & _). simpl. rewrite (IH Hg), Hx.
    by destruct g.
Qed.

Lemma digits_value_some (g : string) : forall acc,
  all_digits g = true -> exists v, digits_value acc g = Some v.
Proof.
  induction g as [|x g IH]; intros acc H; simpl.
  - by eexists.
  - rewrite all_digits_cons in H. apply andb_true_iff in H as [Hx Hg].
    rewrite Hx. by apply IH.
Qed.

Lemma int_digits (g t : string) :
  g <> EmptyString -> all_digits g = true -> (t = EmptyString \/ t = str1 LF) ->
  int (g ++ t) = Ret (group_value g).
Proof.
  intros Hne Hg Ht. unfold int, strip.
  rewrite lstrip_digits, rstrip_digits by done.
  destruct g as [|x g]; [done|].
  pose proof Hg as Hg'. rewrite all_digits_cons in Hg'.
  apply andb_true_iff in Hg' as [Hx _].
  apply digit_char in Hx as (_ & _ & Hm & Hp & _). rewrite Hm, Hp.
  unfold group_value. destruct (digits_value_some (String x g) 0 Hg) as [v ->]. done.
Qed.

Lemma octet_iff (g : string) : octet g <-> digits13 g /\ octet_ok g = true.
Proof.
  unfold octet, digits13, octet_ok. rewrite andb_true_iff, Z.leb_le, Z.leb_le. tauto.
Qed.

Lemma digits13_nonempty (g : string) : digits13 g -> g <> EmptyString.
Proof. intros [[H _] _] ->. simpl in H. lia. Qed.

Lemma is_valid_ip_dotted (a b c d t : string) :
  digits13 a -> digits13 b -> digits13 c -> digits13 d ->
  (t = EmptyString \/ t = str1 LF) ->
  is_valid_ip (dotted a b c d ++ t)
  = Ret (octet_ok a && octet_ok b && octet_ok c && octet_ok d)%bool.
Proof.
  intros Ha Hb Hc Hd Ht. unfold is_valid_ip.
  assert (re_match ip_pattern (dotted a b c d ++ t) = true) as ->.
  { apply ip_pattern_matches. exists a, b, c, d. repeat (split; [done|]).
    destruct Ht as [-> | ->]; [left; by rewrite str_app_nil_r | by right]. }
  unfold dotted. rewrite !str_app_assoc. simpl.
  rewrite !split_digits_dot, split_digits by (done || apply Ha || apply Hb || apply Hc || apply Hd).
  pose proof (int_digits a EmptyString (digits13_nonempty a Ha) (proj2 Ha) (or_introl eq_refl)) as Ia.
  pose proof (int_digits b EmptyString (digits13_nonempty b Hb) (proj2 Hb) (or_introl eq_refl)) as Ib.
  pose proof (int_digits c EmptyString (digits13_nonempty c Hc) (proj2 Hc) (or_introl eq_refl)) as Ic.
  pose proof (int_digits d t (digits13_nonempty d Hd) (proj2 Hd) Ht) as Id.
  rewrite str_app_nil_r in Ia, Ib, Ic.
  unfold is_valid_ip_parts. rewrite Ia, Ib, Ic, Id. unfold py_bind, octet_ok.
  destruct (0 <=? group_value a), (group_value a <=? 255),
    (0 <=? group_value b), (group_value b <=? 255),
    (0 <=? group_value c), (group_value c <=? 255),
    (0 <=? group_value d), (group_value d <=? 255); reflexivity.
Qed.

(** What [is_valid_ip] accepts, exactly. *)
Lemma is_valid_ip_true_iff (s : string) :
  is_valid_ip s = Ret true <->
  octet_quad s \/ exists t, s = t ++ str1 LF /\ octet_quad t.
Proof.
  split.
  - intros H.
    destruct (re_match ip_pattern s) eqn:E;
      [|unfold is_valid_ip in H; rewrite E in H; discriminate H].
    apply ip_pattern_matches in E as (a & b & c & d & Ha & Hb & Hc & Hd & Hs).
    assert (exists t, (t = EmptyString \/ t = str1 LF) /\ s = dotted a b c d ++ t)
      as (t & Ht & ->).
    { destruct Hs as [-> | ->]; [exists EmptyString | exists (str1 LF)];
        rewrite ?str_app_nil_r; auto. }
    rewrite is_valid_ip_dotted in H by done. injection H as H.
    apply andb_true_iff in H as [H Od]. apply andb_true_iff in H as [H Oc].
    apply andb_true_iff in H as [Oa Ob].
    assert (octet_quad (dotted a b c d)) as Q.
    { exists a, b, c, d. rewrite !octet_iff. auto 10. }
    destruct Ht as [-> | ->]; [left; by rewrite str_app_nil_r | right; eauto].
  - intros H.
    assert (exists a b c d t, (t = EmptyString \/ t = str1 LF) /\ s = dotted a b c d ++ t
              /\ octet a /\ octet b /\ octet c /\ octet d)
      as (a & b & c & d & t & Ht & -> & Oa & Ob & Oc & Od).
    { destruct H as [(a & b & c & d & -> & H) | (t & -> & (a & b & c & d & -> & H))].
      - exists a, b, c, d, EmptyString. rewrite str_app_nil_r. auto.
      - exists a, b, c, d, (str1 LF). auto. }
    apply octet_iff in Oa as [Ha Oa], Ob as [Hb Ob], Oc as [Hc Oc], Od as [Hd Od].
    rewrite is_valid_ip_dotted by done. by rewrite Oa, Ob, Oc, Od.
Qed.

(** [is_valid_ip] never raises. *)
Lemma is_valid_ip_total (s : string) :
  is_valid_ip s = Ret true \/ is_valid_ip s = Ret false.
Proof.
  unfold is_valid_ip. destruct (re_match ip_pattern s) eqn:E; [|by right].
  apply ip_pattern_matches in E as (a & b & c & d & Ha & Hb & Hc & Hd & Hs).
  assert (exists t, (t = EmptyString \/ t = str1 LF) /\ s = dotted a b c d ++ t)
    as (t & Ht & ->).
  { destruct Hs as [-> | ->]; [exists EmptyString | exists (str1 LF)];
      rewrite ?str_app_nil_r; auto. }
  pose proof (is_valid_ip_dotted a b c d t Ha Hb Hc Hd Ht) as H.
  unfold is_valid_ip in H.
  rewrite (proj2 (ip_pattern_matches _)) in H by
    (exists a, b, c, d; repeat (split; [done|]);
     destruct Ht as [-> | ->]; rewrite ?str_app_nil_r; auto).
  rewrite H. destruct (_ && _)%bool; auto.
Qed.

Lemma ends_with_lf_app (x d : string) :
  d <> EmptyString -> ends_with_lf (x ++ d) = ends_with_lf d.
Proof.
  intros Hd. induction x as [|c x IH]; [done|].
  simpl. destruct (x ++ d) eqn:E; [|done].
  destruct x; [simpl in E; done | discriminate E].
Qed.

Lemma ends_with_lf_snoc (t : string) : ends_with_lf (t ++ str1 LF) = true.
Proof. rewrite ends_with_lf_app by done. reflexivity. Qed.

Lemma ends_with_lf_digits (d : string) :
  all_digits d = true -> ends_with_lf d = false.
Proof.
  induction d as [|c d IH]; [done|]. rewrite all_digits_cons.
  intros H. apply andb_true_iff in H as [Hc Hd].
  apply digit_char in Hc as (_ & _ & _ & _ & Hc). simpl.
  destruct d; [done | by apply IH].
Qed.

Lemma dotted_no_lf (a b c d : string) :
  d <> EmptyString -> all_digits d = true -> ends_with_lf (dotted a b c d) = false.
Proof.
  intros Hne Hd. unfold dotted.
  replace (a ++ "." ++ b ++ "." ++ c ++ "." ++ d)
    with ((a ++ "." ++ b ++ "." ++ c ++ ".") ++ d) by (by rewrite !str_app_assoc).
  rewrite ends_with_lf_app by done. by apply ends_with_lf_digits.
Qed.

(** C7, as the code has it.  For every string that does not end with a
    line feed, [is_valid_ip] returns true exactly when the string is four
    dot-separated groups of one to three decimal digits, each of value in
    [0,255], and it returns false otherwise; it never raises. *)
Theorem is_valid_ip_accepts_octet_quads (s : string) :
  ends_with_lf s = false ->
  (is_valid_ip s = Ret true <-> octet_quad s)
  /\ (is_valid_ip s = Ret true \/ is_valid_ip s = Ret false).
Proof.
  intros Hlf. split; [|apply is_valid_ip_total].
  rewrite is_valid_ip_true_iff. split; [|auto].
  intros [H | (t & -> & _)]; [done|].
  by rewrite ends_with_lf_snoc in Hlf.
Qed.

Lemma is_valid_ip_accepts_octet_quads_witness :
  ends_with_lf "192.168.0.1" = false
  /\ (is_valid_ip "192.168.0.1" = Ret true <-> octet_quad "192.168.0.1").
Proof.
  split; [reflexivity|].
  apply (is_valid_ip_accepts_octet_quads "192.168.0.1"). reflexivity.
Defined.

(** C7, as the claim words it, fails in both directions: a group of more
    than three digits is a decimal group of value in [0,255] and is
    rejected, and a dotted quad followed by a line feed is accepted. *)
Lemma is_valid_ip_is_not_spec_dotted_quad :
  (spec_dotted_quad "0008.8.8.8" /\ is_valid_ip "0008.8.8.8" = Ret false)
  /\ (~ spec_dotted_quad ("8.8.8.8" ++ str1 LF)
      /\ is_valid_ip ("8.8.8.8" ++ str1 LF) = Ret true).
Proof.
  split; split; try reflexivity.
  - exists "0008", "8", "8", "8". split; [reflexivity|].
    repeat split; try done; vm_compute; congruence.
  - intros (a & b & c & d & E & _ & _ & _ & (Hne & Hd & _)).
    pose proof (dotted_no_lf a b c d Hne Hd) as H. rewrite <- E in H. discriminate H.
Qed.

(** The cases the claim lists, on the inputs of the script's tests. *)
Example is_valid_ip_cases :
  is_valid_ip "8.8.8.8" = Ret true /\ is_valid_ip "0.0.0.0" = Ret true
  /\ is_valid_ip "255.255.255.255" = Ret true
  /\ is_valid_ip "8.8.8.256" = Ret false /\ is_valid_ip "192.168.0" = Ret false
  /\ is_valid_ip "1.1.1.1.1" = Ret false /\ is_valid_ip "abc.def.ghi.jkl" = Ret false
  /\ is_valid_ip "8.8.8.8." = Ret false /\ is_valid_ip EmptyString = Ret false
  /\ is_valid_ip " 8.8.8.8" = Ret false /\ is_valid_ip "8.8.8.8 " = Ret false.
Proof. repeat split. Qed.

(** ** [parse_dns_config] *)

Lemma split1_two (c : ascii) (s : string) :
  contains (str1 c) s = true -> exists a b, split1 c s = [a; b].
Proof.
  induction s as [|x s IH]; [done|]. simpl.
  rewrite (Ascii.eqb_sym c x). destruct (Ascii.eqb x c) eqn:E; simpl; [eauto|].
  intros H. destruct (IH H) as (a & b & ->). eauto.
Qed.

Lemma parse_dns_config_lines_spec (lines : list string) : forall dns_servers,
  (length dns_servers <= 3)%nat ->
  parse_dns_config_lines lines dns_servers
  = Ret (take 3 (dns_servers ++ omap entry_of_line lines)).
Proof.
  induction lines as [|l lines IH]; intros acc Hacc; simpl.
  - rewrite app_nil_r, take_ge by done. done.
  - unfold entry_of_line.
    destruct (String.eqb (strip l) EmptyString || startswith (strip l) "#")%bool;
      [by apply IH|].
    destruct (contains "=" (strip l)) eqn:E; [|by apply IH].
    destruct (split1_two EQUALS (strip l) E) as (a & b & ->).
    destruct (is_valid_ip_total (strip b)) as [-> | ->]; simpl; [|by apply IH].
    destruct (length acc <? 3)%nat eqn:L.
    + apply Nat.ltb_lt in L. rewrite IH by (rewrite length_app; simpl; lia).
      by rewrite <- app_assoc.
    + apply Nat.ltb_ge in L. rewrite take_app_le by lia. by rewrite take_ge by lia.
Qed.

Lemma parse_dns_config_result (filepath : string) (w : World) :
  parse_dns_config filepath w
  = (Ret (match readable_text w filepath with
          | Some text => kept_servers text
          | None => None
          end), w).
Proof.
  unfold parse_dns_config, readable_text, path_exists, try_except, bind, read_text, kept_servers.
  destruct (fs w !! filepath) as [n|] eqn:F; simpl; [|by case_decide].
  destruct (seen n) as [c|] eqn:Sn; simpl; [|by case_decide].
  case_decide; [done|]. simpl.
  destruct (readlines (universal_newlines c)) as [|l ls] eqn:R; [done|].
  unfold lift. rewrite parse_dns_config_lines_spec by (simpl; lia). simpl.
  by destruct (take 3 _).
Qed.

(** C8.  On the example text the loader returns the first three
    addresses in order; it returns [None] whenever no line contributes a
    server (so for a file of comments and blank lines only, and for one
    whose entries are all invalid); and it never raises and never returns
    an empty list. *)
Theorem parse_dns_config_keeps_first_three :
  (forall w filepath,
      fs w !! filepath = Some (File config_example) -> filepath ∉ denied w ->
      parse_dns_config filepath w = (Ret (Some ["8.8.8.8"; "1.1.1.1"; "9.9.9.9"]), w))
  /\ (forall w filepath text,
        readable_text w filepath = Some text ->
        Forall (fun l => entry_of_line l = None) (readlines text) ->
        parse_dns_config filepath w = (Ret None, w))
  /\ (forall w filepath,
        exists r, parse_dns_config filepath w = (Ret r, w) /\ r <> Some []).
Proof.
  split; [|split].
  - intros w filepath F D. rewrite parse_dns_config_result. unfold readable_text.
    rewrite F. case_decide; [done|]. reflexivity.
  - intros w filepath text T H. rewrite parse_dns_config_result, T.
    unfold kept_servers.
    assert (omap entry_of_line (readlines text) = []) as ->; [|done].
    induction H as [|l ls Hl _ IH]; [done|]. simpl. by rewrite Hl.
  - intros w filepath. rewrite parse_dns_config_result. eexists. split; [done|].
    destruct (readable_text w filepath); [|done].
    unfold kept_servers. by destruct (take 3 _).
Qed.

Lemma parse_dns_config_keeps_first_three_witness :
  parse_dns_config "dnsConf.txt" (host_with_file "dnsConf.txt" config_example)
  = (Ret (Some ["8.8.8.8"; "1.1.1.1"; "9.9.9.9"]),
     host_with_file "dnsConf.txt" config_example)
  /\ parse_dns_config "dnsConf.txt" (host_with_file "dnsConf.txt" config_only_comments)
    = (Ret None, host_with_file "dnsConf.txt" config_only_comments)
  /\ parse_dns_config "dnsConf.txt" (host_with_file "dnsConf.txt" config_all_invalid)
    = (Ret None, host_with_file "dnsConf.txt" config_all_invalid).
Proof.
  destruct parse_dns_config_keeps_first_three as (H1 & H2 & _).
  split; [|split].
  - apply H1; [reflexivity | vm_compute; set_solver].
  - apply (H2 _ _ config_only_comments); [reflexivity|].
    repeat constructor.
  - apply (H2 _ _ config_all_invalid); [reflexivity|].
    repeat constructor.
Defined.

(** ** Reasoning about computations on the host *)

Section Keeps.
Context (I : World -> Prop).

Lemma keeps_ret {A : Type} (E : exn -> Prop) (a : A) : keeps I E (ret a).
Proof. intros w H. by split. Qed.

Lemma keeps_raise {A : Type} (E : exn -> Prop) (e : exn) :
  E e -> keeps I E (@raise A e).
Proof. intros He w H. by split. Qed.

Lemma keeps_lift {A : Type} (E : exn -> Prop) (c : py A) :
  (forall e, c = Raise e -> E e) -> keeps I E (lift c).
Proof. intros He w H. split; [done|]. simpl. destruct c; auto. Qed.

Lemma keeps_bind {A B : Type} (E : exn -> Prop) (c : M A) (k : A -> M B) :
  keeps I E c -> (forall a, keeps I E (k a)) -> keeps I E (bind c k).
Proof.
  intros Hc Hk w H. unfold bind. destruct (Hc w H) as [H1 H2].
  destruct (c w) as [[a|e] w1]; simpl in *; [by apply Hk | done].
Qed.

Lemma keeps_try {A : Type} (E' E : exn -> Prop) (c : M A) (catches : exn -> bool)
    (h : exn -> M A) :
  keeps I E' c ->
  (forall e, E' e -> catches e = true -> keeps I E (h e)) ->
  (forall e, E' e -> catches e = false -> E e) ->
  keeps I E (try_except c catches h).
Proof.
  intros Hc Hh He w H. unfold try_except. destruct (Hc w H) as [H1 H2].
  destruct (c w) as [[a|e] w1]; simpl in *; [done|].
  destruct (catches e) eqn:C; [by apply Hh | split; [done | by apply He]].
Qed.

Lemma keeps_weaken {A : Type} (E E' : exn -> Prop) (c : M A) :
  (forall e, E e -> E' e) -> keeps I E c -> keeps I E' c.
Proof.
  intros HE Hc w H. destruct (Hc w H) as [H1 H2]. split; [done|].
  destruct (fst (c w)); auto.
Qed.

(** A computation that reads the host first. *)
Lemma keeps_read {A : Type} (E : exn -> Prop) (c : World -> M A) :
  (forall w0, keeps I E (c w0)) -> keeps I E (fun w => c w w).
Proof. intros Hc w H. by apply Hc. Qed.

End Keeps.

(** *** Commands that leave the host alone *)

Lemma only_logged_refl (w : World) : only_logged w w.
Proof. by destruct w. Qed.

Lemma only_logged_fields (w0 w : World) :
  only_logged w0 w ->
  fs w = fs w0 /\ denied w = denied w0 /\ proc w = proc w0
  /\ system_name w = system_name w0 /\ euid w = euid w0
  /\ user_is_admin w = user_is_admin w0.
Proof. intros ->. by destruct w0. Qed.

Lemma keeps_logged_run (w0 : World) (argv : list string)
    (check capture timeout : bool) :
  harmless argv ->
  keeps (only_logged w0) any_exn (subprocess_run argv check capture timeout).
Proof.
  intros Hh w Hw. unfold subprocess_run, completed.
  assert (forall (A : Type) (b : py A),
             match b with Ret _ => True | Raise e => any_exn e end) as T
    by (by intros A [|]).
  split; [|apply T].
  destruct (proc w argv) as [cp|cp| |]; repeat case_match; simpl;
    unfold only_logged, with_fs, record, with_log; simpl; rewrite ?Hh;
    rewrite Hw; done.
Qed.

Lemma keeps_logged_emit (w0 : World) (e : event) :
  keeps (only_logged w0) any_exn (emit e).
Proof.
  intros w Hw. split; [|done]. unfold emit, only_logged. simpl. by rewrite Hw.
Qed.

Lemma harmless_short (a b : string) : harmless [a; b].
Proof.
  intros f. unfold effect, without_sudo. by destruct (String.eqb a "sudo").
Qed.

Lemma harmless_other (cmd : string) (rest : list string) :
  String.eqb cmd "sudo" = false -> String.eqb cmd "cp" = false ->
  String.eqb cmd "mv" = false -> harmless (cmd :: rest).
Proof.
  intros H1 H2 H3 f. unfold effect, without_sudo. rewrite H1.
  destruct rest as [|a [|b [|c [|]]]]; try done; by rewrite ?H2, ?H3.
Qed.

Lemma harmless_sudo_other (cmd : string) (rest : list string) :
  String.eqb cmd "cp" = false -> String.eqb cmd "mv" = false ->
  harmless ("sudo" :: cmd :: rest).
Proof.
  intros H2 H3 f. unfold effect, without_sudo. simpl.
  destruct rest as [|a [|b [|c [|]]]]; try done; by rewrite ?H2, ?H3.
Qed.

Lemma harmless_sudo_short (a b : string) : harmless ["sudo"; a; b].
Proof. intros f. reflexivity. Qed.

Create HintDb harmless.
#[local] Hint Resolve harmless_short harmless_sudo_short : harmless.
#[local] Hint Extern 1 (harmless _) =>
  (simpl; apply harmless_other; reflexivity) : harmless.
#[local] Hint Extern 2 (harmless _) =>
  (simpl; apply harmless_sudo_other; reflexivity) : harmless.

(** Takes a goal [keeps I E c] apart along [c]; [run] proves the goals
    about [subprocess_run]. *)
Ltac keeps_with run :=
  repeat first
    [ apply keeps_ret
    | run
    | apply keeps_lift; done
    | apply keeps_raise; done
    | apply keeps_bind; [|intros ?]
    | match goal with
      | |- keeps _ _ (if ?b then _ else _) => destruct b
      | |- keeps _ _ (match ?x with _ => _ end) => destruct x
      end ].

Ltac keeps_logged :=
  keeps_with
    ltac:(first
      [ apply keeps_logged_emit
      | apply keeps_logged_run; solve [auto with harmless]
      | apply (keeps_try _ any_exn); [| intros ? _ _ | done] ]).

Lemma is_command_available_logged w0 command :
  keeps (only_logged w0) any_exn (is_command_available command).
Proof. unfold is_command_available. keeps_logged. Qed.

Lemma get_default_linux_interface_logged w0 :
  keeps (only_logged w0) any_exn get_default_linux_interface.
Proof. unfold get_default_linux_interface. keeps_logged. Qed.

Lemma is_service_active_logged w0 service_name :
  keeps (only_logged w0) any_exn (is_service_active service_name).
Proof.
  unfold is_service_active.
  apply keeps_bind; [apply is_command_available_logged|]. intros a. keeps_logged.
Qed.

Lemma set_dns_linux_nmcli_devices_logged w0 devices dns :
  keeps (only_logged w0) any_exn (set_dns_linux_nmcli_devices devices dns).
Proof. induction devices as [|dev devices IH]; simpl; keeps_logged; apply IH. Qed.

Lemma set_dns_linux_nmcli_logged w0 dns_servers :
  keeps (only_logged w0) any_exn (set_dns_linux_nmcli dns_servers).
Proof.
  unfold set_dns_linux_nmcli.
  apply keeps_bind; [apply is_command_available_logged|]. intros a.
  keeps_logged. apply set_dns_linux_nmcli_devices_logged.
Qed.

Lemma set_dns_linux_resolvectl_logged w0 dns_servers :
  keeps (only_logged w0) any_exn (set_dns_linux_resolvectl dns_servers).
Proof.
  unfold set_dns_linux_resolvectl.
  apply keeps_bind; [apply is_command_available_logged|]. intros a.
  destruct a; [|keeps_logged].
  apply keeps_bind; [apply get_default_linux_interface_logged|]. intros i.
  keeps_logged.
Qed.

(** ** The safety gate of the direct-file branch *)

#[local] Arguments take_str : simpl never.
#[local] Arguments existsb : simpl never.

Lemma gate_refuses (dns_servers : list string) (w : World) :
  link_is_managed w = true \/ has_generator_marker w = true ->
  set_dns_linux_resolv_conf dns_servers w = (Ret false, w).
Proof.
  unfold link_is_managed, has_generator_marker, readable_text.
  unfold set_dns_linux_resolv_conf, safety_check_symlink, safety_check_comments,
    bind, try_except, read_text, path_islink, readlink, ret.
  cbv beta. intros [H | H].
  - destruct (fs w !! resolv_conf_path) as [[c|target through]|]; try done.
    by rewrite H.
  - case_decide; [done|].
    destruct (fs w !! resolv_conf_path) as [[c|target through]|] eqn:F;
      simpl in *; try done.
    + case_decide; [done|]. rewrite F. simpl. by rewrite H.
    + destruct (existsb _ known_dynamic_targets); [done|].
      case_decide; [done|]. rewrite F. simpl.
      destruct through as [c|]; simpl in *; [by rewrite H | done].
Qed.

Lemma set_dns_linux_start (dns_servers : list string) (w0 : World) :
  keeps (only_logged w0) any_exn
    (let* r1 := set_dns_linux_nmcli dns_servers in
     match r1 with
     | Some b => ret (inl b)
     | None =>
         let* r2 := set_dns_linux_resolvectl dns_servers in
         match r2 with
         | Some b => ret (inl b)
         | None => ret (inr tt)
         end
     end).
Proof.
  apply keeps_bind; [apply set_dns_linux_nmcli_logged|]. intros [b|]; [apply keeps_ret|].
  apply keeps_bind; [apply set_dns_linux_resolvectl_logged|].
  intros [b|]; apply keeps_ret.
Qed.

Lemma link_is_managed_logged (w0 w : World) :
  only_logged w0 w -> link_is_managed w = link_is_managed w0.
Proof.
  intros H. apply only_logged_fields in H as (Hf & _). unfold link_is_managed.
  by rewrite Hf.
Qed.

Lemma has_generator_marker_logged (w0 w : World) :
  only_logged w0 w -> has_generator_marker w = has_generator_marker w0.
Proof.
  intros H. apply only_logged_fields in H as (Hf & Hd & _).
  unfold has_generator_marker, readable_text. by rewrite Hf, Hd.
Qed.

(** When the gate refuses, the whole of [set_dns_linux] changes nothing
    on the host but its log. *)
Lemma set_dns_linux_gated (dns_servers : list string) (w : World) :
  link_is_managed w = true \/ has_generator_marker w = true ->
  only_logged w (snd (set_dns_linux dns_servers w)).
Proof.
  intros Hgate. unfold set_dns_linux.
  destruct dns_servers as [|s0 rest]; [apply only_logged_refl|].
  set (servers := s0 :: rest).
  pose proof (set_dns_linux_start servers w w (only_logged_refl w)) as [Hk _].
  revert Hk. unfold bind, ret.
  destruct (set_dns_linux_nmcli servers w) as [[[b|]|e] w1]; simpl; try done.
  destruct (set_dns_linux_resolvectl servers w1) as [[[b|]|e] w2]; simpl; try done.
  intros Hk. rewrite gate_refuses; [done|].
  by rewrite (link_is_managed_logged w w2), (has_generator_marker_logged w w2).
Qed.

(** C1.  If [/etc/resolv.conf] is a symbolic link to a daemon-managed
    path, or its leading content holds a generator's marker, the
    direct-file branch returns false and leaves the host exactly as it
    was (no backup, no overwrite, no command run); whenever the branch
    changes anything at all, both checks had passed; and with a refusing
    gate the whole of [set_dns_linux] leaves every file as it was. *)
Theorem direct_file_branch_is_gated (dns_servers : list string) (w : World) :
  (link_is_managed w = true \/ has_generator_marker w = true ->
   set_dns_linux_resolv_conf dns_servers w = (Ret false, w))
  /\ (snd (set_dns_linux_resolv_conf dns_servers w) <> w ->
      link_is_managed w = false /\ has_generator_marker w = false)
  /\ (link_is_managed w = true \/ has_generator_marker w = true ->
      fs (snd (set_dns_linux dns_servers w)) = fs w).
Proof.
  split; [apply gate_refuses|]. split.
  - intros H.
    destruct (link_is_managed w) eqn:L;
      [by rewrite gate_refuses in H by (rewrite L; auto)|].
    destruct (has_generator_marker w) eqn:G;
      [by rewrite gate_refuses in H by (rewrite G; auto)|].
    done.
  - intros H. apply set_dns_linux_gated with (dns_servers := dns_servers) in H.
    by apply only_logged_fields in H as (Hf & _).
Qed.

Lemma direct_file_branch_is_gated_witness :
  link_is_managed host_stub_link = true
  /\ set_dns_linux_resolv_conf ["8.8.8.8"; "1.1.1.1"] host_stub_link
     = (Ret false, host_stub_link).
Proof.
  split; [reflexivity|].
  apply (direct_file_branch_is_gated ["8.8.8.8"; "1.1.1.1"] host_stub_link).
  left. reflexivity.
Defined.

(** ** The backup of the direct-file method *)

(** A property of the host that ignores the log is kept by whatever
    changes the log only. *)
Lemma keeps_blind {A : Type} (I : World -> Prop) (c : M A) :
  (forall w0, keeps (only_logged w0) any_exn c) ->
  (forall w0 w, only_logged w0 w -> I w0 -> I w) ->
  keeps I any_exn c.
Proof.
  intros Hc HI w Hw. destruct (Hc w w (only_logged_refl w)) as [H _].
  split; [by apply (HI w) | by destruct (fst (c w))].
Qed.

Lemma file_at_refl (path : string) (w : World) : file_at path (file_of path w) w.
Proof. by split. Qed.

Lemma file_at_blind (path : string) (v : option node * gset string) (w0 w : World) :
  only_logged w0 w -> file_at path v w0 -> file_at path v w.
Proof.
  intros H. apply only_logged_fields in H as (Hf & Hd & _). unfold file_at.
  by rewrite Hf, Hd.
Qed.

Lemma copy_file_other (src dst k : string) (f : gmap string node) :
  k <> dst -> copy_file src dst f !! k = f !! k.
Proof.
  intros H. unfold copy_file. destruct (f !! src) as [n|]; [|done].
  destruct (seen n); [|done]. by rewrite lookup_insert_ne.
Qed.

Lemma move_file_other (src dst k : string) (f : gmap string node) :
  k <> dst -> k <> src -> move_file src dst f !! k = f !! k.
Proof.
  intros H1 H2. unfold move_file. destruct (f !! src) as [n|]; [|done].
  by rewrite lookup_insert_ne, lookup_delete_ne.
Qed.

Lemma keeps_file_run (k : string) (v : option node * gset string)
    (argv : list string) (check capture timeout : bool) :
  (forall f, effect argv f !! k = f !! k) ->
  keeps (file_at k v) any_exn (subprocess_run argv check capture timeout).
Proof.
  intros Hh w Hw. unfold subprocess_run, completed, file_at in *.
  assert (forall (A : Type) (b : py A),
             match b with Ret _ => True | Raise e => any_exn e end) as T
    by (by intros A [|]).
  split; [|apply T].
  destruct (proc w argv) as [cp|cp| |]; repeat case_match; simpl; rewrite ?Hh; done.
Qed.

Lemma keeps_file_write (k : string) (v : option node * gset string)
    (path content : string) :
  path <> k -> keeps (file_at k v) any_exn (write_text path content).
Proof.
  intros Hne w Hw. unfold write_text, file_at in *.
  case_decide; simpl; [done|]. by rewrite lookup_insert_ne.
Qed.

(** [set_dns_linux] never touches the path [restore_dns_linux] reads its
    backup from. *)
Lemma set_dns_linux_keeps_restore_backup (dns_servers : list string)
    (v : option node * gset string) :
  keeps (file_at restore_backup_path v) any_exn (set_dns_linux dns_servers).
Proof.
  unfold set_dns_linux. destruct dns_servers as [|s0 rest]; [apply keeps_ret|].
  apply keeps_bind.
  { apply keeps_blind; [intros; apply set_dns_linux_nmcli_logged | apply file_at_blind]. }
  intros [b|]; [apply keeps_ret|]. apply keeps_bind.
  { apply keeps_blind; [intros; apply set_dns_linux_resolvectl_logged | apply file_at_blind]. }
  intros [b|]; [apply keeps_ret|].
  unfold set_dns_linux_resolv_conf. apply keeps_bind.
  { intros w Hw. unfold safety_check_symlink. split; [by repeat case_match|].
    by repeat case_match. }
  intros [b|]; [apply keeps_ret|]. apply keeps_bind.
  { unfold safety_check_comments. apply (keeps_try _ any_exn); [|intros; apply keeps_ret|done].
    apply keeps_bind; [|intros; case_match; apply keeps_ret].
    intros w Hw. unfold read_text. split; by repeat case_match. }
  intros [b|]; [apply keeps_ret|].
  unfold backup_and_write. apply (keeps_try _ any_exn); [|intros; apply keeps_ret|done].
  apply keeps_bind.
  { apply keeps_file_run. intros f. by apply copy_file_other. }
  intros _. apply keeps_bind; [by apply keeps_file_write|].
  intros _. apply keeps_bind; [|intros; apply keeps_ret].
  apply keeps_file_run. intros f. by apply move_file_other.
Qed.

(** C2.  The claim is that the direct-file branch of [set_dns_linux]
    stores its backup at the path from which the direct-file branch of
    [restore_dns_linux] reads it.  The code does otherwise: the two paths
    differ, [set_dns_linux] never creates or changes the file at the path
    the restore reads, and on a host with a plain resolver file the
    backup taken by a successful direct-file mutation is not found by the
    restore, which reports failure and leaves the overwritten resolver
    file in place. *)
Theorem backup_paths_disagree :
  set_backup_path <> restore_backup_path
  /\ (forall dns_servers w,
        fs (snd (set_dns_linux dns_servers w)) !! restore_backup_path
        = fs w !! restore_backup_path)
  /\ (let w1 := snd (set_dns_linux ["8.8.8.8"] host_plain_file) in
      let w2 := snd (restore_dns_linux (JObj [resolv_conf_entry]) w1) in
      fst (set_dns_linux ["8.8.8.8"] host_plain_file) = Ret true
      /\ fs w1 !! set_backup_path = Some (File original_resolv_conf)
      /\ fs w1 !! restore_backup_path = None
      /\ fs w1 !! resolv_conf_path = Some (File (new_resolv_content ["8.8.8.8"]))
      /\ fst (restore_dns_linux (JObj [resolv_conf_entry]) w1) = Ret false
      /\ fs w2 !! resolv_conf_path = Some (File (new_resolv_content ["8.8.8.8"]))).
Proof.
  split; [done|]. split.
  - intros dns_servers w.
    by destruct (set_dns_linux_keeps_restore_backup dns_servers
                   (file_of restore_backup_path w) w
                   (file_at_refl restore_backup_path w)) as [[H _] _].
  - cbv zeta. repeat split; vm_compute; reflexivity.
Qed.

(** ** The NetworkManager method *)

#[local] Arguments subprocess_run : simpl never.

Lemma subprocess_run_exits (argv : list string) (check capture timeout : bool)
    (cp : CompletedProcess) (w : World) :
  proc w argv = Exits cp -> harmless argv ->
  subprocess_run argv check capture timeout w
  = (if (returncode cp =? 0) || negb check then Ret cp
     else Raise (CalledProcessError capture), record (Ran argv) w)%bool.
Proof.
  intros Hp Hh. unfold subprocess_run, completed. rewrite Hp. simpl.
  destruct (returncode cp =? 0); simpl.
  - f_equal. unfold with_fs. simpl. rewrite Hh. done.
  - by destruct check.
Qed.

Lemma subprocess_run_missing (argv : list string) (check capture timeout : bool)
    (w : World) :
  proc w argv = NoSuchFile ->
  subprocess_run argv check capture timeout w
  = (Raise FileNotFoundError, record (Ran argv) w).
Proof. intros Hp. unfold subprocess_run. by rewrite Hp. Qed.

(** C6, as the code has it.  The NetworkManager method takes the
    connected devices in the order of the listing and stops at the first
    one for which setting the servers and reapplying both succeed: it
    returns true at once and runs no command for the devices after it.
    A device for which setting the servers or reapplying fails is passed
    over and the next one is tried. *)
Theorem nmcli_stops_at_first_success (device : string) (rest : list string)
    (dns : string) (w : World) :
  exits w (nmcli_ignore_auto device) ->
  (exits_ok w (nmcli_set_dns device dns) -> exits_ok w (nmcli_reapply device) ->
   set_dns_linux_nmcli_devices (device :: rest) dns w
   = (Ret (Some true),
      record (Ran (nmcli_reapply device))
        (record (Ran (nmcli_ignore_auto device))
           (record (Ran (nmcli_set_dns device dns)) w))))
  /\ (exits_bad w (nmcli_set_dns device dns) ->
      set_dns_linux_nmcli_devices (device :: rest) dns w
      = set_dns_linux_nmcli_devices rest dns (record (Ran (nmcli_set_dns device dns)) w))
  /\ (exits_ok w (nmcli_set_dns device dns) -> exits_bad w (nmcli_reapply device) ->
      set_dns_linux_nmcli_devices (device :: rest) dns w
      = set_dns_linux_nmcli_devices rest dns
          (record (Ran (nmcli_reapply device))
             (record (Ran (nmcli_ignore_auto device))
                (record (Ran (nmcli_set_dns device dns)) w)))).
Proof.
  intros (cp2 & H2).
  assert (forall argv : list string, harmless ("nmcli" :: argv)) as Hh
    by (intros; by apply harmless_other).
  split; [|split].
  - intros (cp1 & H1 & R1) (cp3 & H3 & R3). simpl. unfold bind.
    rewrite (subprocess_run_exits _ _ _ _ cp1) by (done || apply Hh).
    rewrite orb_true_r, R1. simpl. unfold bind.
    rewrite (subprocess_run_exits _ _ _ _ cp2) by (done || apply Hh).
    rewrite orb_true_r.
    rewrite (subprocess_run_exits _ _ _ _ cp3) by (done || apply Hh).
    rewrite orb_true_r, R3. done.
  - intros (cp1 & H1 & R1). simpl. unfold bind.
    rewrite (subprocess_run_exits _ _ _ _ cp1) by (done || apply Hh).
    rewrite orb_true_r. apply Z.eqb_neq in R1. by rewrite R1.
  - intros (cp1 & H1 & R1) (cp3 & H3 & R3). simpl. unfold bind.
    rewrite (subprocess_run_exits _ _ _ _ cp1) by (done || apply Hh).
    rewrite orb_true_r, R1. simpl. unfold bind.
    rewrite (subprocess_run_exits _ _ _ _ cp2) by (done || apply Hh).
    rewrite orb_true_r.
    rewrite (subprocess_run_exits _ _ _ _ cp3) by (done || apply Hh).
    rewrite orb_true_r. apply Z.eqb_neq in R3. by rewrite R3.
Qed.

Lemma nmcli_stops_at_first_success_witness :
  exits host_two_devices (nmcli_ignore_auto "eth0")
  /\ exits_ok host_two_devices (nmcli_set_dns "eth0" "8.8.8.8,1.1.1.1")
  /\ exits_ok host_two_devices (nmcli_reapply "eth0")
  /\ set_dns_linux_nmcli_devices ["eth0"; "wlan0"] "8.8.8.8,1.1.1.1" host_two_devices
     = (Ret (Some true),
        record (Ran (nmcli_reapply "eth0"))
          (record (Ran (nmcli_ignore_auto "eth0"))
             (record (Ran (nmcli_set_dns "eth0" "8.8.8.8,1.1.1.1")) host_two_devices))).
Proof.
  assert (exits host_two_devices (nmcli_ignore_auto "eth0")) as H2
    by (by exists ok).
  assert (exits_ok host_two_devices (nmcli_set_dns "eth0" "8.8.8.8,1.1.1.1")) as H1
    by (by exists ok).
  assert (exits_ok host_two_devices (nmcli_reapply "eth0")) as H3
    by (by exists ok).
  repeat (split; [done|]).
  by apply (nmcli_stops_at_first_success "eth0" ["wlan0"] "8.8.8.8,1.1.1.1"
              host_two_devices H2).
Defined.

(** C6, as the claim words it, fails: with two connected devices and
    every command succeeding, the mutator returns true after the first
    device and runs no command for the second. *)
Lemma nmcli_leaves_second_device_unconfigured :
  nmcli_active_devices nmcli_listing = ["eth0"; "wlan0"]
  /\ set_dns_linux ["8.8.8.8"; "1.1.1.1"] host_two_devices
     = (Ret true,
        with_log
          [Ran ["nmcli"; "--version"];
           Ran ["nmcli"; "-t"; "-f"; "DEVICE,STATE"; "dev"];
           Ran (nmcli_set_dns "eth0" "8.8.8.8,1.1.1.1");
           Ran (nmcli_ignore_auto "eth0");
           Ran (nmcli_reapply "eth0")]
          host_two_devices).
Proof. split; reflexivity. Qed.

(** ** Falling through the methods *)

Lemma probe_exn_caught (e : exn) : probe_exn e -> caught_exn e.
Proof. by destruct e. Qed.

Lemma keeps_calm_run (argv : list string) (check capture timeout : bool) :
  keeps calm probe_exn (subprocess_run argv check capture timeout).
Proof.
  intros w Hw. unfold subprocess_run, completed.
  assert (forall w' : World, proc w' = proc w -> calm w')
    as Hc by (intros w' E argv'; rewrite E; apply Hw).
  pose proof (Hw argv) as Hne.
  destruct (proc w argv) as [cp|cp| |]; [| | |done];
    repeat case_match; simpl; (split; [by apply Hc | try done]);
    match goal with H : _ = Raise _ |- _ => simpl in H; injection H as <- end;
    reflexivity.
Qed.

Lemma keeps_calm_run_caught (argv : list string) (check capture timeout : bool) :
  keeps calm caught_exn (subprocess_run argv check capture timeout).
Proof. eapply keeps_weaken; [apply probe_exn_caught | apply keeps_calm_run]. Qed.

Lemma keeps_calm_write (path content : string) :
  keeps calm caught_exn (write_text path content).
Proof.
  intros w Hw. unfold write_text, caught_exn. case_decide; simpl; split; done.
Qed.

Lemma keeps_calm_read (path : string) :
  keeps calm caught_exn (read_text path).
Proof.
  intros w Hw. unfold read_text, caught_exn.
  case_decide; [by split|].
  destruct (fs w !! path) as [n|]; [|by split].
  destruct (seen n); by split.
Qed.

(** A [try] whose handlers catch whatever its body raises. *)
Lemma keeps_try_probe {A : Type} (I : World -> Prop) (E : exn -> Prop) (c : M A)
    (h : exn -> M A) :
  keeps I probe_exn c -> (forall e, keeps I E (h e)) ->
  keeps I E (try_except c is_probe_error h).
Proof.
  intros Hc Hh. apply (keeps_try I probe_exn); [done | auto |].
  intros e He Hn. unfold probe_exn in He. congruence.
Qed.

Lemma keeps_try_all {A : Type} (I : World -> Prop) (E : exn -> Prop) (c : M A)
    (h : exn -> M A) :
  keeps I caught_exn c -> (forall e, keeps I E (h e)) ->
  keeps I E (try_except c is_Exception h).
Proof.
  intros Hc Hh. apply (keeps_try I caught_exn); [done | auto |].
  intros e He Hn. unfold caught_exn in He. congruence.
Qed.

Ltac keeps_calm :=
  keeps_with
    ltac:(first
      [ apply keeps_calm_run
      | apply keeps_calm_run_caught
      | apply keeps_calm_write
      | apply keeps_calm_read
      | apply keeps_try_probe; [|intros ?]
      | apply keeps_try_all; [|intros ?] ]).

Lemma is_command_available_calm (E : exn -> Prop) (command : string) :
  keeps calm E (is_command_available command).
Proof. unfold is_command_available. keeps_calm. Qed.

Lemma get_default_linux_interface_calm (E : exn -> Prop) :
  keeps calm E get_default_linux_interface.
Proof. unfold get_default_linux_interface. keeps_calm. Qed.







Lemma is_command_available_absent (command : string) (w : World) :
  tool_absent w command -> String.eqb command "which" = false ->
  is_command_available command w
  = (Ret false, record (Ran [command; "--help"]) (record (Ran [command; "--version"]) w)).
Proof.
  intros [H1 H2] Hw. unfold is_command_available, try_except, bind.
  rewrite subprocess_run_missing by done. simpl.
  rewrite subprocess_run_missing by done. simpl. by rewrite Hw.
Qed.





(** ** Flushing changes nothing but the log *)

Lemma run_ok_logged w0 argv :
  harmless argv -> keeps (only_logged w0) any_exn (run_ok argv).
Proof. intros H. unfold run_ok. keeps_logged. Qed.

Lemma init_d_restart_logged w0 restarted script :
  keeps (only_logged w0) any_exn (init_d_restart restarted script).
Proof.
  intros w Hw. unfold init_d_restart.
  destruct (negb restarted && path_exists w script)%bool; [|by split].
  apply run_ok_logged; [apply harmless_sudo_short | done].
Qed.

Lemma flush_dns_windows_logged w0 : keeps (only_logged w0) any_exn flush_dns_windows.
Proof. unfold flush_dns_windows. keeps_logged. Qed.

Lemma flush_dns_linux_nscd_logged w0 : keeps (only_logged w0) any_exn flush_dns_linux_nscd.
Proof.
  unfold flush_dns_linux_nscd.
  apply keeps_bind; [apply is_command_available_logged|]. intros [|]; [|apply keeps_ret].
  apply keeps_bind; [apply is_command_available_logged|]. intros systemctl.
  apply keeps_bind; [|intros; apply init_d_restart_logged].
  destruct systemctl; [|apply keeps_ret].
  apply (keeps_try _ any_exn); [|intros; apply keeps_ret|done].
  apply keeps_bind; [apply is_service_active_logged|]. intros a1.
  apply keeps_bind.
  { destruct a1; [apply keeps_ret | apply is_service_active_logged]. }
  intros active. keeps_logged.
Qed.

Lemma flush_dns_linux_dnsmasq_logged w0 :
  keeps (only_logged w0) any_exn flush_dns_linux_dnsmasq.
Proof.
  unfold flush_dns_linux_dnsmasq.
  apply keeps_bind; [apply is_command_available_logged|]. intros [|]; [|apply keeps_ret].
  apply keeps_bind; [apply is_command_available_logged|]. intros systemctl.
  apply keeps_bind; [|intros; apply init_d_restart_logged].
  destruct systemctl; [|apply keeps_ret].
  apply (keeps_try _ any_exn); [|intros; apply keeps_ret|done].
  apply keeps_bind; [apply is_service_active_logged|]. intros a1.
  apply keeps_bind.
  { destruct a1; [apply keeps_ret|].
    apply keeps_bind; [apply is_service_active_logged | intros; apply keeps_ret]. }
  intros active. keeps_logged.
Qed.

Lemma flush_dns_linux_logged w0 : keeps (only_logged w0) any_exn flush_dns_linux.
Proof.
  unfold flush_dns_linux.
  apply keeps_bind; [apply is_command_available_logged|]. intros avail.
  apply keeps_bind.
  { destruct avail; [apply run_ok_logged; auto with harmless | apply keeps_ret]. }
  intros [|]; [apply keeps_ret|].
  apply keeps_bind; [apply flush_dns_linux_nscd_logged|].
  intros [|]; [apply keeps_ret | apply flush_dns_linux_dnsmasq_logged].
Qed.

Lemma flush_dns_macos_logged w0 : keeps (only_logged w0) any_exn flush_dns_macos.
Proof.
  unfold flush_dns_macos. apply keeps_bind.
  { apply (keeps_try _ any_exn); [|intros; case_match; apply keeps_ret|done].
    keeps_logged. }
  intros d. apply keeps_bind; [apply run_ok_logged; auto with harmless|].
  intros; apply keeps_ret.
Qed.

Lemma flush_dns_logged w0 : keeps (only_logged w0) any_exn flush_dns.
Proof.
  unfold flush_dns.
  apply (keeps_read _ _ (fun w =>
    let* current_os := lift (get_os (system_name w) None) in _)).
  intros w. apply keeps_bind; [apply keeps_lift; done|]. intros os.
  destruct (String.eqb os "windows").
  { apply keeps_bind; [apply flush_dns_windows_logged | intros; apply keeps_ret]. }
  destruct (String.eqb os "linux").
  { apply keeps_bind; [apply flush_dns_linux_logged | intros; apply keeps_ret]. }
  destruct (String.eqb os "macos"); [|apply keeps_ret].
  apply keeps_bind; [apply flush_dns_macos_logged | intros; apply keeps_ret].
Qed.

(** ** The restore flow and the snapshot file *)

Lemma keeps_file_harmless (k : string) (v : option node * gset string)
    (argv : list string) (check capture timeout : bool) :
  harmless argv ->
  keeps (file_at k v) any_exn (subprocess_run argv check capture timeout).
Proof. intros H. apply keeps_file_run. intros f. by rewrite H. Qed.

Lemma keeps_file_emit (k : string) (v : option node * gset string) (e : event) :
  keeps (file_at k v) any_exn (emit e).
Proof. intros w Hw. by split. Qed.

Ltac keeps_file :=
  keeps_with
    ltac:(first
      [ apply keeps_file_emit
      | apply keeps_file_harmless; solve [auto with harmless]
      | apply (keeps_try _ any_exn); [| intros ? _ _ | done] ]).

Lemma restore_dns_linux_entry_file (k : string) (v : option node * gset string)
    (interface_id : string) (is_dhcp servers method : json) :
  k <> restore_backup_path -> k <> resolv_conf_path ->
  keeps (file_at k v) any_exn (restore_dns_linux_entry interface_id is_dhcp servers method).
Proof.
  intros Hk1 Hk2. unfold restore_dns_linux_entry.
  apply (keeps_try _ any_exn); [|intros ? _ _; keeps_file|done].
  destruct (is_str method "nmcli" || is_str method "nmcli_unknown_fallback_to_dhcp")%bool;
    [keeps_file|].
  destruct (is_str method "resolvectl"); [keeps_file|].
  destruct (is_str method "resolv.conf"); [|keeps_file].
  intros w Hw. destruct (path_exists w restore_backup_path); [|split; [exact Hw | done]].
  revert w Hw. apply keeps_bind; [|intros; apply keeps_ret].
  apply keeps_file_run. intros f. by apply move_file_other.
Qed.

Lemma restore_dns_linux_loop_file (k : string) (v : option node * gset string)
    (items : list (string * json)) : forall success,
  k <> restore_backup_path -> k <> resolv_conf_path ->
  keeps (file_at k v) any_exn (restore_dns_linux_loop items success).
Proof.
  induction items as [|[interface_id config] rest IH]; intros success Hk1 Hk2; simpl.
  - apply keeps_ret.
  - apply keeps_bind; [by apply keeps_lift|]. intros _.
    apply keeps_bind; [apply keeps_file_emit|]. intros _.
    apply keeps_bind; [by apply keeps_lift|]. intros is_dhcp.
    apply keeps_bind; [by apply keeps_lift|]. intros servers.
    apply keeps_bind; [by apply keeps_lift|]. intros method.
    apply keeps_bind; [by apply restore_dns_linux_entry_file|].
    intros [ok|b]; [by apply IH | apply keeps_ret].
Qed.

Lemma restore_dns_linux_file (k : string) (v : option node * gset string)
    (settings : json) :
  k <> restore_backup_path -> k <> resolv_conf_path ->
  keeps (file_at k v) any_exn (restore_dns_linux settings).
Proof.
  intros Hk1 Hk2. unfold restore_dns_linux.
  apply keeps_bind; [by apply keeps_lift|]. intros items.
  by apply restore_dns_linux_loop_file.
Qed.

Lemma flush_dns_file (k : string) (v : option node * gset string) :
  keeps (file_at k v) any_exn flush_dns.
Proof.
  apply keeps_blind; [intros; apply flush_dns_logged | apply file_at_blind].
Qed.

(** Loading leaves the host as it is; a truthy result comes from a file
    that exists and may be opened. *)
Lemma load_original_dns_settings_world (filepath : string) (w : World) :
  snd (load_original_dns_settings filepath w) = w.
Proof.
  unfold load_original_dns_settings, try_except, bind, read_text, lift.
  destruct (path_exists w filepath); simpl; [|done].
  case_decide; [done|].
  destruct (fs w !! filepath) as [n|]; [|done].
  destruct (seen n) as [c|]; [|done]. simpl.
  destruct (json_loads _) as [v|e]; [done|]. by destruct (is_Exception e).
Qed.

Lemma load_original_dns_settings_truthy (filepath : string) (w : World) (v : json) :
  fst (load_original_dns_settings filepath w) = Ret v -> truthy v = true ->
  (filepath ∉ denied w) /\ is_Some (fs w !! filepath).
Proof.
  unfold load_original_dns_settings, try_except, bind, read_text, lift, path_exists.
  destruct (fs w !! filepath) as [n|]; simpl; [|by intros [= <-]].
  destruct (seen n) as [c|]; simpl; [|by intros [= <-]].
  case_decide; simpl; [by intros [= <-]|]. eauto.
Qed.

(** On Linux, as root and with a snapshot that loads to a truthy value
    whose map for "linux" is [settings], the flow is: restore, remove the
    snapshot file if the restore returned true, flush. *)
Lemma check_privileges_root (w : World) :
  get_os (system_name w) None = Ret "linux" -> euid w = 0 ->
  check_privileges w = (Ret true, w).
Proof.
  intros Hos Heuid. unfold check_privileges. cbv beta. unfold bind, lift.
  rewrite Hos. simpl. by rewrite Heuid.
Qed.

Lemma run_restore_dns_flow_linux (w : World) (original_settings settings : json) :
  get_os (system_name w) None = Ret "linux" -> euid w = 0 ->
  fst (load_original_dns_settings ORIGINAL_DNS_CONFIG_FILE w) = Ret original_settings ->
  truthy original_settings = true ->
  py_get original_settings "linux" (JObj []) = Ret settings ->
  run_restore_dns_flow w
  = match restore_dns_linux settings w with
    | (Ret true, w1) =>
        bind (try_except (os_remove ORIGINAL_DNS_CONFIG_FILE) is_OSError (fun _ => ret tt))
          (fun _ => flush_dns) w1
    | (Ret false, w1) => flush_dns w1
    | (Raise e, w1) => (Raise e, w1)
    end.
Proof.
  intros Hos Heuid Hload Htruthy Hget.
  unfold run_restore_dns_flow. cbv beta. unfold bind at 1.
  rewrite check_privileges_root by done. simpl. unfold bind at 1.
  pose proof (load_original_dns_settings_world ORIGINAL_DNS_CONFIG_FILE w) as Hw.
  destruct (load_original_dns_settings ORIGINAL_DNS_CONFIG_FILE w) as [r w'].
  simpl in Hload, Hw. subst r w'. rewrite Htruthy. simpl.
  unfold bind at 1. unfold lift at 1. rewrite Hos. simpl.
  unfold bind at 1 2. unfold lift at 1. rewrite Hget.
  destruct (restore_dns_linux settings w) as [[[|]|e] w1]; try done.
Qed.

(** The fate of the snapshot file in that flow: it is gone when the
    restore returned true and it is untouched otherwise. *)
Lemma snapshot_file_fate (w : World) (original_settings settings : json) :
  get_os (system_name w) None = Ret "linux" -> euid w = 0 ->
  fst (load_original_dns_settings ORIGINAL_DNS_CONFIG_FILE w) = Ret original_settings ->
  truthy original_settings = true ->
  py_get original_settings "linux" (JObj []) = Ret settings ->
  fs (snd (run_restore_dns_flow w)) !! ORIGINAL_DNS_CONFIG_FILE
  = match fst (restore_dns_linux settings w) with
    | Ret true => None
    | _ => fs w !! ORIGINAL_DNS_CONFIG_FILE
    end.
Proof.
  intros Hos Heuid Hload Htruthy Hget.
  rewrite (run_restore_dns_flow_linux w original_settings settings) by done.
  destruct (load_original_dns_settings_truthy _ _ _ Hload Htruthy) as [Hden [n Hn]].
  destruct (restore_dns_linux_file ORIGINAL_DNS_CONFIG_FILE
              (file_of ORIGINAL_DNS_CONFIG_FILE w) settings) with (w := w)
    as [[Hfile Hden1] _]; try done.
  destruct (restore_dns_linux settings w) as [[[|]|e] w1]; simpl in *; [| |done].
  - unfold bind, try_except, os_remove.
    rewrite Hden1. case_decide; [done|]. rewrite Hfile, Hn. simpl.
    destruct (flush_dns_file ORIGINAL_DNS_CONFIG_FILE (None, denied w)
                (with_fs (delete ORIGINAL_DNS_CONFIG_FILE (fs w1)) w1))
      as [[Hgone _] _]; [|done].
    split; [apply lookup_delete_eq | done].
  - by destruct (flush_dns_file ORIGINAL_DNS_CONFIG_FILE
                   (file_of ORIGINAL_DNS_CONFIG_FILE w) w1) as [[Hkept _] _].
Qed.

(** C9.  Each per-platform restore function returns true over zero
    entries and touches nothing.  On Linux, as root, with a snapshot file
    that loads to a non-empty value whose map for "linux" is empty or
    absent, the restore flow therefore amounts to removing the snapshot
    file and flushing: the file is gone afterwards although no
    attachment point was restored. *)
Theorem restore_of_nothing_deletes_snapshot :
  (forall w, restore_dns_linux (JObj []) w = (Ret true, w)
             /\ restore_dns_windows (JObj []) w = (Ret true, w)
             /\ restore_dns_macos (JObj []) w = (Ret true, w))
  /\ (forall w original_settings,
        get_os (system_name w) None = Ret "linux" -> euid w = 0 ->
        fst (load_original_dns_settings ORIGINAL_DNS_CONFIG_FILE w) = Ret original_settings ->
        truthy original_settings = true ->
        py_get original_settings "linux" (JObj []) = Ret (JObj []) ->
        is_Some (fs w !! ORIGINAL_DNS_CONFIG_FILE)
        /\ run_restore_dns_flow w = flush_dns (without_snapshot w)
        /\ fs (snd (run_restore_dns_flow w)) !! ORIGINAL_DNS_CONFIG_FILE = None).
Proof.
  split; [done|].
  intros w original_settings Hos Heuid Hload Htruthy Hget.
  destruct (load_original_dns_settings_truthy _ _ _ Hload Htruthy) as [Hden [n Hn]].
  split; [by exists n|]. split.
  - rewrite (run_restore_dns_flow_linux w original_settings (JObj [])) by done.
    change (restore_dns_linux (JObj []) w) with (@Ret bool true, w). cbv iota beta.
    unfold bind, try_except, os_remove. case_decide; [done|]. by rewrite Hn.
  - by rewrite (snapshot_file_fate w original_settings (JObj [])).
Qed.

Lemma restore_of_nothing_deletes_snapshot_witness :
  fst (load_original_dns_settings ORIGINAL_DNS_CONFIG_FILE host_foreign_snapshot)
  = Ret windows_snapshot
  /\ fs host_foreign_snapshot !! ORIGINAL_DNS_CONFIG_FILE
     = Some (File (json_dumps windows_snapshot))
  /\ fs (snd (run_restore_dns_flow host_foreign_snapshot)) !! ORIGINAL_DNS_CONFIG_FILE
     = None.
Proof.
  assert (fst (load_original_dns_settings ORIGINAL_DNS_CONFIG_FILE host_foreign_snapshot)
          = Ret windows_snapshot) as Hload by (vm_compute; reflexivity).
  split; [done|]. split; [reflexivity|].
  by apply (proj2 restore_of_nothing_deletes_snapshot host_foreign_snapshot
              windows_snapshot).
Defined.

(** ** Restoring with a missing backup *)

Lemma hoare_ret {A : Type} (I : World -> Prop) (Q : A -> Prop) (E : exn -> Prop) (a : A) :
  Q a -> hoare I Q E (ret a).
Proof. intros HQ w H. by split. Qed.

Lemma hoare_bind {A B : Type} (I : World -> Prop) (Q : B -> Prop) (E : exn -> Prop)
    (c : M A) (k : A -> M B) :
  keeps I E c -> (forall a, hoare I Q E (k a)) -> hoare I Q E (bind c k).
Proof.
  intros Hc Hk w H. unfold bind. destruct (Hc w H) as [H1 H2].
  destruct (c w) as [[a|e] w1]; simpl in *; [by apply Hk | done].
Qed.

Lemma hoare_try {A : Type} (I : World -> Prop) (Q : A -> Prop) (E' E : exn -> Prop)
    (c : M A) (catches : exn -> bool) (h : exn -> M A) :
  hoare I Q E' c ->
  (forall e, E' e -> catches e = true -> hoare I Q E (h e)) ->
  (forall e, E' e -> catches e = false -> E e) ->
  hoare I Q E (try_except c catches h).
Proof.
  intros Hc Hh He w H. unfold try_except. destruct (Hc w H) as [H1 H2].
  destruct (c w) as [[a|e] w1]; simpl in *; [done|].
  destruct (catches e) eqn:C; [by apply Hh | split; [done | by apply He]].
Qed.

Lemma visited_app (l1 l2 : list event) :
  visited (l1 ++ l2) = (visited l1 ++ visited l2)%list.
Proof. apply omap_app. Qed.

Lemma restoring_run (w0 : World) (v : list string) (missing : bool)
    (argv : list string) (check timeout : bool) :
  (missing = false -> no_tool_missing w0) -> harmless argv ->
  keeps (restoring w0 v) (body_exn missing) (subprocess_run argv check true timeout).
Proof.
  intros Hm Hh w [Hw Hv].
  destruct (keeps_logged_run w0 argv check true timeout Hh w Hw) as [Hl _].
  assert (visited (log (snd (subprocess_run argv check true timeout w))) = v) as Hv'.
  { unfold subprocess_run, completed.
    destruct (proc w argv); repeat case_match; simpl;
      rewrite visited_app; simpl; by rewrite app_nil_r. }
  split; [by split|].
  apply only_logged_fields in Hw as (_ & _ & Hp & _).
  unfold subprocess_run, completed. unfold body_exn.
  destruct (proc w argv) as [cp|cp| |] eqn:Hproc.
  - destruct (returncode cp =? 0); [done|]. by destruct check.
  - destruct timeout; [done|].
    destruct (returncode cp =? 0); [done|]. by destruct check.
  - simpl. repeat split; try done. intros Hf _. specialize (Hm Hf argv).
    rewrite <- Hp in Hm. done.
  - done.
Qed.

Lemma all_strs_map (l : list string) : all_strs (map JStr l) = Ret l.
Proof. induction l as [|x l IH]; simpl; [done | by rewrite IH]. Qed.

Lemma restore_dns_linux_entry_restoring (w0 : World) (v : list string) (missing : bool)
    (interface_id : string) (a : AttachmentSnapshot) :
  path_exists w0 restore_backup_path = false ->
  (missing = false -> no_tool_missing w0) ->
  hoare (restoring w0 v) (step_ok missing) no_exn
    (restore_dns_linux_entry interface_id (dhcp_to_py (is_dhcp a))
       (JArr (map JStr (servers a))) (JStr (method a))).
Proof.
  intros Hb Hm. unfold restore_dns_linux_entry.
  apply (hoare_try _ _ (body_exn missing)).
  - destruct (is_str _ "nmcli" || is_str _ "nmcli_unknown_fallback_to_dhcp")%bool.
    { apply hoare_bind.
      { destruct (truthy _); [apply keeps_ret|].
        apply keeps_lift. simpl. rewrite all_strs_map. simpl. done. }
      intros dns. cbv zeta.
      apply hoare_bind; [apply restoring_run; auto with harmless|]. intros _.
      apply hoare_bind; [apply restoring_run; auto with harmless|]. intros _.
      apply hoare_bind; [apply restoring_run; auto with harmless|]. intros _.
      by apply hoare_ret. }
    destruct (is_str _ "resolvectl").
    { apply hoare_bind; [apply restoring_run; auto with harmless|]. intros _.
      by apply hoare_ret. }
    destruct (is_str _ "resolv.conf"); [|by apply hoare_ret].
    intros w [Hw Hv]. pose proof Hw as Hw'.
    apply only_logged_fields in Hw' as (Hf & _).
    unfold path_exists in *. rewrite Hf, Hb. by split.
  - intros e (H1 & H2 & H3) _.
    destruct e as [| | | | | | | | | |captured|code]; try (by apply hoare_ret).
    + apply hoare_ret. simpl. split; [done|]. destruct missing; [done|].
      by specialize (H2 eq_refl).
    + destruct captured; [by apply hoare_ret | done].
  - intros e (_ & _ & H) C. congruence.
Qed.

Lemma restore_dns_linux_entry_direct_file (interface_id : string) (d s : json)
    (w : World) :
  path_exists w restore_backup_path = false ->
  restore_dns_linux_entry interface_id d s (JStr "resolv.conf") w = (Ret (Next false), w).
Proof.
  intros Hb. unfold restore_dns_linux_entry, try_except. simpl. by rewrite Hb.
Qed.

Lemma restore_dns_linux_loop_cons (interface_id : string) (a : AttachmentSnapshot)
    (rest : list (string * json)) (success : bool) (w : World) :
  restore_dns_linux_loop ((interface_id, attachment_to_py a) :: rest) success w
  = match restore_dns_linux_entry interface_id (dhcp_to_py (is_dhcp a))
            (JArr (map JStr (servers a))) (JStr (method a))
            (record (Restoring interface_id) w) with
    | (Ret (Next ok), w') => restore_dns_linux_loop rest (success && ok) w'
    | (Ret (Return b), w') => (Ret b, w')
    | (Raise e, w') => (Raise e, w')
    end.
Proof.
  simpl. unfold bind, lift, emit. simpl.
  destruct (restore_dns_linux_entry _ _ _ _ _) as [[[ok|b]|e] w']; done.
Qed.

Lemma restore_dns_linux_loop_typed (missing : bool) (w0 : World)
    (points : list (string * AttachmentSnapshot)) :
  path_exists w0 restore_backup_path = false ->
  (missing = false -> no_tool_missing w0) ->
  forall success w, only_logged w0 w ->
    exists b,
      fst (restore_dns_linux_loop (items_to_py points) success w) = Ret b
      /\ only_logged w0 (snd (restore_dns_linux_loop (items_to_py points) success w))
      /\ (missing = false ->
          visited (log (snd (restore_dns_linux_loop (items_to_py points) success w)))
          = (visited (log w) ++ map fst points)%list)
      /\ (b = true ->
          success = true
          /\ Forall (fun kv => method (snd kv) <> "resolv.conf") points).
Proof.
  intros Hb Hm. induction points as [|[id a] points IH]; intros success w Hw.
  - exists success. simpl. rewrite app_nil_r. auto.
  - change (items_to_py ((id, a) :: points))
      with ((id, attachment_to_py a) :: items_to_py points).
    rewrite restore_dns_linux_loop_cons.
    set (w1 := record (Restoring id) w).
    assert (restoring w0 (visited (log w) ++ [id]) w1) as Hw1.
    { split.
      - unfold only_logged, w1, record, with_log in *. simpl. by rewrite Hw.
      - unfold w1. simpl. by rewrite visited_app. }
    destruct (restore_dns_linux_entry_restoring w0 _ missing id a Hb Hm w1 Hw1)
      as [[Hl Hv] Hst].
    assert (method a = "resolv.conf" ->
            restore_dns_linux_entry id (dhcp_to_py (is_dhcp a))
              (JArr (map JStr (servers a))) (JStr (method a)) w1
            = (Ret (Next false), w1)) as Hdirect.
    { intros ->. apply restore_dns_linux_entry_direct_file.
      apply only_logged_fields in Hw as (Hf & _).
      unfold path_exists in *. unfold w1. simpl. by rewrite Hf. }
    destruct (restore_dns_linux_entry id _ _ _ w1) as [[[ok|b]|e] w2]; simpl in *;
      [| |done].
    + destruct (IH (success && ok)%bool w2 Hl) as (b & Hr & Hl' & Hv' & Hb').
      exists b. split; [done|]. split; [done|]. split.
      * intros Hmiss. rewrite (Hv' Hmiss), Hv, <- app_assoc. done.
      * intros ->. destruct (Hb' eq_refl) as [Hs Hall].
        apply andb_true_iff in Hs as [-> ->]. split; [done|].
        constructor; [|done]. simpl. intros Hmeth.
        specialize (Hdirect Hmeth). congruence.
    + destruct Hst as [-> ->]. exists false. split; [done|]. split; [done|].
      split; [done | discriminate].
Qed.

(** C3, as the code has it.  With the backup file missing, an entry of
    the direct-file method is a failure of that point only: the loop
    goes on with the remaining points, from an untouched host, with the
    overall result already false.  The restore of a snapshot that holds
    such an entry returns false and changes nothing but the log, and the
    restore flow leaves the snapshot file as it was.  Every point of the
    snapshot is attempted provided no command's executable is missing (a
    missing executable ends the loop at once).  In every case the flow
    removes the snapshot file only when the restore returned true. *)
Theorem restore_with_missing_backup (w : World)
    (points : list (string * AttachmentSnapshot)) (interface_id : string)
    (a : AttachmentSnapshot) :
  path_exists w restore_backup_path = false ->
  In (interface_id, a) points -> method a = "resolv.conf" ->
  (forall rest success w1,
      path_exists w1 restore_backup_path = false ->
      restore_dns_linux_loop ((interface_id, attachment_to_py a) :: rest) success w1
      = restore_dns_linux_loop rest false (record (Restoring interface_id) w1))
  /\ fst (restore_dns_linux (points_to_py points) w) = Ret false
  /\ only_logged w (snd (restore_dns_linux (points_to_py points) w))
  /\ (no_tool_missing w ->
      visited (log (snd (restore_dns_linux (points_to_py points) w)))
      = (visited (log w) ++ map fst points)%list)
  /\ (forall original_settings,
        get_os (system_name w) None = Ret "linux" -> euid w = 0 ->
        fst (load_original_dns_settings ORIGINAL_DNS_CONFIG_FILE w) = Ret original_settings ->
        truthy original_settings = true ->
        py_get original_settings "linux" (JObj []) = Ret (points_to_py points) ->
        fs (snd (run_restore_dns_flow w)) !! ORIGINAL_DNS_CONFIG_FILE
        = fs w !! ORIGINAL_DNS_CONFIG_FILE)
  /\ (forall w' original_settings settings,
        get_os (system_name w') None = Ret "linux" -> euid w' = 0 ->
        fst (load_original_dns_settings ORIGINAL_DNS_CONFIG_FILE w') = Ret original_settings ->
        truthy original_settings = true ->
        py_get original_settings "linux" (JObj []) = Ret settings ->
        fs (snd (run_restore_dns_flow w')) !! ORIGINAL_DNS_CONFIG_FILE = None ->
        fst (restore_dns_linux settings w') = Ret true).
Proof.
  intros Hb Hin Hmeth.
  assert (restore_dns_linux (points_to_py points) w
          = restore_dns_linux_loop (items_to_py points) true w) as Hloop by done.
  assert (fst (restore_dns_linux (points_to_py points) w) = Ret false) as Hfalse.
  { rewrite Hloop.
    destruct (restore_dns_linux_loop_typed true w points Hb ltac:(done) true w
                (only_logged_refl w)) as (b & Hr & _ & _ & Hall).
    rewrite Hr. destruct b; [|done].
    destruct (Hall eq_refl) as [_ Hall']. rewrite Forall_forall in Hall'.
    apply list_elem_of_In in Hin. by destruct (Hall' (interface_id, a) Hin). }
  split; [|split; [done|split; [|split; [|split]]]].
  - intros rest success w1 Hb1. rewrite restore_dns_linux_loop_cons, Hmeth.
    rewrite restore_dns_linux_entry_direct_file by done.
    by rewrite andb_false_r.
  - rewrite Hloop.
    by destruct (restore_dns_linux_loop_typed true w points Hb ltac:(done) true w
                   (only_logged_refl w)) as (b & _ & Hl & _).
  - intros Hnone. rewrite Hloop.
    destruct (restore_dns_linux_loop_typed false w points Hb ltac:(done) true w
                (only_logged_refl w)) as (b & _ & _ & Hv & _).
    by apply Hv.
  - intros original_settings Hos Heuid Hload Htruthy Hget.
    rewrite (snapshot_file_fate w original_settings (points_to_py points)) by done.
    by rewrite Hfalse.
  - intros w' original_settings settings Hos Heuid Hload Htruthy Hget Hgone.
    rewrite (snapshot_file_fate w' original_settings settings) in Hgone by done.
    destruct (load_original_dns_settings_truthy _ _ _ Hload Htruthy) as [_ [n Hn]].
    destruct (fst (restore_dns_linux settings w')) as [[|]|e]; congruence.
Qed.

Lemma restore_with_missing_backup_witness :
  path_exists host_nmcli_only restore_backup_path = false
  /\ fst (restore_dns_linux (points_to_py three_points) host_nmcli_only) = Ret false
  /\ visited (log (snd (restore_dns_linux (points_to_py three_points) host_nmcli_only)))
     = [resolv_conf_path; "eth0"; "eth1"]
  /\ fs (snd (run_restore_dns_flow host_nmcli_only)) !! ORIGINAL_DNS_CONFIG_FILE
     = fs host_nmcli_only !! ORIGINAL_DNS_CONFIG_FILE.
Proof.
  assert (path_exists host_nmcli_only restore_backup_path = false) as Hb
    by reflexivity.
  assert (In (resolv_conf_path, direct_file_entry) three_points) as Hin
    by (left; reflexivity).
  destruct (restore_with_missing_backup host_nmcli_only three_points resolv_conf_path
              direct_file_entry Hb Hin eq_refl) as (_ & Hfalse & _ & Hv & Hflow & _).
  split; [done|]. split; [done|]. split.
  - apply Hv. intros argv. discriminate.
  - apply (Hflow (JObj [("linux", points_to_py three_points)])); reflexivity.
Defined.

(** C3, as the claim words it, fails: on a host where [nmcli] is not
    installed, after the direct-file entry fails the loop reaches the
    first NetworkManager device, finds the executable missing and
    returns; the second device is never attempted. *)
Lemma restore_stops_at_missing_tool :
  path_exists host_no_tools restore_backup_path = false
  /\ restore_dns_linux (points_to_py three_points) host_no_tools
     = (Ret false,
        with_log
          [Restoring resolv_conf_path;
           Restoring "eth0";
           Ran ["nmcli"; "dev"; "mod"; "eth0"; "ipv4.dns"; "192.168.1.1"]]
          host_no_tools)
  /\ ~ In "eth1"
        (visited (log (snd (restore_dns_linux (points_to_py three_points) host_no_tools)))).
Proof.
  split; [reflexivity|]. split; [reflexivity|].
  vm_compute. intros [H|[H|[]]]; discriminate H.
Qed.

(** ** The snapshot file round trip *)

#[local] Arguments scanstring : simpl nomatch.

Lemma scanstring_escape_char (c : ascii) (r : string) :
  scanstring (escape_char c ++ r) = cons_str c (scanstring r).
Proof. destruct c as [[] [] [] [] [] [] [] []]; reflexivity. Qed.

Lemma scanstring_escape (s rest : string) :
  scanstring (escape s ++ String QUOTE rest) = Some (s, rest).
Proof.
  induction s as [|c s IH]; [reflexivity|].
  simpl. rewrite str_app_assoc, scanstring_escape_char, IH. reflexivity.
Qed.

Lemma skip_ws_spaces (n : nat) (r : string) : skip_ws (spaces n ++ r) = skip_ws r.
Proof. induction n as [|n IH]; [done | by simpl]. Qed.

Lemma skip_ws_newline_indent (level : nat) (r : string) :
  skip_ws (newline_indent level ++ r) = skip_ws r.
Proof. unfold newline_indent. simpl. apply skip_ws_spaces. Qed.

Lemma no_cr_app (a b : string) : no_cr (a ++ b) = (no_cr a && no_cr b)%bool.
Proof.
  induction a as [|c a IH]; [done|]. simpl. rewrite IH. by rewrite andb_assoc.
Qed.

Lemma universal_newlines_no_cr (s : string) :
  no_cr s = true -> universal_newlines s = s.
Proof.
  induction s as [|c s IH]; [done|]. simpl. intros H.
  apply andb_true_iff in H as [Hc Hs]. apply negb_true_iff in Hc.
  by rewrite Hc, (IH Hs).
Qed.

Lemma no_cr_escape_char (c : ascii) : no_cr (escape_char c) = true.
Proof. destruct c as [[] [] [] [] [] [] [] []]; reflexivity. Qed.

Lemma no_cr_escape (s : string) : no_cr (escape s) = true.
Proof.
  induction s as [|c s IH]; [done|]. simpl.
  by rewrite no_cr_app, no_cr_escape_char, IH.
Qed.

Lemma no_cr_encode_string (s : string) : no_cr (encode_string s) = true.
Proof. unfold encode_string. simpl. by rewrite no_cr_app, no_cr_escape. Qed.

Lemma no_cr_spaces (n : nat) : no_cr (spaces n) = true.
Proof. induction n as [|n IH]; [done | by simpl]. Qed.

Lemma no_cr_newline_indent (level : nat) : no_cr (newline_indent level) = true.
Proof. unfold newline_indent. simpl. apply no_cr_spaces. Qed.

(** *** Induction on values *)

Lemma json_nested_ind (P : json -> Prop) :
  P JNull -> (forall b, P (JBool b)) -> (forall z, P (JInt z)) -> (forall s, P (JStr s)) ->
  (forall items, Forall P items -> P (JArr items)) ->
  (forall pairs, Forall (fun kx => P (snd kx)) pairs -> P (JObj pairs)) ->
  forall v, P v.
Proof.
  intros Hnull Hbool Hint Hstr Harr Hobj.
  fix IH 1. intros [|b|z|s|items|pairs].
  - apply Hnull.
  - apply Hbool.
  - apply Hint.
  - apply Hstr.
  - apply Harr. induction items as [|x items IHitems]; constructor; [apply IH | done].
  - apply Hobj. induction pairs as [|[k x] pairs IHpairs]; constructor; [apply IH | done].
Qed.

Lemma plain_arr (items : list json) : plain (JArr items) <-> Forall plain items.
Proof.
  induction items as [|x items IH]; simpl.
  - split; [constructor | done].
  - split.
    + intros [Hx Hl]. constructor; [done | by apply IH].
    + intros H. apply Forall_cons in H as [Hx Hl]. split; [done | by apply IH].
Qed.

Lemma plain_obj (pairs : list (string * json)) :
  plain (JObj pairs) <-> NoDup (map fst pairs) /\ Forall (fun kx => plain (snd kx)) pairs.
Proof.
  simpl. apply and_iff_compat_l.
  induction pairs as [|kx pairs IH].
  - split; [constructor | done].
  - split.
    + intros [Hx Hl]. constructor; [done | by apply IH].
    + intros H. apply Forall_cons in H as [Hx Hl]. split; [done | by apply IH].
Qed.

(** *** The shape of encoded values *)

Lemma encode_items_fix (level : nat) (l : list json) :
  (fix more (l : list json) {struct l} : string :=
     match l with
     | [] => EmptyString
     | y :: l' =>
         "," ++ newline_indent (S level) ++ encode (S level) y ++ more l'
     end) l
  = encode_items level l.
Proof. induction l as [|y l IH]; [done|]. cbn [encode_items]. by rewrite <- IH. Qed.

Lemma encode_pairs_fix (level : nat) (l : list (string * json)) :
  (fix more (l : list (string * json)) {struct l} : string :=
     match l with
     | [] => EmptyString
     | (k', y) :: l' =>
         "," ++ newline_indent (S level) ++ encode_string k' ++ ": "
         ++ encode (S level) y ++ more l'
     end) l
  = encode_pairs level l.
Proof.
  induction l as [|[k' y] l IH]; [done|]. cbn [encode_pairs].
  unfold encode_pair. cbn [fst snd]. rewrite !str_app_assoc. by rewrite <- IH.
Qed.

Lemma encode_arr (level : nat) (x : json) (xs : list json) :
  encode level (JArr (x :: xs))
  = "[" ++ newline_indent (S level) ++ encode (S level) x ++ encode_items level xs
    ++ newline_indent level ++ "]".
Proof. rewrite <- encode_items_fix. reflexivity. Qed.

Lemma encode_obj (level : nat) (kx : string * json) (xs : list (string * json)) :
  encode level (JObj (kx :: xs))
  = "{" ++ newline_indent (S level) ++ encode_pair level kx ++ encode_pairs level xs
    ++ newline_indent level ++ "}".
Proof.
  destruct kx as [k x]. rewrite <- encode_pairs_fix. unfold encode_pair. cbn [fst snd].
  rewrite !str_app_assoc. reflexivity.
Qed.

Lemma encode_head (level : nat) (v : json) :
  plain v -> exists d t, encode level v = String d t /\ opens_value d.
Proof.
  unfold opens_value.
  destruct v as [|[]|z|s|[|x xs]|[|[k x] xs]]; simpl; try done; eauto 10.
Qed.

Lemma encode_string_head (k : string) :
  encode_string k = String QUOTE (escape k ++ str1 QUOTE).
Proof. reflexivity. Qed.

(** *** Dicts with distinct keys *)

Lemma dict_set_fresh (k : string) (v : json) (d : list (string * json)) :
  ~ In k (map fst d) -> dict_set k v d = (d ++ [(k, v)])%list.
Proof.
  induction d as [|[k' v'] d IH]; [done|]. simpl. intros H.
  destruct (String.eqb_spec k k') as [->|Hne]; [by destruct H; left|].
  rewrite IH; [done|]. intros Hin. apply H. by right.
Qed.

Lemma dict_of_pairs_distinct (pairs : list (string * json)) :
  NoDup (map fst pairs) -> dict_of_pairs pairs = pairs.
Proof.
  unfold dict_of_pairs.
  assert (forall l d, NoDup (map fst (d ++ l)%list) ->
            fold_left (fun d kv => dict_set (fst kv) (snd kv) d) l d = (d ++ l)%list) as H.
  { induction l as [|[k v] l IH]; intros d Hnd; simpl.
    - by rewrite app_nil_r.
    - rewrite dict_set_fresh.
      + rewrite IH; rewrite <- app_assoc; done.
      + rewrite map_app in Hnd. simpl in Hnd.
        apply NoDup_app in Hnd as (_ & Hnd & _).
        intros Hin. apply list_elem_of_In in Hin. apply (Hnd k Hin). by left. }
  intros Hnd. by apply (H pairs []).
Qed.

(** *** Decoding an encoded value *)

#[local] Arguments encode : simpl never.
#[local] Arguments newline_indent : simpl never.
#[local] Arguments skip_ws : simpl nomatch.
#[local] Arguments parse_value : simpl never.
#[local] Arguments parse_items : simpl never.
#[local] Arguments parse_pairs : simpl never.

Lemma skip_ws_cons (c : ascii) (s : string) :
  skip_ws (String c s) = if is_json_ws c then skip_ws s else String c s.
Proof. reflexivity. Qed.

Lemma skip_ws_encode (level : nat) (v : json) (r : string) :
  plain v -> skip_ws (encode level v ++ r) = encode level v ++ r.
Proof.
  intros Hp. destruct (encode_head level v Hp) as (d & t & -> & Hws & _).
  change (String d t ++ r) with (String d (t ++ r)). by rewrite skip_ws_cons, Hws.
Qed.

Lemma parse_items_S (fuel : nat) (s : string) :
  parse_items (S fuel) s
  = match parse_value fuel s with
    | Some (v, rest) =>
        match skip_ws rest with
        | String d r1 =>
            if Ascii.eqb d "," then
              match parse_items fuel (skip_ws r1) with
              | Some (items, rest') => Some (v :: items, rest')
              | None => None
              end
            else if Ascii.eqb d "]" then Some ([v], r1)
            else None
        | EmptyString => None
        end
    | None => None
    end.
Proof. reflexivity. Qed.

Lemma parse_pairs_S (fuel : nat) (r : string) :
  parse_pairs (S fuel) (String QUOTE r)
  = match scanstring r with
    | Some (key, rest) =>
        match skip_ws rest with
        | String d r1 =>
            if Ascii.eqb d ":" then
              match parse_value fuel (skip_ws r1) with
              | Some (v, rest1) =>
                  match skip_ws rest1 with
                  | String e r2 =>
                      if Ascii.eqb e "," then
                        match parse_pairs fuel (skip_ws r2) with
                        | Some (pairs, rest') => Some ((key, v) :: pairs, rest')
                        | None => None
                        end
                      else if Ascii.eqb e "}" then Some ([(key, v)], r2)
                      else None
                  | EmptyString => None
                  end
              | None => None
              end
            else None
        | EmptyString => None
        end
    | None => None
    end.
Proof. reflexivity. Qed.

Lemma parse_items_encode (level : nat) (xs : list json) : forall x fuel rest,
  Forall round_trips (x :: xs) -> Forall plain (x :: xs) ->
  (String.length (encode (S level) x ++ encode_items level xs) < fuel)%nat ->
  parse_items fuel
    (encode (S level) x ++ encode_items level xs ++ newline_indent level
     ++ String "]" rest)
  = Some (x :: xs, rest).
Proof.
  induction xs as [|y xs IH]; intros x fuel rest Hrt Hpl Hlen.
  - destruct fuel as [|fuel]; [lia|]. rewrite parse_items_S.
    apply Forall_cons in Hrt as [Hx _].
    rewrite Hx by (rewrite str_length_app in Hlen; lia).
    cbn [encode_items String.append]. rewrite skip_ws_newline_indent. reflexivity.
  - destruct fuel as [|fuel]; [lia|]. rewrite parse_items_S.
    apply Forall_cons in Hrt as [Hx Hrt]. apply Forall_cons in Hpl as [_ Hpl].
    rewrite Hx by (rewrite str_length_app in Hlen; lia).
    cbn [encode_items]. rewrite !str_app_assoc. cbn [String.append].
    change (skip_ws (String "," ?r)) with (String "," r). lazy beta iota.
    change (Ascii.eqb "," ",") with true. lazy beta iota.
    assert (plain y) as Hy by (by apply Forall_cons in Hpl as [Hy _]).
    rewrite skip_ws_newline_indent, skip_ws_encode by done.
    rewrite IH; [done | done | done |].
    cbn [encode_items] in Hlen. rewrite !str_length_app in Hlen.
    rewrite str_length_app. cbn [String.append String.length] in Hlen. lia.
Qed.

Lemma encode_pair_app (level : nat) (k : string) (x : json) (r : string) :
  encode_pair level (k, x) ++ r
  = String QUOTE
      (escape k ++ String QUOTE (String ":" (String " " (encode (S level) x ++ r)))).
Proof.
  unfold encode_pair, encode_string. cbn [fst snd].
  rewrite !str_app_assoc. cbn [String.append]. rewrite !str_app_assoc. reflexivity.
Qed.

Lemma encode_pair_length (level : nat) (k : string) (x : json) :
  (String.length (encode (S level) x) < String.length (encode_pair level (k, x)))%nat.
Proof.
  unfold encode_pair, encode_string. cbn [fst snd String.append String.length].
  rewrite !str_length_app. cbn [String.length]. lia.
Qed.

Lemma parse_pairs_key (fuel : nat) (k t : string) :
  parse_pairs (S fuel) (String QUOTE (escape k ++ String QUOTE (String ":" (String " " t))))
  = match parse_value fuel (skip_ws t) with
    | Some (v, rest1) =>
        match skip_ws rest1 with
        | String e r2 =>
            if Ascii.eqb e "," then
              match parse_pairs fuel (skip_ws r2) with
              | Some (pairs, rest') => Some ((k, v) :: pairs, rest')
              | None => None
              end
            else if Ascii.eqb e "}" then Some ([(k, v)], r2)
            else None
        | EmptyString => None
        end
    | None => None
    end.
Proof. rewrite parse_pairs_S, scanstring_escape. reflexivity. Qed.

Lemma parse_pairs_encode (level : nat) (xs : list (string * json)) : forall kx fuel rest,
  Forall (fun kx => round_trips (snd kx)) (kx :: xs) ->
  Forall (fun kx => plain (snd kx)) (kx :: xs) ->
  (String.length (encode_pair level kx ++ encode_pairs level xs) < fuel)%nat ->
  parse_pairs fuel
    (encode_pair level kx ++ encode_pairs level xs ++ newline_indent level
     ++ String "}" rest)
  = Some (kx :: xs, rest).
Proof.
  induction xs as [|[k' y] xs IH]; intros [k x] fuel rest Hrt Hpl Hlen.
  - destruct fuel as [|fuel]; [lia|].
    apply Forall_cons in Hrt as [Hx _]. apply Forall_cons in Hpl as [Hpx _].
    cbn [snd] in Hx, Hpx.
    pose proof (encode_pair_length level k x) as Hk.
    rewrite str_length_app in Hlen.
    rewrite encode_pair_app, parse_pairs_key, skip_ws_encode, Hx by (done || lia).
    cbn [encode_pairs String.append]. rewrite skip_ws_newline_indent. reflexivity.
  - destruct fuel as [|fuel]; [lia|].
    apply Forall_cons in Hrt as [Hx Hrt]. apply Forall_cons in Hpl as [Hpx Hpl].
    cbn [snd] in Hx, Hpx.
    pose proof (encode_pair_length level k x) as Hk.
    rewrite str_length_app in Hlen.
    rewrite encode_pair_app, parse_pairs_key, skip_ws_encode, Hx by (done || lia).
    cbn [encode_pairs]. rewrite !str_app_assoc. cbn [String.append].
    change (skip_ws (String "," ?r)) with (String "," r). lazy beta iota.
    change (Ascii.eqb "," ",") with true. lazy beta iota.
    rewrite skip_ws_newline_indent.
    assert (forall r, skip_ws (encode_pair level (k', y) ++ r)
                      = encode_pair level (k', y) ++ r) as ->.
    { intros r. rewrite encode_pair_app. reflexivity. }
    rewrite IH; [done | done | done |].
    cbn [encode_pairs] in Hlen. rewrite !str_length_app in Hlen.
    rewrite str_length_app. cbn [String.append String.length] in Hlen. lia.
Qed.

Lemma parse_value_str (fuel : nat) (r : string) :
  parse_value (S fuel) (String QUOTE r)
  = match scanstring r with
    | Some (str, rest) => Some (JStr str, rest)
    | None => None
    end.
Proof. reflexivity. Qed.

Lemma parse_value_arr (fuel : nat) (r : string) (d : ascii) (t : string) :
  skip_ws r = String d t -> Ascii.eqb d "]" = false ->
  parse_value (S fuel) (String "[" r)
  = match parse_items fuel (String d t) with
    | Some (items, rest) => Some (JArr items, rest)
    | None => None
    end.
Proof.
  intros Hr Hd.
  change (parse_value (S fuel) (String "[" r))
    with (match skip_ws r with
          | String d r1 =>
              if Ascii.eqb d "]" then Some (JArr [], r1)
              else match parse_items fuel (String d r1) with
                   | Some (items, rest) => Some (JArr items, rest)
                   | None => None
                   end
          | EmptyString => None
          end).
  by rewrite Hr, Hd.
Qed.

Lemma parse_value_obj (fuel : nat) (r : string) (d : ascii) (t : string) :
  skip_ws r = String d t -> Ascii.eqb d "}" = false ->
  parse_value (S fuel) (String "{" r)
  = match parse_pairs fuel (String d t) with
    | Some (pairs, rest) => Some (JObj (dict_of_pairs pairs), rest)
    | None => None
    end.
Proof.
  intros Hr Hd.
  change (parse_value (S fuel) (String "{" r))
    with (match skip_ws r with
          | String d r1 =>
              if Ascii.eqb d "}" then Some (JObj [], r1)
              else match parse_pairs fuel (String d r1) with
                   | Some (pairs, rest) => Some (JObj (dict_of_pairs pairs), rest)
                   | None => None
                   end
          | EmptyString => None
          end).
  by rewrite Hr, Hd.
Qed.

Lemma parse_value_encode (v : json) : plain v -> round_trips v.
Proof.
  induction v as [|b|z|s|items IH|pairs IH] using json_nested_ind;
    intros Hp level fuel rest Hlen.
  - destruct fuel as [|fuel]; [cbv in Hlen; lia | by destruct rest].
  - destruct fuel as [|fuel]; [destruct b; cbv in Hlen; lia | by destruct b, rest].
  - destruct Hp.
  - change (encode level (JStr s)) with (encode_string s) in *.
    destruct fuel as [|fuel]; [cbv [encode_string String.length] in Hlen; lia|].
    unfold encode_string. cbn [String.append]. rewrite str_app_assoc.
    cbn [String.append str1]. by rewrite parse_value_str, scanstring_escape.
  - destruct items as [|x xs].
    { destruct fuel as [|fuel]; [cbv in Hlen; lia | reflexivity]. }
    apply plain_arr in Hp.
    assert (Forall round_trips (x :: xs)) as Hrt.
    { clear Hlen. induction IH as [|y l Hy _ IHl]; [constructor|].
      apply Forall_cons in Hp as [Hpy Hpl]. constructor; [by apply Hy | by apply IHl]. }
    rewrite encode_arr in *. rewrite !str_length_app in Hlen.
    cbn [String.length] in Hlen.
    destruct fuel as [|fuel]; [lia|].
    rewrite !str_app_assoc. cbn [String.append].
    assert (plain x) as Hx by (by apply Forall_cons in Hp as [Hx _]).
    destruct (encode_head (S level) x Hx) as (d & t & Hd & _ & Hd1 & _).
    erewrite parse_value_arr; [| |exact Hd1].
    2:{ rewrite skip_ws_newline_indent, skip_ws_encode by done.
        rewrite Hd. cbn [String.append]. reflexivity. }
    change (String d (t ++ ?r)) with (String d t ++ r). rewrite <- Hd.
    rewrite parse_items_encode; [done | done | done |].
    rewrite str_length_app. lia.
  - destruct pairs as [|[k x] xs].
    { destruct fuel as [|fuel]; [cbv in Hlen; lia | reflexivity]. }
    apply plain_obj in Hp as [Hnd Hp].
    assert (Forall (fun kx => round_trips (snd kx)) ((k, x) :: xs)) as Hrt.
    { clear Hlen Hnd. induction IH as [|y l Hy _ IHl]; [constructor|].
      apply Forall_cons in Hp as [Hpy Hpl]. constructor; [by apply Hy | by apply IHl]. }
    rewrite encode_obj in *. rewrite !str_length_app in Hlen.
    cbn [String.length] in Hlen.
    destruct fuel as [|fuel]; [lia|].
    rewrite !str_app_assoc. cbn [String.append].
    erewrite parse_value_obj;
      [| rewrite skip_ws_newline_indent, encode_pair_app; reflexivity | reflexivity].
    rewrite <- encode_pair_app.
    rewrite parse_pairs_encode; [by rewrite dict_of_pairs_distinct | done | done |].
    rewrite str_length_app. lia.
Qed.

Lemma json_loads_dumps (v : json) : plain v -> json_loads (json_dumps v) = Ret v.
Proof.
  intros Hp. unfold json_loads, json_dumps.
  rewrite <- (str_app_nil_r (encode 0 v)) at 2.
  rewrite skip_ws_encode, (parse_value_encode v Hp) by (done || lia).
  reflexivity.
Qed.

(** *** No carriage return in an encoded value *)

Lemma no_cr_encode (v : json) : forall level, plain v -> no_cr (encode level v) = true.
Proof.
  induction v as [|b|z|s|items IH|pairs IH] using json_nested_ind; intros level Hp.
  - reflexivity.
  - by destruct b.
  - destruct Hp.
  - apply no_cr_encode_string.
  - destruct items as [|x xs]; [reflexivity|].
    apply plain_arr in Hp. rewrite encode_arr.
    apply Forall_cons in IH as [Hx IH]. apply Forall_cons in Hp as [Hpx Hp].
    assert (no_cr (encode_items level xs) = true) as Hxs.
    { induction IH as [|y l Hy _ IHl]; [reflexivity|].
      apply Forall_cons in Hp as [Hpy Hpl]. cbn [encode_items].
      rewrite !no_cr_app, no_cr_newline_indent, Hy, IHl by done. reflexivity. }
    rewrite !no_cr_app, !no_cr_newline_indent, Hx, Hxs by done. reflexivity.
  - destruct pairs as [|[k x] xs]; [reflexivity|].
    apply plain_obj in Hp as [_ Hp]. rewrite encode_obj.
    apply Forall_cons in IH as [Hx IH]. apply Forall_cons in Hp as [Hpx Hp].
    cbn [snd] in Hx, Hpx.
    assert (no_cr (encode_pairs level xs) = true) as Hxs.
    { induction IH as [|[k' y] l Hy _ IHl]; [reflexivity|].
      apply Forall_cons in Hp as [Hpy Hpl]. cbn [snd] in Hy, Hpy.
      cbn [encode_pairs]. unfold encode_pair. cbn [fst snd].
      rewrite !no_cr_app, no_cr_newline_indent, no_cr_encode_string, Hy, IHl by done.
      reflexivity. }
    unfold encode_pair. cbn [fst snd].
    rewrite !no_cr_app, !no_cr_newline_indent, no_cr_encode_string, Hx, Hxs by done.
    reflexivity.
Qed.

(** *** Snapshots are plain *)

Lemma plain_attachment (a : AttachmentSnapshot) : plain (attachment_to_py a).
Proof.
  unfold attachment_to_py. apply plain_obj. split.
  - by apply (bool_decide_unpack _).
  - repeat constructor; cbn [snd].
    + apply plain_arr. induction (servers a); by constructor.
    + by destruct (is_dhcp a).
Qed.

Lemma map_fst_pair {A B : Type} (f : A -> B) (l : list (string * A)) :
  map fst (map (fun kv => (fst kv, f (snd kv))) l) = map fst l.
Proof. induction l as [|kv l IH]; [done|]. simpl. by rewrite IH. Qed.

Lemma plain_points (points : list (string * AttachmentSnapshot)) :
  NoDup (map fst points) -> plain (points_to_py points).
Proof.
  intros Hnd. unfold points_to_py. apply plain_obj. split.
  - by rewrite map_fst_pair.
  - induction points as [|kv l IH]; [constructor|].
    apply NoDup_cons in Hnd as [_ Hnd]. constructor; [apply plain_attachment | by apply IH].
Qed.

Lemma plain_snapshot (S : HostSnapshot) :
  snapshot_keys_distinct S -> plain (snapshot_to_py S).
Proof.
  intros [Hnd Hall]. unfold snapshot_to_py. apply plain_obj. split.
  - by rewrite map_fst_pair.
  - clear Hnd. induction Hall as [|kv l Hkv _ IH]; [constructor|].
    constructor; [by apply plain_points | done].
Qed.

(** *** Save, then load *)

Lemma load_after_save (v : json) (filepath : string) (w : World) :
  plain v -> truthy v = true -> filepath ∉ denied w ->
  let w1 := with_fs (<[filepath := written (fs w !! filepath) (json_dumps v)]> (fs w)) w in
  save_original_dns_settings v filepath w = (Ret tt, w1)
  /\ load_original_dns_settings filepath w1 = (Ret v, w1).
Proof.
  intros Hp Ht Hd. cbv zeta. split.
  - unfold save_original_dns_settings, try_except, write_text. rewrite Ht.
    by rewrite decide_False.
  - unfold load_original_dns_settings, path_exists, try_except, bind, read_text, lift.
    cbn [fs denied with_fs]. rewrite lookup_insert_eq.
    assert (seen (written (fs w !! filepath) (json_dumps v)) = Some (json_dumps v)) as ->.
    { by destruct (fs w !! filepath) as [[]|]. }
    cbn [negb]. rewrite decide_False by done.
    rewrite universal_newlines_no_cr by (by apply no_cr_encode).
    by rewrite json_loads_dumps.
Qed.

(** C4 (amended).  A snapshot that names at least one platform, saved to
    a path the process may write, is read back as the value that was
    saved: every attachment point with its server list in order, its
    [dhcp] field (boolean or marker string) and its method tag.  The keys
    of a mapping are distinct ([snapshot_keys_distinct]). *)
Theorem nonempty_snapshot_round_trips (S : HostSnapshot) (filepath : string) (w : World) :
  S <> [] -> snapshot_keys_distinct S -> filepath ∉ denied w ->
  fst (save_original_dns_settings (snapshot_to_py S) filepath w) = Ret tt
  /\ fst (load_original_dns_settings filepath
            (snd (save_original_dns_settings (snapshot_to_py S) filepath w)))
     = Ret (snapshot_to_py S).
Proof.
  intros Hne Hk Hd.
  destruct (load_after_save (snapshot_to_py S) filepath w) as [Hs Hl];
    [by apply plain_snapshot | by destruct S | done |].
  rewrite Hs. cbn [fst snd]. by rewrite Hl.
Qed.

Lemma nonempty_snapshot_round_trips_witness :
  fst (load_original_dns_settings ORIGINAL_DNS_CONFIG_FILE
         (snd (save_original_dns_settings (snapshot_to_py mixed_snapshot)
                 ORIGINAL_DNS_CONFIG_FILE host_empty)))
  = Ret (snapshot_to_py mixed_snapshot).
Proof.
  apply (nonempty_snapshot_round_trips mixed_snapshot ORIGINAL_DNS_CONFIG_FILE host_empty).
  - discriminate.
  - split; [by apply (bool_decide_unpack _)|].
    constructor; [|constructor]. by apply (bool_decide_unpack _).
  - apply not_elem_of_empty.
Defined.

(** C4, as worded, fails on the snapshot with no platform: it is falsy, so
    nothing is written, and loading finds no file and returns [None], which
    is not the empty mapping. *)
Lemma empty_snapshot_is_not_saved :
  save_original_dns_settings (snapshot_to_py []) ORIGINAL_DNS_CONFIG_FILE host_empty
  = (Ret tt, host_empty)
  /\ fst (load_original_dns_settings ORIGINAL_DNS_CONFIG_FILE
            (snd (save_original_dns_settings (snapshot_to_py [])
                    ORIGINAL_DNS_CONFIG_FILE host_empty)))
     = Ret JNull
  /\ JNull <> snapshot_to_py [].
Proof. split; [reflexivity|]. split; [reflexivity | discriminate]. Qed.

(** * Further properties of the script *)

(** ** What the loader hands to the mutators *)

Lemma rstrip_no_lf (s : string) : ends_with_lf (rstrip s) = false.
Proof.
  induction s as [|c s IH]; [done|]. simpl.
  destruct (rstrip s) as [|d r] eqn:E.
  - destruct (isspace c) eqn:Sp; [done|]. simpl.
    destruct (Ascii.eqb c LF) eqn:El; [|done].
    apply ascii_eqb_true in El. subst c. discriminate Sp.
  - exact IH.
Qed.

Lemma entry_of_line_octet_quad (l ip : string) :
  entry_of_line l = Some ip -> is_valid_ip ip = Ret true /\ octet_quad ip.
Proof.
  unfold entry_of_line.
  destruct (String.eqb (strip l) EmptyString || startswith (strip l) "#")%bool; [done|].
  destruct (contains "=" (strip l)); [|done].
  destruct (split1 EQUALS (strip l)) as [|a [|b [|]]]; try done.
  destruct (is_valid_ip (strip b)) as [[|]|] eqn:V; try done.
  intros [= <-]. split; [done|].
  apply is_valid_ip_true_iff in V as [V | (t & Ht & _)]; [done|].
  pose proof (rstrip_no_lf (lstrip b)) as Hlf. fold (strip b) in Hlf.
  by rewrite Ht, ends_with_lf_snoc in Hlf.
Qed.

(** X1.  Whatever list [parse_dns_config] returns has between one and
    three entries, and each of them is four dot-separated groups of one to
    three digits of value at most 255, accepted by [is_valid_ip]: the line
    feed that [is_valid_ip] lets through never reaches the mutators. *)
Theorem parse_dns_config_returns_octet_quads (filepath : string) (w : World)
    (dns_servers : list string) :
  fst (parse_dns_config filepath w) = Ret (Some dns_servers) ->
  (1 <= length dns_servers <= 3)%nat
  /\ Forall octet_quad dns_servers
  /\ Forall (fun ip => is_valid_ip ip = Ret true) dns_servers.
Proof.
  rewrite parse_dns_config_result. cbn [fst].
  destruct (readable_text w filepath) as [text|]; [|done].
  unfold kept_servers. intros H.
  assert (dns_servers = take 3 (omap entry_of_line (readlines text))
          /\ dns_servers <> []) as [-> Hne].
  { destruct (take 3 _) as [|x l] eqn:E; [done|]. by injection H as <-. }
  assert (Forall (fun ip => is_valid_ip ip = Ret true /\ octet_quad ip)
            (take 3 (omap entry_of_line (readlines text)))) as Hall.
  { apply Forall_take. apply Forall_forall. intros ip Hin.
    apply list_elem_of_omap in Hin as (l & _ & Hl).
    by apply entry_of_line_octet_quad in Hl. }
  split; [|split].
  - split; [|rewrite length_take; lia].
    destruct (take 3 _); [done | simpl; lia].
  - eapply Forall_impl; [exact Hall | by intros ip [_ H2]].
  - eapply Forall_impl; [exact Hall | by intros ip [H1 _]].
Qed.

Lemma parse_dns_config_returns_octet_quads_witness :
  fst (parse_dns_config "dnsConf.txt" host_with_config)
  = Ret (Some ["8.8.8.8"; "1.1.1.1"; "9.9.9.9"])
  /\ Forall octet_quad ["8.8.8.8"; "1.1.1.1"; "9.9.9.9"].
Proof.
  assert (fst (parse_dns_config "dnsConf.txt" host_with_config)
          = Ret (Some ["8.8.8.8"; "1.1.1.1"; "9.9.9.9"])) as H by (vm_compute; reflexivity).
  split; [exact H|].
  exact (proj1 (proj2 (parse_dns_config_returns_octet_quads _ _ _ H))).
Defined.

(** ** The probes *)

Lemma with_fs_same (w : World) : with_fs (fs w) w = w.
Proof. by destruct w. Qed.

Lemma subprocess_run_harmless (argv : list string) (check capture timeout : bool)
    (w : World) :
  harmless argv ->
  subprocess_run argv check capture timeout w
  = (match proc w argv with
     | Exits cp =>
         if ((returncode cp =? 0) || negb check)%bool then Ret cp
         else Raise (CalledProcessError capture)
     | ExitsLate cp =>
         if timeout then Raise TimeoutExpired
         else if ((returncode cp =? 0) || negb check)%bool then Ret cp
              else Raise (CalledProcessError capture)
     | NoSuchFile => Raise FileNotFoundError
     | CannotRun => Raise PermissionError
     end, record (Ran argv) w).
Proof.
  intros Hh. unfold subprocess_run, completed.
  destruct (proc w argv) as [cp|cp| |]; try done.
  - destruct (returncode cp =? 0); simpl;
      [f_equal; unfold with_fs; simpl; by rewrite Hh|].
    by destruct check.
  - destruct timeout; [done|].
    destruct (returncode cp =? 0); simpl;
      [f_equal; unfold with_fs; simpl; by rewrite Hh|].
    by destruct check.
Qed.

(** One probe: a command with [check=True] and [timeout=2], its result
    dropped. *)
Lemma probe_run (argv : list string) (w : World) :
  harmless argv ->
  (subprocess_run argv true true true ;; ret true) w
  = (match proc w argv with
     | Exits cp => if returncode cp =? 0 then Ret true else Raise (CalledProcessError true)
     | ExitsLate _ => Raise TimeoutExpired
     | NoSuchFile => Raise FileNotFoundError
     | CannotRun => Raise PermissionError
     end, record (Ran argv) w).
Proof.
  intros Hh. unfold bind. rewrite subprocess_run_harmless by done.
  destruct (proc w argv) as [cp|cp| |]; try done.
  rewrite orb_false_r. by destruct (returncode cp =? 0).
Qed.

Lemma proc_record (e : event) (w : World) : proc (record e w) = proc w.
Proof. reflexivity. Qed.

(** A probe inside its [try]: on a host where the command can be started
    or is missing, the handler runs exactly when the probe fails. *)
Lemma try_probe (argv : list string) (k : M bool) (w : World) :
  harmless argv -> proc w argv <> CannotRun ->
  try_except (subprocess_run argv true true true ;; ret true) is_probe_error
    (fun _ => k) w
  = if probe w argv then (Ret true, record (Ran argv) w)
    else k (record (Ran argv) w).
Proof.
  intros Hh Hc. unfold try_except, probe. rewrite probe_run by done.
  destruct (proc w argv) as [cp|cp| |]; [|done|done|done].
  by destruct (returncode cp =? 0).
Qed.

Lemma is_command_available_result (command : string) (w : World) :
  calm w ->
  fst (is_command_available command w)
  = Ret (available w command).
Proof.
  intros Hc. unfold is_command_available, available.
  rewrite try_probe by (apply harmless_short || apply Hc).
  destruct (probe w [command; "--version"]); [done|].
  rewrite try_probe by (apply harmless_short || apply Hc).
  change (probe (record ?e w) ?a) with (probe w a).
  destruct (probe w [command; "--help"]); [done|].
  destruct (String.eqb command "which"); [|done].
  rewrite try_probe by (apply harmless_short || apply Hc).
  change (probe (record ?e (record ?e' w)) ?a) with (probe w a).
  by destruct (probe w ["which"; "ls"]).
Qed.

(** X2.  On a host where no command fails to start for a reason other
    than a missing executable, [is_command_available] returns true exactly
    when [<command> --version] or [<command> --help] exits with status 0
    within two seconds (for [which], also when [which ls] does); a probe
    that times out, fails or finds no executable counts as absent.  When
    the first probe cannot be started at all, the [PermissionError] is not
    caught and leaves the function. *)
Theorem is_command_available_probes (command : string) (w : World) :
  (calm w -> fst (is_command_available command w) = Ret (available w command))
  /\ (proc w [command; "--version"] = CannotRun ->
      is_command_available command w
      = (Raise PermissionError, record (Ran [command; "--version"]) w)).
Proof.
  split; [apply is_command_available_result|].
  intros H. unfold is_command_available, try_except.
  rewrite probe_run by apply harmless_short. by rewrite H.
Qed.

Lemma is_command_available_probes_witness :
  calm host_two_devices
  /\ fst (is_command_available "nmcli" host_two_devices) = Ret true
  /\ fst (is_command_available "resolvectl" host_two_devices) = Ret false.
Proof.
  assert (calm host_two_devices) as Hc.
  { intros argv. unfold host_two_devices; cbn [proc].
    destruct argv as [|cmd rest]; [done|].
    destruct (String.eqb cmd "nmcli"); [|done].
    by destruct rest as [|? [|? [|? [|? [|? ?]]]]]; repeat case_match. }
  split; [exact Hc|]. split.
  - by rewrite (proj1 (is_command_available_probes "nmcli" host_two_devices) Hc).
  - by rewrite (proj1 (is_command_available_probes "resolvectl" host_two_devices) Hc).
Defined.

(** ** The default interface *)

Lemma lstrip_head (s : string) (c : ascii) (r : string) :
  lstrip s = String c r -> isspace c = false.
Proof.
  induction s as [|d s IH]; [done|]. simpl.
  destruct (isspace d) eqn:E; [done|]. by intros [= <- _].
Qed.

Lemma span_nonspace_no_space (s : string) : no_space (span_nonspace s) = true.
Proof.
  induction s as [|c s IH]; [done|]. simpl.
  destruct (isspace c) eqn:E; [done|]. unfold no_space. simpl.
  rewrite E. exact IH.
Qed.

Lemma search_dev_token (text name : string) :
  search_dev text = Some name -> name <> EmptyString /\ no_space name = true.
Proof.
  induction text as [|c text IH].
  - simpl. done.
  - cbn [search_dev].
    destruct (startswith (String c text) "dev"); [|exact IH].
    destruct (drop3 (String c text)) as [|d r]; [exact IH|].
    destruct (isspace d); [|exact IH].
    destruct (lstrip r) as [|e g] eqn:L; [exact IH|].
    intros [= <-]. apply lstrip_head in L. split.
    + simpl. by rewrite L.
    + exact (span_nonspace_no_space (String e g)).
Qed.

(** X3.  [get_default_linux_interface] never raises and does nothing to
    the host but run [ip route get 1.1.1.1]; the name it returns is the
    first group of the search: it is not empty and holds no white space.
    It returns [None] when the command cannot be run or exits with another
    status than 0. *)
Theorem get_default_linux_interface_returns_a_token (w : World) :
  snd (get_default_linux_interface w) = record (Ran ["ip"; "route"; "get"; "1.1.1.1"]) w
  /\ (exists r, fst (get_default_linux_interface w) = Ret r
        /\ forall name, r = Some name -> name <> EmptyString /\ no_space name = true)
  /\ (succeeds w ["ip"; "route"; "get"; "1.1.1.1"] = false ->
      fst (get_default_linux_interface w) = Ret None).
Proof.
  unfold get_default_linux_interface, try_except, bind, succeeds.
  rewrite subprocess_run_harmless by (by apply harmless_other).
  destruct (proc w ["ip"; "route"; "get"; "1.1.1.1"]) as [cp|cp| |];
    cbn [negb orb]; rewrite ?orb_false_r.
  - destruct (returncode cp =? 0); cbn [fst snd is_Exception ret].
    + split; [done|]. split; [|done]. eexists. split; [done|].
      intros name H. by apply search_dev_token in H.
    + split; [done|]. split; [|done]. by exists None.
  - destruct (returncode cp =? 0); cbn [fst snd is_Exception ret].
    + split; [done|]. split; [|done]. eexists. split; [done|].
      intros name H. by apply search_dev_token in H.
    + split; [done|]. split; [|done]. by exists None.
  - cbn [fst snd is_Exception ret]. split; [done|]. split; [|done]. by exists None.
  - cbn [fst snd is_Exception ret]. split; [done|]. split; [|done]. by exists None.
Qed.

Lemma get_default_linux_interface_returns_a_token_witness :
  fst (get_default_linux_interface host_resolved) = Ret (Some "enp3s0")
  /\ succeeds host_no_tools ["ip"; "route"; "get"; "1.1.1.1"] = false
  /\ fst (get_default_linux_interface host_no_tools) = Ret None.
Proof.
  split; [reflexivity|]. split; [reflexivity|].
  apply (get_default_linux_interface_returns_a_token host_no_tools). reflexivity.
Defined.

(** ** Services of systemd *)

Lemma is_command_available_world (command : string) (w : World) :
  proc (snd (is_command_available command w)) = proc w.
Proof.
  destruct (is_command_available_logged w command w (only_logged_refl w)) as [H _].
  by apply only_logged_fields in H as (_ & _ & H & _).
Qed.

(** X4.  On a host where no command fails to start for a reason other
    than a missing executable, [is_service_active] returns true exactly
    when [systemctl] answers a probe and [systemctl is-active <service>]
    exits with status 0 having printed [active] (white space around it
    aside); it returns false otherwise and never raises. *)
Theorem is_service_active_needs_systemctl (service_name : string) (w : World) :
  calm w ->
  fst (is_service_active service_name w)
  = Ret (available w "systemctl"
         && match proc w ["systemctl"; "is-active"; service_name] with
            | Exits cp | ExitsLate cp =>
                (returncode cp =? 0) && String.eqb (strip (stdout cp)) "active"
            | _ => false
            end)%bool.
Proof.
  intros Hc. unfold is_service_active. unfold bind at 1.
  pose proof (is_command_available_result "systemctl" w Hc) as Hr.
  pose proof (is_command_available_world "systemctl" w) as Hp.
  destruct (is_command_available "systemctl" w) as [[avail|e] w1]; [|done].
  cbn [fst snd] in Hr, Hp. injection Hr as ->.
  destruct (available w "systemctl"); [|done].
  cbn [negb andb]. unfold try_except, bind.
  rewrite subprocess_run_harmless by (by apply harmless_other). rewrite Hp.
  pose proof (Hc ["systemctl"; "is-active"; service_name]) as Hne.
  destruct (proc w ["systemctl"; "is-active"; service_name]) as [cp|cp| |];
    [| | |done]; cbn [negb orb]; rewrite ?orb_true_r; done.
Qed.

Lemma is_service_active_needs_systemctl_witness :
  fst (is_service_active "nscd" host_no_tools) = Ret false.
Proof.
  rewrite (is_service_active_needs_systemctl "nscd" host_no_tools); [reflexivity|].
  intros argv. discriminate.
Defined.

(** ** The direct-file method, from backup to replacement *)

(** A command run with [check=True] and no time limit either succeeds,
    with its effect on the files, or raises, with none. *)
Lemma subprocess_run_checked (argv : list string) (capture : bool) (w : World) :
  (succeeds w argv = true
   /\ exists cp, subprocess_run argv true capture false w
                 = (Ret cp, with_fs (effect argv (fs w)) (record (Ran argv) w)))
  \/ (succeeds w argv = false
      /\ exists e, is_Exception e = true
                   /\ subprocess_run argv true capture false w
                      = (Raise e, record (Ran argv) w)).
Proof.
  unfold subprocess_run, completed, succeeds.
  destruct (proc w argv) as [cp|cp| |].
  - destruct (returncode cp =? 0);
      [left; split; [done|]; by eexists | right; split; [done|]; eexists; (split; [|reflexivity]); reflexivity].
  - destruct (returncode cp =? 0);
      [left; split; [done|]; by eexists | right; split; [done|]; eexists; (split; [|reflexivity]); reflexivity].
  - right. split; [done|]. eexists. (split; [|reflexivity]); reflexivity.
  - right. split; [done|]. eexists. (split; [|reflexivity]); reflexivity.
Qed.

Lemma safety_check_symlink_cases (w : World) :
  safety_check_symlink w = (Ret (Some false), w)
  \/ safety_check_symlink w = (Ret None, w).
Proof.
  unfold safety_check_symlink, path_islink, readlink.
  destruct (fs w !! resolv_conf_path) as [[c|t th]|]; auto.
  destruct (existsb _ known_dynamic_targets); auto.
Qed.

Lemma safety_check_comments_cases (w : World) :
  safety_check_comments w = (Ret (Some false), w)
  \/ (safety_check_comments w = (Ret None, w)
      /\ exists c, content_at w resolv_conf_path = Some c).
Proof.
  unfold safety_check_comments, try_except, bind, read_text, content_at.
  case_decide; [by left|].
  destruct (fs w !! resolv_conf_path) as [n|]; [|by left].
  destruct (seen n) as [c|]; [|by left].
  destruct (existsb _ generator_comments); [by left|]. right. eauto.
Qed.

Lemma backup_and_write_outcome (dns_servers : list string) (w : World) (c : string) :
  content_at w resolv_conf_path = Some c ->
  exists b w', backup_and_write dns_servers w = (Ret b, w')
    /\ (b = true ->
        content_at w' resolv_conf_path = Some (new_resolv_content dns_servers)
        /\ content_at w' set_backup_path = Some c
        /\ fs w' !! temp_resolv_path = None
        /\ succeeds w backup_command = true /\ succeeds w replace_command = true)
    /\ (b = false -> fs w' !! resolv_conf_path = fs w !! resolv_conf_path).
Proof.
  intros Hc. unfold backup_and_write, try_except. unfold bind at 1.
  fold backup_command. fold replace_command.
  destruct (subprocess_run_checked backup_command false w)
    as [(S1 & cp1 & ->) | (S1 & e1 & He1 & ->)];
    [|rewrite He1; by exists false, (record (Ran backup_command) w)].
  set (w1 := with_fs (effect backup_command (fs w)) (record (Ran backup_command) w)).
  assert (fs w1 = <[set_backup_path := written (fs w !! set_backup_path) c]> (fs w)) as F1.
  { subst w1. unfold content_at in Hc. cbn. unfold copy_file.
    destruct (fs w !! resolv_conf_path) as [n|]; [|done]. by rewrite Hc. }
  assert (proc w1 = proc w) as P1 by done.
  unfold bind at 1. unfold write_text.
  case_decide as D.
  { exists false, w1. split; [done|]. split; [done|]. intros _.
    by rewrite F1, lookup_insert_ne. }
  set (n2 := written (fs w1 !! temp_resolv_path) (new_resolv_content dns_servers)).
  set (w2 := with_fs _ w1).
  assert (fs w2 = <[temp_resolv_path := n2]> (fs w1)) as F2 by done.
  assert (seen n2 = Some (new_resolv_content dns_servers)) as Hn2
    by (subst n2; by destruct (fs w1 !! temp_resolv_path) as [[]|]).
  assert (proc w2 = proc w) as P2 by done.
  unfold bind at 1.
  destruct (subprocess_run_checked replace_command false w2)
    as [(S2 & cp2 & ->) | (S2 & e2 & He2 & ->)].
  - assert (effect replace_command (fs w2)
            = <[resolv_conf_path := n2]>
                (delete temp_resolv_path (<[temp_resolv_path := n2]> (fs w1)))) as F3.
    { change (effect replace_command (fs w2))
        with (move_file temp_resolv_path resolv_conf_path (fs w2)).
      unfold move_file. by rewrite F2, lookup_insert_eq. }
    exists true. eexists. split; [reflexivity|]. split; [|done]. intros _.
    unfold content_at. cbn [fs with_fs]. rewrite F3.
    split; [by rewrite lookup_insert_eq|].
    split.
    { rewrite lookup_insert_ne, lookup_delete_ne, lookup_insert_ne by done.
      rewrite F1, lookup_insert_eq. by destruct (fs w !! set_backup_path) as [[]|]. }
    split; [by rewrite lookup_insert_ne, lookup_delete_eq by done|].
    split; [done|]. unfold succeeds in *. by rewrite <- P2.
  - rewrite He2. exists false. eexists. split; [reflexivity|]. split; [done|].
    intros _. cbn [fs record]. rewrite F2, lookup_insert_ne by done.
    by rewrite F1, lookup_insert_ne.
Qed.

(** X5.  The direct-file method of [set_dns_linux] never raises.  When it
    returns true, the backup and the replacement both succeeded:
    [/etc/resolv.conf] reads as the new content, the backup path reads as
    the resolver file did before, and the temporary file is gone.  When it
    returns false, [/etc/resolv.conf] is as it was. *)
Theorem direct_file_method_outcome (dns_servers : list string) (w : World) :
  exists b w', set_dns_linux_resolv_conf dns_servers w = (Ret b, w')
    /\ (b = true ->
        exists c, content_at w resolv_conf_path = Some c
          /\ content_at w' resolv_conf_path = Some (new_resolv_content dns_servers)
          /\ content_at w' set_backup_path = Some c
          /\ fs w' !! temp_resolv_path = None
          /\ succeeds w backup_command = true /\ succeeds w replace_command = true)
    /\ (b = false -> fs w' !! resolv_conf_path = fs w !! resolv_conf_path).
Proof.
  unfold set_dns_linux_resolv_conf. unfold bind at 1.
  destruct (safety_check_symlink_cases w) as [-> | ->];
    [by exists false, w|].
  unfold bind at 1.
  destruct (safety_check_comments_cases w) as [-> | [-> [c Hc]]];
    [by exists false, w|].
  destruct (backup_and_write_outcome dns_servers w c Hc) as (b & w' & E & Ht & Hf).
  exists b, w'. split; [done|]. split; [|done].
  intros Hb. exists c. split; [done|]. by apply Ht.
Qed.

Lemma direct_file_method_outcome_witness :
  fst (set_dns_linux_resolv_conf ["8.8.8.8"] host_plain_file) = Ret true
  /\ content_at (snd (set_dns_linux_resolv_conf ["8.8.8.8"] host_plain_file))
       set_backup_path
     = content_at host_plain_file resolv_conf_path.
Proof.
  assert (fst (set_dns_linux_resolv_conf ["8.8.8.8"] host_plain_file) = Ret true) as H
    by (vm_compute; reflexivity).
  split; [exact H|].
  destruct (direct_file_method_outcome ["8.8.8.8"] host_plain_file)
    as (b & w' & E & Ht & _).
  rewrite E in H |- *. cbn [fst snd] in H |- *. injection H as ->.
  destruct (Ht eq_refl) as (c & Hc & _ & Hb & _). by rewrite Hb, Hc.
Defined.

(** ** The files [set_dns_linux] leaves alone *)

Lemma set_dns_linux_keeps_other_files (dns_servers : list string) (k : string)
    (v : option node * gset string) :
  k <> resolv_conf_path -> k <> set_backup_path -> k <> temp_resolv_path ->
  keeps (file_at k v) any_exn (set_dns_linux dns_servers).
Proof.
  intros K1 K2 K3.
  unfold set_dns_linux. destruct dns_servers as [|s0 rest]; [apply keeps_ret|].
  apply keeps_bind.
  { apply keeps_blind; [intros; apply set_dns_linux_nmcli_logged | apply file_at_blind]. }
  intros [b|]; [apply keeps_ret|]. apply keeps_bind.
  { apply keeps_blind; [intros; apply set_dns_linux_resolvectl_logged | apply file_at_blind]. }
  intros [b|]; [apply keeps_ret|].
  unfold set_dns_linux_resolv_conf. apply keeps_bind.
  { intros w Hw. unfold safety_check_symlink. split; [by repeat case_match|].
    by repeat case_match. }
  intros [b|]; [apply keeps_ret|]. apply keeps_bind.
  { unfold safety_check_comments. apply (keeps_try _ any_exn); [|intros; apply keeps_ret|done].
    apply keeps_bind; [|intros; case_match; apply keeps_ret].
    intros w Hw. unfold read_text. split; by repeat case_match. }
  intros [b|]; [apply keeps_ret|].
  unfold backup_and_write. apply (keeps_try _ any_exn); [|intros; apply keeps_ret|done].
  apply keeps_bind.
  { apply keeps_file_run. intros f. by apply copy_file_other. }
  intros _. apply keeps_bind; [by apply keeps_file_write|].
  intros _. apply keeps_bind; [|intros; apply keeps_ret].
  apply keeps_file_run. intros f. by apply move_file_other.
Qed.

(** X6.  Whatever the host and the servers, and whichever method ends up
    being used, [set_dns_linux] changes no file other than
    [/etc/resolv.conf], its backup [/etc/resolv.conf.bak_set_dns_py] and
    the temporary file [/tmp/resolv.conf.new]. *)
Theorem set_dns_linux_touches_three_paths (dns_servers : list string) (w : World)
    (k : string) :
  k <> resolv_conf_path -> k <> set_backup_path -> k <> temp_resolv_path ->
  fs (snd (set_dns_linux dns_servers w)) !! k = fs w !! k.
Proof.
  intros K1 K2 K3.
  by destruct (set_dns_linux_keeps_other_files dns_servers k (file_of k w) K1 K2 K3 w
                 (file_at_refl k w)) as [[H _] _].
Qed.

Lemma set_dns_linux_touches_three_paths_witness :
  fs (snd (set_dns_linux ["8.8.8.8"] host_plain_file)) !! "/etc/hosts"
  = fs host_plain_file !! "/etc/hosts".
Proof.
  by apply (set_dns_linux_touches_three_paths ["8.8.8.8"] host_plain_file "/etc/hosts").
Defined.

(** ** Flushing on Linux *)

Lemma only_logged_calm (w0 w : World) : only_logged w0 w -> calm w0 -> calm w.
Proof.
  intros H Hc argv. apply only_logged_fields in H as (_ & _ & -> & _). apply Hc.
Qed.

Lemma only_logged_available (w0 w : World) (command : string) :
  only_logged w0 w -> available w command = available w0 command.
Proof.
  intros H. apply only_logged_fields in H as (_ & _ & H & _).
  unfold available, probe. by rewrite H.
Qed.

Lemma only_logged_succeeds (w0 w : World) (argv : list string) :
  only_logged w0 w -> succeeds w argv = succeeds w0 argv.
Proof.
  intros H. apply only_logged_fields in H as (_ & _ & H & _).
  unfold succeeds. by rewrite H.
Qed.

Lemma only_logged_trans (w0 w1 w2 : World) :
  only_logged w0 w1 -> only_logged w1 w2 -> only_logged w0 w2.
Proof. intros -> ->. by destruct w0. Qed.

Lemma is_command_available_eq (command : string) (w : World) :
  calm w ->
  exists w1, is_command_available command w = (Ret (available w command), w1)
             /\ only_logged w w1.
Proof.
  intros Hc. pose proof (is_command_available_result command w Hc) as Hr.
  destruct (is_command_available_logged w command w (only_logged_refl w)) as [Hl _].
  destruct (is_command_available command w) as [r w1]. cbn [fst snd] in *.
  subst r. by exists w1.
Qed.

Lemma run_ok_eq (argv : list string) (w : World) :
  harmless argv -> run_ok argv w = (Ret (succeeds w argv), record (Ran argv) w).
Proof.
  intros Hh. unfold run_ok, try_except, bind, succeeds.
  rewrite subprocess_run_harmless by done.
  destruct (proc w argv) as [cp|cp| |]; cbn [negb orb]; rewrite ?orb_true_r; done.
Qed.

Lemma flush_dns_linux_calm : keeps calm no_exn flush_dns_linux.
Proof.
  assert (forall s, keeps calm no_exn (is_service_active s)) as Hs.
  { intros s. unfold is_service_active.
    apply keeps_bind; [apply is_command_available_calm|]. intros a. keeps_calm. }
  assert (forall r s, keeps calm no_exn (init_d_restart r s)) as Hi.
  { intros r s w Hw. unfold init_d_restart.
    destruct (negb r && path_exists w s)%bool; [|by split].
    revert w Hw. fold (keeps calm no_exn (run_ok ["sudo"; s; "restart"])).
    unfold run_ok. keeps_calm. }
  unfold flush_dns_linux, flush_dns_linux_nscd, flush_dns_linux_dnsmasq, run_ok.
  repeat first
    [ apply keeps_ret
    | apply is_command_available_calm
    | apply Hi
    | apply keeps_calm_run_caught
    | apply keeps_try_all; [|intros ?]
    | eapply keeps_weaken; [|apply Hs]; done
    | apply keeps_bind; [|intros ?]
    | match goal with
      | |- keeps _ _ (if ?b then _ else _) => destruct b
      | |- keeps _ _ (match ?x with _ => _ end) => destruct x
      end ].
Qed.

(** X7.  [flush_dns_linux] changes nothing on the host but the record of
    the commands it runs.  On a host where no command fails to start for a
    reason other than a missing executable it always returns a boolean:
    true as soon as [resolvectl] answers a probe and
    [sudo resolvectl flush-caches] exits with status 0, and false when
    none of [resolvectl], [nscd] and [dnsmasq] answers a probe. *)
Theorem flush_dns_linux_outcomes (w : World) :
  only_logged w (snd (flush_dns_linux w))
  /\ (calm w ->
      (exists b, fst (flush_dns_linux w) = Ret b)
      /\ (available w "resolvectl" = true ->
          succeeds w ["sudo"; "resolvectl"; "flush-caches"] = true ->
          fst (flush_dns_linux w) = Ret true)
      /\ (available w "resolvectl" = false -> available w "nscd" = false ->
          available w "dnsmasq" = false ->
          fst (flush_dns_linux w) = Ret false)).
Proof.
  split.
  { by destruct (flush_dns_linux_logged w w (only_logged_refl w)) as [H _]. }
  intros Hc. split; [|split].
  - destruct (flush_dns_linux_calm w Hc) as [_ H].
    destruct (fst (flush_dns_linux w)) as [b|e]; [by exists b | destruct H].
  - intros Ha Hs. unfold flush_dns_linux. unfold bind at 1.
    destruct (is_command_available_eq "resolvectl" w Hc) as (w1 & -> & L1).
    rewrite Ha. unfold bind at 1. rewrite run_ok_eq by apply harmless_sudo_short.
    by rewrite (only_logged_succeeds w w1), Hs.
  - intros H1 H2 H3. unfold flush_dns_linux. unfold bind at 1.
    destruct (is_command_available_eq "resolvectl" w Hc) as (w1 & -> & L1).
    rewrite H1. unfold bind at 1. cbn [ret]. cbv iota beta.
    unfold bind at 1. unfold flush_dns_linux_nscd. unfold bind at 1.
    destruct (is_command_available_eq "nscd" w1 (only_logged_calm _ _ L1 Hc))
      as (w2 & -> & L2).
    rewrite (only_logged_available w w1), H2 by done. cbn [ret]. cbv iota beta.
    unfold flush_dns_linux_dnsmasq. unfold bind at 1.
    pose proof (only_logged_trans _ _ _ L1 L2) as L12.
    destruct (is_command_available_eq "dnsmasq" w2 (only_logged_calm _ _ L12 Hc))
      as (w3 & -> & L3).
    by rewrite (only_logged_available w w2), H3.
Qed.

Lemma flush_dns_linux_outcomes_witness :
  fst (flush_dns_linux host_nmcli_only) = Ret true
  /\ fst (flush_dns_linux host_no_tools) = Ret false.
Proof.
  split.
  - apply (flush_dns_linux_outcomes host_nmcli_only); [|reflexivity|reflexivity].
    intros argv. discriminate.
  - apply (flush_dns_linux_outcomes host_no_tools); [|reflexivity..].
    intros argv. discriminate.
Defined.

(** ** The restore flow refuses *)

Lemma check_privileges_world (w : World) : snd (check_privileges w) = w.
Proof.
  unfold check_privileges. cbv beta. unfold bind, lift.
  destruct (get_os (system_name w) None) as [os|e]; [|done].
  repeat case_match; done.
Qed.

Lemma check_privileges_get_os (w : World) (b : bool) :
  fst (check_privileges w) = Ret b -> exists os, get_os (system_name w) None = Ret os.
Proof.
  unfold check_privileges. cbv beta. unfold bind, lift.
  destruct (get_os (system_name w) None) as [os|e]; [eauto | done].
Qed.

(** X8.  [run_restore_dns_flow] exits with status 1, having changed
    nothing and run no command, when the process lacks the privilege, and
    when it has it but the snapshot file is missing or loads to an empty
    value. *)
Theorem run_restore_dns_flow_refuses (w : World) :
  (fst (check_privileges w) = Ret false ->
   run_restore_dns_flow w = (Raise (SystemExit 1), w))
  /\ (fst (check_privileges w) = Ret true ->
      (forall v, fst (load_original_dns_settings ORIGINAL_DNS_CONFIG_FILE w) = Ret v ->
                 truthy v = false ->
                 run_restore_dns_flow w = (Raise (SystemExit 1), w))
      /\ (path_exists w ORIGINAL_DNS_CONFIG_FILE = false ->
          run_restore_dns_flow w = (Raise (SystemExit 1), w))).
Proof.
  assert (forall v, fst (check_privileges w) = Ret true ->
            fst (load_original_dns_settings ORIGINAL_DNS_CONFIG_FILE w) = Ret v ->
            truthy v = false ->
            run_restore_dns_flow w = (Raise (SystemExit 1), w)) as Hload.
  { intros v Hp Hl Hv. unfold run_restore_dns_flow. cbv beta. unfold bind at 1.
    pose proof (check_privileges_world w) as Hw.
    destruct (check_privileges w) as [r w']. cbn [fst snd] in Hp, Hw. subst r w'.
    cbn [negb]. unfold bind at 1.
    pose proof (load_original_dns_settings_world ORIGINAL_DNS_CONFIG_FILE w) as Hw.
    destruct (load_original_dns_settings ORIGINAL_DNS_CONFIG_FILE w) as [r w'].
    cbn [fst snd] in Hl, Hw. subst r w'. by rewrite Hv. }
  split; [|split].
  - intros Hp. destruct (check_privileges_get_os w false Hp) as [os Hos].
    unfold run_restore_dns_flow. cbv beta. unfold bind at 1.
    pose proof (check_privileges_world w) as Hw.
    destruct (check_privileges w) as [r w']. cbn [fst snd] in Hp, Hw. subst r w'.
    cbn [negb]. unfold bind, lift. by rewrite Hos.
  - intros v. by apply Hload.
  - intros He. apply (Hload JNull); [done| |done].
    unfold load_original_dns_settings. by rewrite He.
Qed.

Lemma run_restore_dns_flow_refuses_witness :
  run_restore_dns_flow host_unprivileged = (Raise (SystemExit 1), host_unprivileged)
  /\ run_restore_dns_flow host_empty = (Raise (SystemExit 1), host_empty).
Proof.
  split.
  - by apply (proj1 (run_restore_dns_flow_refuses host_unprivileged)).
  - by apply (proj2 (run_restore_dns_flow_refuses host_empty)).
Defined.

(** ** Restoring on Windows and macOS *)

Lemma record_with_log (e : event) (l : list event) (w : World) :
  record e (with_log l w) = with_log (l ++ [e]) w.
Proof. reflexivity. Qed.

Lemma with_log_log (w : World) : with_log (log w) w = w.
Proof. by destruct w. Qed.

Lemma succeeds_with_log (l : list event) (w : World) (argv : list string) :
  succeeds (with_log l w) argv = succeeds w argv.
Proof. reflexivity. Qed.

(** A command that succeeds and leaves the files alone, followed by the
    rest of the block. *)
Lemma bind_run_succeeding {B : Type} (argv : list string) (check capture : bool)
    (k : M B) (l : list event) (w : World) :
  harmless argv -> succeeds w argv = true ->
  (subprocess_run argv check capture false ;; k) (with_log l w)
  = k (with_log (l ++ [Ran argv]) w).
Proof.
  intros Hh Hs. unfold bind. rewrite subprocess_run_harmless by done.
  unfold succeeds in Hs. change (proc (with_log l w)) with (proc w).
  destruct (proc w argv) as [cp|cp| |]; try done; by rewrite Hs.
Qed.

Lemma restore_dns_windows_add_succeeding (interface_name : string)
    (others : list string) : forall i l w,
  all_succeed w ->
  restore_dns_windows_add interface_name (map JStr others) i (with_log l w)
  = (Ret tt, with_log (l ++ map Ran (netsh_add_commands interface_name others i)) w).
Proof.
  induction others as [|s others IH]; intros i l w Hw.
  - simpl. by rewrite app_nil_r.
  - cbn [map restore_dns_windows_add netsh_add_commands py_str].
    fold (netsh_add_server interface_name s (i + 1)).
    rewrite bind_run_succeeding by (by apply harmless_other || apply Hw).
    rewrite IH by done. by rewrite <- app_assoc.
Qed.

Lemma restore_dns_windows_entry_succeeding (interface_name : string)
    (a : AttachmentSnapshot) (l : list event) (w : World) :
  all_succeed w ->
  restore_dns_windows_entry interface_name (dhcp_to_py (is_dhcp a))
    (JArr (map JStr (servers a))) (with_log l w)
  = (Ret (Next (restorable a)),
     with_log (l ++ map Ran (netsh_restore_commands interface_name a)) w).
Proof.
  intros Hw. unfold restore_dns_windows_entry, try_except, netsh_restore_commands,
    restorable, dhcp_truthy.
  destruct (truthy (dhcp_to_py (is_dhcp a))).
  - fold (netsh_set_dhcp interface_name).
    by rewrite bind_run_succeeding by (by apply harmless_other || apply Hw).
  - destruct (servers a) as [|primary others]; cbn [map truthy orb].
    + by rewrite app_nil_r.
    + unfold bind at 1. cbn [lift head_and_tail fst snd py_str].
      fold (netsh_set_primary interface_name primary).
      rewrite bind_run_succeeding by (by apply harmless_other || apply Hw).
      unfold bind. rewrite restore_dns_windows_add_succeeding by done.
      cbn [ret map]. by rewrite <- app_assoc.
Qed.

Lemma restore_dns_windows_loop_succeeding (points : list (string * AttachmentSnapshot)) :
  forall success l w,
  all_succeed w ->
  restore_dns_windows_loop (items_to_py points) success (with_log l w)
  = (Ret (success && forallb (fun p => restorable (snd p)) points)%bool,
     with_log (l ++ restore_events netsh_restore_commands points) w).
Proof.
  induction points as [|[k a] points IH]; intros success l w Hw.
  - simpl. by rewrite app_nil_r, andb_true_r.
  - cbn [items_to_py map fst snd restore_dns_windows_loop].
    unfold bind at 1. unfold emit at 1. rewrite record_with_log.
    unfold bind at 1. unfold attachment_to_py, lift at 1. cbn [py_get dict_lookup].
    change (String.eqb "dhcp" "servers") with false.
    change (String.eqb "dhcp" "dhcp") with true. cbv iota.
    unfold bind at 1. unfold lift at 1. cbn [py_get dict_lookup].
    change (String.eqb "servers" "servers") with true. cbv iota.
    unfold bind at 1. rewrite restore_dns_windows_entry_succeeding by done.
    fold (items_to_py points). rewrite IH by done.
    cbn [restore_events flat_map forallb fst snd].
    f_equal; [by rewrite andb_assoc|].
    f_equal. by rewrite <- !app_assoc.
Qed.

(** X9.  On a host where every command succeeds, [restore_dns_windows]
    visits every interface of the snapshot in order.  For an entry whose
    [dhcp] field is truthy it runs one [netsh] command that sets the source
    to DHCP; for a static entry it sets the first server and adds the others
    one by one with [index=2], [index=3], ...; for an entry that is neither
    it runs nothing.  It returns true exactly when every entry is of the
    first two kinds, and changes nothing but the record of commands. *)
Theorem restore_dns_windows_runs_netsh (points : list (string * AttachmentSnapshot))
    (w : World) :
  all_succeed w ->
  restore_dns_windows (points_to_py points) w
  = (Ret (forallb (fun p => restorable (snd p)) points),
     with_log (log w ++ restore_events netsh_restore_commands points) w).
Proof.
  intros Hw. unfold restore_dns_windows, points_to_py, bind, lift. cbn [py_items].
  rewrite <- (with_log_log w) at 1. fold (items_to_py points).
  by rewrite restore_dns_windows_loop_succeeding.
Qed.

Lemma restore_dns_windows_runs_netsh_witness :
  restore_dns_windows (points_to_py windows_points) (host_all_succeed "Windows")
  = (Ret true,
     with_log
       [Restoring "Ethernet";
        Ran (netsh_set_primary "Ethernet" "8.8.8.8");
        Ran (netsh_add_server "Ethernet" "1.1.1.1" 2);
        Ran (netsh_add_server "Ethernet" "9.9.9.9" 3);
        Restoring "Wi-Fi";
        Ran (netsh_set_dhcp "Wi-Fi")]
       (host_all_succeed "Windows")).
Proof.
  by rewrite (restore_dns_windows_runs_netsh windows_points (host_all_succeed "Windows")).
Defined.

Lemma restore_dns_macos_entry_succeeding (service_name : string)
    (a : AttachmentSnapshot) (l : list event) (w : World) :
  all_succeed w ->
  restore_dns_macos_entry service_name (dhcp_to_py (is_dhcp a))
    (JArr (map JStr (servers a))) (with_log l w)
  = (Ret (Next (restorable a)),
     with_log (l ++ map Ran (networksetup_restore_commands service_name a)) w).
Proof.
  intros Hw. unfold restore_dns_macos_entry, try_except, networksetup_restore_commands,
    restorable, dhcp_truthy.
  destruct (truthy (dhcp_to_py (is_dhcp a))).
  - unfold bind at 1. cbn [ret].
    by rewrite bind_run_succeeding by (by apply harmless_sudo_other || apply Hw).
  - destruct (servers a) as [|primary others] eqn:E; cbn [map truthy orb].
    + unfold bind at 1. cbn [ret]. by rewrite app_nil_r.
    + unfold bind at 1. unfold bind at 1. unfold lift.
      change (JStr primary :: map JStr others) with (map JStr (primary :: others)).
      rewrite all_strs_map. cbn [ret].
      by rewrite bind_run_succeeding by (by apply harmless_sudo_other || apply Hw).
Qed.

Lemma restore_dns_macos_loop_succeeding (points : list (string * AttachmentSnapshot)) :
  forall success l w,
  all_succeed w ->
  restore_dns_macos_loop (items_to_py points) success (with_log l w)
  = (Ret (success && forallb (fun p => restorable (snd p)) points)%bool,
     with_log (l ++ restore_events networksetup_restore_commands points) w).
Proof.
  induction points as [|[k a] points IH]; intros success l w Hw.
  - simpl. by rewrite app_nil_r, andb_true_r.
  - cbn [items_to_py map fst snd restore_dns_macos_loop].
    unfold bind at 1. unfold emit at 1. rewrite record_with_log.
    unfold bind at 1. unfold attachment_to_py, lift at 1. cbn [py_get dict_lookup].
    change (String.eqb "dhcp" "servers") with false.
    change (String.eqb "dhcp" "dhcp") with true. cbv iota.
    unfold bind at 1. unfold lift at 1. cbn [py_get dict_lookup].
    change (String.eqb "servers" "servers") with true. cbv iota.
    unfold bind at 1. rewrite restore_dns_macos_entry_succeeding by done.
    fold (items_to_py points). rewrite IH by done.
    cbn [restore_events flat_map forallb fst snd].
    f_equal; [by rewrite andb_assoc|].
    f_equal. by rewrite <- !app_assoc.
Qed.

(** X10.  On a host where every command succeeds, [restore_dns_macos]
    visits every service of the snapshot in order and runs at most one
    command for each: [networksetup -setdnsservers <service> empty] when the
    [dhcp] field is truthy, the same command with the servers as separate
    arguments when the entry is static, and none when it is neither.  It
    returns true exactly when every entry is of the first two kinds. *)
Theorem restore_dns_macos_runs_networksetup (points : list (string * AttachmentSnapshot))
    (w : World) :
  all_succeed w ->
  restore_dns_macos (points_to_py points) w
  = (Ret (forallb (fun p => restorable (snd p)) points),
     with_log (log w ++ restore_events networksetup_restore_commands points) w).
Proof.
  intros Hw. unfold restore_dns_macos, points_to_py, bind, lift. cbn [py_items].
  rewrite <- (with_log_log w) at 1. fold (items_to_py points).
  by rewrite restore_dns_macos_loop_succeeding.
Qed.

Lemma restore_dns_macos_runs_networksetup_witness :
  restore_dns_macos (points_to_py macos_points) (host_all_succeed "Darwin")
  = (Ret false,
     with_log
       [Restoring "Wi-Fi";
        Ran ["sudo"; "networksetup"; "-setdnsservers"; "Wi-Fi"; "8.8.8.8"; "1.1.1.1"];
        Restoring "Ethernet";
        Ran ["sudo"; "networksetup"; "-setdnsservers"; "Ethernet"; "empty"];
        Restoring "Bridge"]
       (host_all_succeed "Darwin")).
Proof.
  by rewrite (restore_dns_macos_runs_networksetup macos_points (host_all_succeed "Darwin")).
Defined.

(** ** Restoring on Linux, method by method *)

Lemma bind_ret_l {A B : Type} (a : A) (k : A -> M B) : bind (ret a) k = k a.
Proof. reflexivity. Qed.

(** X11.  For an entry of the NetworkManager methods, [restore_dns_linux]
    runs three commands in order: it sets [ipv4.dns] (to nothing when the
    [dhcp] field is truthy, to the servers joined by commas otherwise),
    sets [ipv4.ignore-auto-dns] ([no] for DHCP, [yes] otherwise) and
    reapplies the device.  When all three succeed the loop goes on with its
    result unchanged; when the first exits with another status the other two
    are not run and the loop goes on with the result false. *)
Theorem restore_dns_linux_runs_nmcli (interface_id : string) (a : AttachmentSnapshot)
    (rest : list (string * json)) (success : bool) (w : World) :
  method a = "nmcli" \/ method a = "nmcli_unknown_fallback_to_dhcp" ->
  (Forall (fun argv => succeeds w argv = true) (nmcli_restore_commands interface_id a) ->
   restore_dns_linux_loop ((interface_id, attachment_to_py a) :: rest) success w
   = restore_dns_linux_loop rest success
       (with_log (log w ++ Restoring interface_id
                           :: map Ran (nmcli_restore_commands interface_id a)) w))
  /\ (forall argv others cp,
        nmcli_restore_commands interface_id a = argv :: others ->
        proc w argv = Exits cp -> returncode cp <> 0 ->
        restore_dns_linux_loop ((interface_id, attachment_to_py a) :: rest) success w
        = restore_dns_linux_loop rest false
            (with_log (log w ++ [Restoring interface_id; Ran argv]) w)).
Proof.
  intros Hm.
  assert (is_str (JStr (method a)) "nmcli"
          || is_str (JStr (method a)) "nmcli_unknown_fallback_to_dhcp" = true)%bool as Hs
    by (by destruct Hm as [-> | ->]).
  rewrite !restore_dns_linux_loop_cons.
  change (record ?e w) with (with_log (log w ++ [e]) w).
  unfold restore_dns_linux_entry, try_except. rewrite Hs.
  unfold nmcli_restore_commands, dhcp_truthy.
  assert ((if truthy (dhcp_to_py (is_dhcp a)) then ret EmptyString
           else lift (py_join "," (JArr (map JStr (servers a)))))
          = ret (if truthy (dhcp_to_py (is_dhcp a)) then EmptyString
                 else join "," (servers a))) as ->.
  { destruct (truthy _); [done|]. unfold lift, ret. cbn [py_join].
    by rewrite all_strs_map. }
  rewrite !bind_ret_l. cbv zeta. split.
  - intros H. apply Forall_cons in H as [H1 H]. apply Forall_cons in H as [H2 H].
    apply Forall_cons in H as [H3 _].
    rewrite bind_run_succeeding by (done || by apply harmless_other).
    rewrite bind_run_succeeding by (done || by apply harmless_other).
    rewrite bind_run_succeeding by (done || by apply harmless_other).
    cbn [ret]. rewrite andb_true_r. rewrite <- ?app_assoc. reflexivity.
  - intros argv others cp [= <- _] Hp Hr. unfold bind at 1.
    rewrite subprocess_run_harmless by (by apply harmless_other).
    change (proc (with_log ?l w)) with (proc w). rewrite Hp.
    apply Z.eqb_neq in Hr. rewrite Hr. cbn [orb negb is_Exception ret].
    rewrite andb_false_r, record_with_log. by rewrite <- app_assoc.
Qed.

Lemma restore_dns_linux_runs_nmcli_witness :
  restore_dns_linux (points_to_py [("eth0", nmcli_entry ["8.8.8.8"; "1.1.1.1"])])
    (host_all_succeed "Linux")
  = (Ret true,
     with_log
       [Restoring "eth0";
        Ran ["nmcli"; "dev"; "mod"; "eth0"; "ipv4.dns"; "8.8.8.8,1.1.1.1"];
        Ran ["nmcli"; "dev"; "mod"; "eth0"; "ipv4.ignore-auto-dns"; "yes"];
        Ran ["nmcli"; "dev"; "reapply"; "eth0"]]
       (host_all_succeed "Linux")).
Proof.
  unfold restore_dns_linux, bind, lift. cbn [points_to_py map py_items fst snd].
  rewrite (proj1 (restore_dns_linux_runs_nmcli "eth0" (nmcli_entry ["8.8.8.8"; "1.1.1.1"])
                    [] true (host_all_succeed "Linux") (or_introl eq_refl)));
    [reflexivity|].
  repeat constructor.
Defined.

(** X12.  For an entry of the direct-file method whose backup exists,
    [restore_dns_linux] runs [mv /etc/resolv.conf.bak /etc/resolv.conf].
    When it succeeds the backup becomes the resolver file and the loop goes
    on.  When it exits with another status, the handler reads the error
    output of a command that was run without capturing it, and the function
    raises [AttributeError] instead of returning.  When [mv] is not found
    the function returns false at once. *)
Theorem restore_dns_linux_moves_backup (interface_id : string) (a : AttachmentSnapshot)
    (rest : list (string * json)) (success : bool) (w : World) (n : node) :
  method a = "resolv.conf" ->
  fs w !! restore_backup_path = Some n -> seen n <> None ->
  (succeeds w restore_move_command = true ->
   restore_dns_linux_loop ((interface_id, attachment_to_py a) :: rest) success w
   = restore_dns_linux_loop rest success
       (with_fs (<[resolv_conf_path := n]> (delete restore_backup_path (fs w)))
          (with_log (log w ++ [Restoring interface_id; Ran restore_move_command]) w)))
  /\ (forall cp, proc w restore_move_command = Exits cp -> returncode cp <> 0 ->
      restore_dns_linux_loop ((interface_id, attachment_to_py a) :: rest) success w
      = (Raise AttributeError,
         with_log (log w ++ [Restoring interface_id; Ran restore_move_command]) w))
  /\ (proc w restore_move_command = NoSuchFile ->
      restore_dns_linux_loop ((interface_id, attachment_to_py a) :: rest) success w
      = (Ret false,
         with_log (log w ++ [Restoring interface_id; Ran restore_move_command]) w)).
Proof.
  intros Hm Hn Hseen.
  rewrite !restore_dns_linux_loop_cons.
  change (record ?e w) with (with_log (log w ++ [e]) w).
  unfold restore_dns_linux_entry, try_except. rewrite Hm.
  change (is_str (JStr "resolv.conf") "nmcli"
          || is_str (JStr "resolv.conf") "nmcli_unknown_fallback_to_dhcp")%bool with false.
  change (is_str (JStr "resolv.conf") "resolvectl") with false.
  change (is_str (JStr "resolv.conf") "resolv.conf") with true. cbv iota beta.
  assert (path_exists (with_log (log w ++ [Restoring interface_id]) w) restore_backup_path
          = true) as ->.
  { unfold path_exists. cbn [fs with_log]. rewrite Hn. by destruct (seen n). }
  fold restore_move_command. unfold bind, subprocess_run, completed, succeeds.
  change (proc (with_log ?l w)) with (proc w).
  split; [|split].
  - assert (effect restore_move_command (fs w)
            = <[resolv_conf_path := n]> (delete restore_backup_path (fs w))) as E.
    { change (effect restore_move_command (fs w))
        with (move_file restore_backup_path resolv_conf_path (fs w)).
      unfold move_file. by rewrite Hn. }
    intros Hs. destruct (proc w restore_move_command) as [cp|cp| |]; try done;
      rewrite Hs; cbn [ret fst snd]; rewrite andb_true_r; f_equal;
      change (fs (record _ (with_log _ w))) with (fs w); rewrite E;
      unfold with_fs, record, with_log;
      cbn [system_name euid user_is_admin fs denied proc log];
      by rewrite <- app_assoc.
  - intros cp -> Hr. apply Z.eqb_neq in Hr. rewrite Hr.
    cbn [orb negb is_Exception raise]. by rewrite record_with_log, <- app_assoc.
  - intros ->. cbn [is_Exception ret]. by rewrite record_with_log, <- app_assoc.
Qed.

Lemma restore_dns_linux_moves_backup_witness :
  fst (restore_dns_linux (points_to_py [(resolv_conf_path, direct_file_entry)])
         host_failing_move)
  = Raise AttributeError
  /\ fst (restore_dns_linux (points_to_py [(resolv_conf_path, direct_file_entry)])
            host_working_move)
     = Ret true.
Proof.
  split.
  - unfold restore_dns_linux, bind, lift. cbn [points_to_py map py_items fst snd].
    by rewrite (proj1 (proj2 (restore_dns_linux_moves_backup resolv_conf_path
                  direct_file_entry [] true host_failing_move (File original_resolv_conf)
                  eq_refl eq_refl ltac:(done))) failed eq_refl ltac:(done)).
  - unfold restore_dns_linux, bind, lift. cbn [points_to_py map py_items fst snd].
    by rewrite (proj1 (restore_dns_linux_moves_backup resolv_conf_path
                  direct_file_entry [] true host_working_move (File original_resolv_conf)
                  eq_refl eq_refl ltac:(done)) eq_refl).
Defined.

(** ** Setting on Windows and macOS *)

Lemma existsb_cons {A : Type} (f : A -> bool) (x : A) (l : list A) :
  existsb f (x :: l) = (f x || existsb f l)%bool.
Proof. reflexivity. Qed.

Lemma completes_cases (w : World) (argv : list string) :
  completes w ->
  exists cp, (proc w argv = Exits cp \/ proc w argv = ExitsLate cp)
             /\ succeeds w argv = (returncode cp =? 0).
Proof.
  intros Hc. destruct (Hc argv) as [cp [H | H]]; exists cp; unfold succeeds;
    rewrite H; auto.
Qed.

(** A command run with [check=True] on a host where every command runs to
    completion: it returns, or raises [CalledProcessError]. *)
Lemma subprocess_run_completes (argv : list string) (capture : bool)
    (l : list event) (w : World) :
  completes w -> harmless argv ->
  exists cp,
    subprocess_run argv true capture false (with_log l w)
    = (if succeeds w argv then Ret cp else Raise (CalledProcessError capture),
       with_log (l ++ [Ran argv]) w)
    /\ output w argv = (if succeeds w argv then Some (stdout cp) else None).
Proof.
  intros Hc Hh. rewrite subprocess_run_harmless by done.
  change (proc (with_log l w)) with (proc w). unfold succeeds, output.
  destruct (Hc argv) as [cp [-> | ->]]; exists cp;
    rewrite orb_false_r; by destruct (returncode cp =? 0).
Qed.

Lemma set_dns_windows_add_completes (interface_name : string) (others : list string) :
  forall i l w,
  completes w ->
  set_dns_windows_add interface_name others i (with_log l w)
  = (Ret None, with_log (l ++ map Ran (netsh_add_commands interface_name others i)) w).
Proof.
  induction others as [|s others IH]; intros i l w Hw.
  - simpl. by rewrite app_nil_r.
  - cbn [set_dns_windows_add netsh_add_commands map]. unfold bind at 1.
    unfold try_except. unfold bind at 1.
    destruct (subprocess_run_completes (netsh_add_server interface_name s (i + 1)) true
                l w Hw) as (cp & -> & _); [by apply harmless_other|].
    destruct (succeeds w _); cbn [ret is_Exception]; rewrite IH by done;
      by rewrite <- app_assoc.
Qed.

Lemma set_dns_windows_loop_completes (primary : string) (others : list string)
    (active_interfaces : list string) : forall overall_success l w,
  completes w ->
  set_dns_windows_loop active_interfaces primary others overall_success (with_log l w)
  = (Ret (overall_success
          || existsb (fun i => succeeds w (netsh_set_primary i primary))
               active_interfaces)%bool,
     with_log (l ++ set_dns_windows_events w primary others active_interfaces) w).
Proof.
  induction active_interfaces as [|i rest IH]; intros acc l w Hw.
  - simpl. by rewrite app_nil_r, orb_false_r.
  - cbn [set_dns_windows_loop set_dns_windows_events flat_map]. rewrite existsb_cons.
    unfold bind at 1. unfold set_dns_windows_interface, try_except. unfold bind at 1.
    destruct (subprocess_run_completes (netsh_set_primary i primary) true l w Hw)
      as (cp & -> & _); [by apply harmless_other|].
    destruct (succeeds w (netsh_set_primary i primary)).
    + unfold bind at 1. rewrite set_dns_windows_add_completes by done.
      cbn [ret]. rewrite IH by done. fold (set_dns_windows_events w primary others rest).
      f_equal; [by destruct acc|]. f_equal. by rewrite <- !app_assoc.
    + cbn [ret is_Exception]. rewrite IH by done.
      fold (set_dns_windows_events w primary others rest).
      f_equal; [by rewrite orb_false_r|]. f_equal. by rewrite <- !app_assoc.
Qed.

Lemma set_dns_windows_completes (primary : string) (others : list string)
    (w : World) (out : string) (l : list event) :
  completes w -> output w netsh_show_interfaces = Some out ->
  set_dns_windows (primary :: others) (with_log l w)
  = (Ret (existsb (fun i => succeeds w (netsh_set_primary i primary))
            (netsh_active_interfaces out)),
     with_log (l ++ Ran netsh_show_interfaces
                 :: set_dns_windows_events w primary others (netsh_active_interfaces out))
       w).
Proof.
  intros Hw Hout. unfold set_dns_windows, try_except. unfold bind at 1.
  fold netsh_show_interfaces.
  destruct (subprocess_run_completes netsh_show_interfaces true l w Hw)
    as (cp & -> & Ho); [by apply harmless_other|].
  rewrite Hout in Ho.
  destruct (succeeds w netsh_show_interfaces); [|done]. injection Ho as ->.
  destruct (netsh_active_interfaces (stdout cp)) as [|i rest] eqn:E; [done|].
  rewrite set_dns_windows_loop_completes by done. cbn [orb].
  by rewrite <- app_assoc.
Qed.

(** X13.  On a host where every command runs to completion and the
    listing succeeds, [set_dns_windows] tries every interface that the
    listing shows as enabled and connected, in order: none is skipped
    because an earlier one succeeded or failed.  For each it sets the first
    server and, when that succeeds, adds the others with [index=2],
    [index=3], ..., whether or not an addition fails.  It returns true
    exactly when the first server was set on at least one interface. *)
Theorem set_dns_windows_tries_every_interface (primary : string) (others : list string)
    (w : World) (out : string) :
  completes w -> output w netsh_show_interfaces = Some out ->
  set_dns_windows (primary :: others) w
  = (Ret (existsb (fun i => succeeds w (netsh_set_primary i primary))
            (netsh_active_interfaces out)),
     with_log (log w ++ Ran netsh_show_interfaces
                 :: set_dns_windows_events w primary others (netsh_active_interfaces out))
       w).
Proof.
  intros Hw Hout. rewrite <- (with_log_log w) at 1.
  by apply set_dns_windows_completes.
Qed.

Lemma set_dns_windows_tries_every_interface_witness :
  netsh_active_interfaces netsh_listing = ["Ethernet"; "Local Area Connection 2"]
  /\ set_dns_windows ["8.8.8.8"; "1.1.1.1"] host_windows
     = (Ret true,
        with_log
          [Ran netsh_show_interfaces;
           Ran (netsh_set_primary "Ethernet" "8.8.8.8");
           Ran (netsh_set_primary "Local Area Connection 2" "8.8.8.8");
           Ran (netsh_add_server "Local Area Connection 2" "1.1.1.1" 2)]
          host_windows).
Proof.
  split; [reflexivity|].
  rewrite (set_dns_windows_tries_every_interface "8.8.8.8" ["1.1.1.1"] host_windows
             netsh_listing); [reflexivity| |reflexivity].
  intros argv. unfold host_windows; cbn [proc]. repeat case_decide; eauto.
Defined.

Lemma set_dns_macos_loop_completes (dns_servers_str : string) (services : list string) :
  forall success l w,
  completes w ->
  set_dns_macos_loop services dns_servers_str success (with_log l w)
  = (Ret (success
          || existsb (fun s => succeeds w (networksetup_set s dns_servers_str))
               (macos_real_services services))%bool,
     with_log (l ++ map (fun s => Ran (networksetup_set s dns_servers_str))
                      (macos_real_services services)) w).
Proof.
  induction services as [|s rest IH]; intros acc l w Hw.
  - simpl. by rewrite app_nil_r, orb_false_r.
  - cbn [set_dns_macos_loop macos_real_services List.filter].
    fold (macos_real_services rest).
    destruct (startswith (strip s) "An asterisk"); [by apply IH|].
    destruct (nonempty (strip s)); [|by apply IH].
    cbn [negb andb map]. rewrite existsb_cons. unfold bind at 1. unfold try_except. unfold bind at 1.
    rewrite subprocess_run_harmless by (by apply harmless_sudo_other).
    change (proc (with_log l w)) with (proc w).
    destruct (completes_cases w (networksetup_set s dns_servers_str) Hw)
      as (cp & [Hp | Hp] & ->); rewrite Hp; rewrite orb_true_r;
      destruct (returncode cp =? 0); cbn [ret]; rewrite record_with_log, IH by done;
      (f_equal; [by destruct acc | by rewrite <- app_assoc]).
Qed.

(** X14.  On a host where every command runs to completion and the
    listing succeeds with at least one service, [set_dns_macos] runs one
    command for every line of the listing that is not blank and does not
    start with the note about the asterisk, in order, and passes all the
    servers in a single argument, joined by spaces.  It returns true
    exactly when the command succeeds for at least one service. *)
Theorem set_dns_macos_tries_every_service (dns_servers : list string) (w : World)
    (out : string) (services : list string) :
  dns_servers <> [] -> completes w ->
  output w networksetup_list = Some out ->
  set_dns_macos_services out = Some services ->
  set_dns_macos dns_servers w
  = (Ret (existsb
            (fun s => succeeds w (networksetup_set s (macos_servers_argument dns_servers)))
            (macos_real_services services)),
     with_log
       (log w ++ Ran networksetup_list
          :: map (fun s => Ran (networksetup_set s (macos_servers_argument dns_servers)))
               (macos_real_services services))
       w).
Proof.
  intros Hne Hw Hout Hserv. unfold set_dns_macos, try_except.
  destruct dns_servers as [|d ds]; [done|]. unfold bind at 1.
  fold networksetup_list. rewrite subprocess_run_harmless by apply harmless_short.
  unfold output in Hout.
  destruct (completes_cases w networksetup_list Hw) as (cp & [Hp | Hp] & _);
    rewrite Hp in *; rewrite orb_true_r;
    (destruct (returncode cp =? 0); [|done]); injection Hout as <-;
    cbn [negb]; rewrite Hserv; fold (macos_servers_argument (d :: ds));
    change (record ?e w) with (with_log (log w ++ [e]) w);
    rewrite set_dns_macos_loop_completes by done; cbn [orb];
    by rewrite <- app_assoc.
Qed.

Lemma set_dns_macos_tries_every_service_witness :
  set_dns_macos ["8.8.8.8"; "1.1.1.1"] host_macos
  = (Ret true,
     with_log
       [Ran networksetup_list;
        Ran ["sudo"; "networksetup"; "-setdnsservers"; "Wi-Fi"; "8.8.8.8 1.1.1.1"];
        Ran ["sudo"; "networksetup"; "-setdnsservers"; "*Thunderbolt Bridge";
             "8.8.8.8 1.1.1.1"];
        Ran ["sudo"; "networksetup"; "-setdnsservers"; "Ethernet"; "8.8.8.8 1.1.1.1"]]
       host_macos).
Proof.
  rewrite (set_dns_macos_tries_every_service ["8.8.8.8"; "1.1.1.1"] host_macos
             networksetup_listing
             [asterisk_note; "Wi-Fi"; "*Thunderbolt Bridge"; "Ethernet"]);
    [reflexivity|done| |reflexivity|reflexivity].
  intros argv. unfold host_macos; cbn [proc]. repeat case_decide; eauto.
Defined.

(** ** The snapshotters *)

Lemma hoare_bind_val {A B : Type} (I : World -> Prop) (Q1 : A -> Prop) (Q : B -> Prop)
    (E : exn -> Prop) (c : M A) (k : A -> M B) :
  hoare I Q1 E c -> (forall a, Q1 a -> hoare I Q E (k a)) -> hoare I Q E (bind c k).
Proof.
  intros Hc Hk w H. unfold bind. destruct (Hc w H) as [H1 H2].
  destruct (c w) as [[a|e] w1]; simpl in *; [by apply Hk | done].
Qed.

Lemma hoare_keeps {A : Type} (I : World -> Prop) (E : exn -> Prop) (c : M A) :
  keeps I E c -> hoare I (fun _ => True) E c.
Proof. intros Hc w H. destruct (Hc w H) as [H1 H2]. split; [done|]. by destruct (fst (c w)). Qed.

Lemma hoare_lift {A : Type} (I : World -> Prop) (Q : A -> Prop) (E : exn -> Prop)
    (c : py A) :
  (forall a, c = Ret a -> Q a) -> (forall e, c = Raise e -> E e) -> hoare I Q E (lift c).
Proof. intros Ha He w H. split; [done|]. simpl. destruct c; auto. Qed.

Lemma hoare_weaken {A : Type} (I : World -> Prop) (Q Q' : A -> Prop) (E : exn -> Prop)
    (c : M A) :
  (forall a, Q a -> Q' a) -> hoare I Q E c -> hoare I Q' E c.
Proof.
  intros HQ Hc w H. destruct (Hc w H) as [H1 H2]. split; [done|].
  destruct (fst (c w)); auto.
Qed.

Lemma snapshot_entry_typed (servers : list string) (d : DhcpFlag) (method : string) :
  snapshot_entry servers (dhcp_to_py d) method
  = attachment_to_py {| servers := servers; is_dhcp := d; method := method |}.
Proof. reflexivity. Qed.

Lemma typed_dict_nil (P : AttachmentSnapshot -> Prop) : typed_dict P [].
Proof. exists []. repeat split; constructor. Qed.

Lemma dict_set_keys (k : string) (v : json) (d : list (string * json)) (x : string) :
  x ∈ map fst (dict_set k v d) -> x = k \/ x ∈ map fst d.
Proof.
  induction d as [|[k' v'] d IH]; cbn [dict_set map fst].
  - intros H. apply list_elem_of_singleton in H. by left.
  - destruct (String.eqb k k'); cbn [map fst]; intros H;
      apply elem_of_cons in H as [-> | H].
    + by left.
    + right. apply elem_of_cons. by right.
    + right. apply elem_of_cons. by left.
    + destruct (IH H) as [-> | H']; [by left|]. right. apply elem_of_cons. by right.
Qed.

Lemma items_to_py_keys (points : list (string * AttachmentSnapshot)) :
  map fst (items_to_py points) = map fst points.
Proof. apply map_fst_pair. Qed.

Lemma typed_dict_set (P : AttachmentSnapshot -> Prop) (k : string)
    (a : AttachmentSnapshot) (d : list (string * json)) :
  typed_dict P d -> P a -> typed_dict P (dict_set k (attachment_to_py a) d).
Proof.
  intros (points & -> & Hnd & Hall) Ha.
  induction points as [|[k' a'] points IH].
  - exists [(k, a)]. split; [done|]. split; [|by repeat constructor].
    cbn. apply NoDup_cons. split; [by apply not_elem_of_nil | constructor].
  - cbn [items_to_py map fst snd dict_set].
    apply NoDup_cons in Hnd as [Hk' Hnd]. apply Forall_cons in Hall as [Ha' Hall].
    destruct (String.eqb_spec k k') as [->|Hne].
    + exists ((k', a) :: points). split; [done|]. split; [by apply NoDup_cons|].
      by constructor.
    + destruct (IH Hnd Hall) as (points' & E & Hnd' & Hall').
      exists ((k', a') :: points'). fold (items_to_py points). rewrite E.
      split; [done|]. split; [|by constructor].
      cbn. apply NoDup_cons. split; [|done].
      rewrite <- items_to_py_keys, <- E. intros Hin.
      apply dict_set_keys in Hin as [-> | Hin]; [done|].
      by rewrite items_to_py_keys in Hin.
Qed.

Lemma typed_dict_snapshot (P : AttachmentSnapshot -> Prop) (d : list (string * json)) :
  typed_dict P d -> typed_snapshot P (dict_or_none d).
Proof.
  intros (points & -> & Hnd & Hall). destruct points as [|p points]; [by left|].
  right. exists (p :: points). done.
Qed.

Lemma typed_dict_snapshot_obj (P : AttachmentSnapshot -> Prop) (d : list (string * json)) :
  typed_dict P d -> d <> [] -> typed_snapshot P (JObj d).
Proof.
  intros (points & -> & Hnd & Hall) Hne. right. exists points.
  split; [by destruct points|]. done.
Qed.

Lemma dict_set_nonempty (k : string) (v : json) (d : list (string * json)) :
  dict_set k v d <> [].
Proof. destruct d as [|[k' v'] d]; cbn; [done|]. by destruct (String.eqb k k'). Qed.

Lemma nmcli_device_entry_typed (show_stdout : string) (v : json) :
  nmcli_device_entry show_stdout = Ret v ->
  exists a, v = attachment_to_py a /\ linux_entry a.
Proof.
  unfold nmcli_device_entry.
  destruct (nmcli_show_lines _ [] []) as [[dns dhcp]|e]; [|done]. cbn [py_bind fst snd].
  destruct dns as [|x dns]; [destruct dhcp as [|y dhcp]|]; intros [= <-].
  - exists {| servers := []; is_dhcp := Dhcp true;
              method := "nmcli_unknown_fallback_to_dhcp" |}.
    split; [done|]. unfold linux_entry, linux_methods. cbn. auto.
  - exists {| servers := y :: dhcp; is_dhcp := Dhcp true; method := "nmcli" |}.
    split; [done|]. unfold linux_entry, linux_methods. cbn. auto.
  - exists {| servers := x :: dns; is_dhcp := Dhcp false; method := "nmcli" |}.
    split; [done|]. unfold linux_entry, linux_methods. cbn. auto.
Qed.

Lemma hoare_logged_run (w0 : World) (argv : list string) (check capture timeout : bool) :
  harmless argv ->
  hoare (only_logged w0) (fun _ => True) any_exn
    (subprocess_run argv check capture timeout).
Proof. intros Hh. apply hoare_keeps. by apply keeps_logged_run. Qed.

Lemma get_current_dns_linux_nmcli_loop_typed (w0 : World) (lines : list string) :
  forall d, typed_dict linux_entry d ->
  hoare (only_logged w0) (fun r => typed_dict linux_entry (fst r)) any_exn
    (get_current_dns_linux_nmcli_loop lines d).
Proof.
  induction lines as [|l lines IH]; intros d Hd; cbn [get_current_dns_linux_nmcli_loop].
  - by apply hoare_ret.
  - destruct (_ && _)%bool; [|by apply IH].
    eapply (hoare_bind_val _
              (fun entry => match entry with
                            | Some v => exists a, v = attachment_to_py a /\ linux_entry a
                            | None => True
                            end)).
    + apply (hoare_try _ _ any_exn); [|intros; by apply hoare_ret|done].
      apply (hoare_bind_val _ (fun _ => True)).
      { apply hoare_logged_run. by apply harmless_other. }
      intros show_result _.
      apply (hoare_bind_val _ (fun v => exists a, v = attachment_to_py a /\ linux_entry a)).
      { apply hoare_lift; [|done]. intros v Hv. by apply nmcli_device_entry_typed in Hv. }
      intros v Hv. by apply hoare_ret.
    + intros [v|] Hv; [|by apply hoare_ret].
      destruct Hv as (a & -> & Ha). apply IH. by apply typed_dict_set.
Qed.

Lemma get_current_dns_linux_nmcli_typed (w0 : World) :
  hoare (only_logged w0)
    (fun r => typed_dict linux_entry (fst r) /\ (snd r = true -> fst r <> []))
    any_exn get_current_dns_linux_nmcli.
Proof.
  unfold get_current_dns_linux_nmcli.
  apply hoare_bind; [apply is_command_available_logged|]. intros avail.
  destruct avail; [|apply hoare_ret; split; [apply typed_dict_nil | done]].
  apply (hoare_bind_val _ (fun r => typed_dict linux_entry (fst r))).
  - apply (hoare_try _ _ any_exn); [| |done].
    + apply (hoare_bind_val _ (fun _ => True)).
      { apply hoare_logged_run. by apply harmless_other. }
      intros result_dev _. apply get_current_dns_linux_nmcli_loop_typed.
      apply typed_dict_nil.
    + intros e _ _. apply hoare_ret. apply typed_dict_nil.
  - intros [d raised] Hd. apply hoare_ret. cbn [fst snd] in *. split; [done|].
    destruct d; [by rewrite andb_false_r | done].
Qed.

Lemma py_index_raises {A : Type} (l : list A) (i : nat) : raises_index_only (py_index l i).
Proof. intros e. unfold py_index. destruct (l !! i); [done | by intros [= <-]]. Qed.

Lemma nameserver_lines_raises (lines : list string) : forall dns_servers,
  raises_index_only (nameserver_lines lines dns_servers).
Proof.
  induction lines as [|l lines IH]; intros acc e; cbn [nameserver_lines]; [done|].
  destruct (startswith (strip l) "nameserver"); [|apply IH].
  destruct (py_index (split_ws (strip l)) 1) as [x|e'] eqn:E; cbn [py_bind].
  - apply IH.
  - intros [= <-]. by apply py_index_raises in E.
Qed.

Lemma resolvectl_status_ips_total (ips : list string) : forall dns_servers,
  exists l, resolvectl_status_ips ips dns_servers = Ret l.
Proof.
  induction ips as [|ip ips IH]; intros acc; cbn [resolvectl_status_ips]; [eauto|].
  destruct (is_valid_ip_total ip) as [-> | ->]; cbn [py_bind andb];
    [destruct (negb _)|]; apply IH.
Qed.

Lemma resolvectl_status_lines_total (lines : list string) : forall dns_servers,
  exists l, resolvectl_status_lines lines dns_servers = Ret l.
Proof.
  induction lines as [|l lines IH]; intros acc; cbn [resolvectl_status_lines]; [eauto|].
  destruct (_ || _)%bool; [|apply IH].
  destruct (1 <? _)%nat; [|apply IH].
  destruct (resolvectl_status_ips_total
              (split_ws (strip (nth 1 (split1 COLON l) EmptyString))) acc) as [l' ->].
  apply IH.
Qed.

Lemma systemd_resolv_conf_servers_logged (w0 : World) :
  keeps (only_logged w0) any_exn systemd_resolv_conf_servers.
Proof.
  intros w Hw. unfold systemd_resolv_conf_servers, bind, read_text, lift.
  split; [|by destruct (fst _)].
  repeat case_match; simplify_eq; done.
Qed.

Lemma read_text_logged (w0 : World) (path : string) :
  keeps (only_logged w0) any_exn (read_text path).
Proof. intros w Hw. unfold read_text. split; repeat case_match; done. Qed.

Lemma get_current_dns_linux_resolvectl_typed (w0 : World) (d : list (string * json)) :
  typed_dict linux_entry d ->
  hoare (only_logged w0)
    (fun r => typed_dict linux_entry (fst r) /\ (snd r = true -> fst r <> []))
    any_exn (get_current_dns_linux_resolvectl d).
Proof.
  intros Hd. unfold get_current_dns_linux_resolvectl.
  assert (forall servers dhcp,
             linux_entry {| servers := servers; is_dhcp := dhcp; method := "resolvectl" |})
    as Hr by (intros; unfold linux_entry, linux_methods; cbn; auto).
  apply hoare_bind; [apply is_command_available_logged|]. intros avail.
  destruct avail; [|by apply hoare_ret].
  apply hoare_bind; [apply get_default_linux_interface_logged|]. intros [interface|];
    [|by apply hoare_ret].
  apply (hoare_try _ _ any_exn); [|intros; by apply hoare_ret|done].
  apply hoare_bind; [apply keeps_logged_run; by apply harmless_other|]. intros result.
  apply hoare_bind; [apply systemd_resolv_conf_servers_logged|]. intros dns_servers.
  apply (hoare_bind_val _ (fun v => exists a, v = attachment_to_py a /\ linux_entry a)).
  - destruct dns_servers as [|x l].
    + apply (hoare_bind_val _ (fun _ => True)); [by apply hoare_lift|].
      intros [|y l'] _; apply hoare_ret.
      * by exists {| servers := []; is_dhcp := Dhcp true; method := "resolvectl" |}.
      * by exists {| servers := y :: l'; is_dhcp := DhcpMarker resolvectl_marker;
                     method := "resolvectl" |}.
    + apply hoare_ret.
      by exists {| servers := x :: l; is_dhcp := DhcpMarker resolvectl_marker;
                   method := "resolvectl" |}.
  - intros v (a & -> & Ha). apply hoare_ret. cbn [fst snd].
    split; [by apply typed_dict_set|]. intros _. apply dict_set_nonempty.
Qed.

Lemma get_current_dns_linux_resolv_conf_typed (w0 : World) (d : list (string * json)) :
  typed_dict linux_entry d ->
  hoare (only_logged w0) (typed_snapshot linux_entry) any_exn
    (get_current_dns_linux_resolv_conf d).
Proof.
  intros Hd. unfold get_current_dns_linux_resolv_conf.
  apply (hoare_bind_val _ (fun r => match r with
                                    | Some v => typed_snapshot linux_entry v
                                    | None => True
                                    end)).
  - apply (hoare_try _ _ any_exn); [|intros; by apply hoare_ret|done].
    intros w Hw.
    destruct (path_exists w resolv_conf_path && negb (path_islink w resolv_conf_path))%bool;
      [|by split].
    revert w Hw.
    apply hoare_bind; [apply read_text_logged|]. intros content.
    destruct (contains "# Generated by" content); [apply hoare_ret; by left|].
    apply hoare_bind; [apply read_text_logged|]. intros text.
    apply hoare_bind; [by apply keeps_lift|]. intros [|x l]; apply hoare_ret; [done|].
    apply typed_dict_snapshot_obj; [|apply dict_set_nonempty].
    change (snapshot_entry (x :: l) (JBool false) "resolv.conf")
      with (attachment_to_py {| servers := x :: l; is_dhcp := Dhcp false;
                                method := "resolv.conf" |}).
    apply typed_dict_set; [done|]. unfold linux_entry, linux_methods. cbn. auto.
  - intros [v|] Hv; apply hoare_ret; [done|]. by apply typed_dict_snapshot.
Qed.

Lemma get_current_dns_linux_typed (w0 : World) :
  hoare (only_logged w0) (typed_snapshot linux_entry) any_exn get_current_dns_linux.
Proof.
  unfold get_current_dns_linux.
  apply (hoare_bind_val _ _ _ _ _ _ (get_current_dns_linux_nmcli_typed w0)).
  intros [d1 [|]] [Hd1 Hne1]; cbn [fst snd] in *.
  { apply hoare_ret. apply typed_dict_snapshot_obj; auto. }
  apply (hoare_bind_val _ _ _ _ _ _ (get_current_dns_linux_resolvectl_typed w0 d1 Hd1)).
  intros [d2 [|]] [Hd2 Hne2]; cbn [fst snd] in *.
  { apply hoare_ret. apply typed_dict_snapshot_obj; auto. }
  by apply get_current_dns_linux_resolv_conf_typed.
Qed.

(** X15.  Whatever [get_current_dns_linux] returns is [None] or a dict
    that is not empty, whose keys are distinct and whose entries each hold
    a list of servers, a [dhcp] field and one of the four method tags that
    [restore_dns_linux] knows how to restore; and taking the snapshot
    changes nothing on the host but the record of commands. *)
Theorem get_current_dns_linux_is_well_formed (w : World) :
  only_logged w (snd (get_current_dns_linux w))
  /\ forall v, fst (get_current_dns_linux w) = Ret v -> typed_snapshot linux_entry v.
Proof.
  destruct (get_current_dns_linux_typed w w (only_logged_refl w)) as [H1 H2].
  split; [done|]. intros v Hv. by rewrite Hv in H2.
Qed.

Lemma get_current_dns_linux_is_well_formed_witness :
  fst (get_current_dns_linux host_nmcli_snapshot) = Ret (points_to_py nmcli_snapshot)
  /\ typed_snapshot linux_entry (points_to_py nmcli_snapshot).
Proof.
  assert (fst (get_current_dns_linux host_nmcli_snapshot)
          = Ret (points_to_py nmcli_snapshot)) as H by (vm_compute; reflexivity).
  split; [exact H|].
  exact (proj2 (get_current_dns_linux_is_well_formed host_nmcli_snapshot) _ H).
Defined.

Lemma raises_index_caught {A : Type} (c : py A) :
  raises_index_only c -> forall e, c = Raise e -> caught_exn e.
Proof. intros H e He. by rewrite (H e He). Qed.

Lemma nmcli_show_lines_raises (Ls : list string) : forall dns_servers dhcp_dns,
  raises_index_only (nmcli_show_lines Ls dns_servers dhcp_dns).
Proof.
  induction Ls as [|L Ls IH]; intros dns dhcp e; cbn [nmcli_show_lines]; [done|].
  destruct (contains "IP4.DNS[" L).
  - destruct (py_index (split1 COLON L) 1) as [x|e1] eqn:E1; cbn [py_bind];
      [|intros [= <-]; by apply py_index_raises in E1].
    destruct (contains "DHCP4.OPTION[6]" L); [|apply IH].
    destruct (py_index (split1 EQUALS L) 1) as [y|e2] eqn:E2; cbn [py_bind];
      [|intros [= <-]; by apply py_index_raises in E2].
    destruct (py_index (split " " (strip y)) 0) as [z|e3] eqn:E3; cbn [py_bind];
      [apply IH | intros [= <-]; by apply py_index_raises in E3].
  - cbn [py_bind].
    destruct (contains "DHCP4.OPTION[6]" L); [|apply IH].
    destruct (py_index (split1 EQUALS L) 1) as [y|e2] eqn:E2; cbn [py_bind];
      [|intros [= <-]; by apply py_index_raises in E2].
    destruct (py_index (split " " (strip y)) 0) as [z|e3] eqn:E3; cbn [py_bind];
      [apply IH | intros [= <-]; by apply py_index_raises in E3].
Qed.

Lemma nmcli_device_entry_raises (show_stdout : string) :
  raises_index_only (nmcli_device_entry show_stdout).
Proof.
  intros e. unfold nmcli_device_entry.
  destruct (nmcli_show_lines _ [] []) as [[dns dhcp]|e'] eqn:E; cbn [py_bind fst snd].
  - by destruct dns, dhcp.
  - intros [= <-]. by apply nmcli_show_lines_raises in E.
Qed.

Lemma get_current_dns_linux_nmcli_loop_calm (lines : list string) : forall d,
  keeps calm no_exn (get_current_dns_linux_nmcli_loop lines d).
Proof.
  induction lines as [|l lines IH]; intros d; cbn [get_current_dns_linux_nmcli_loop].
  - apply keeps_ret.
  - destruct (_ && _)%bool; [|apply IH].
    apply keeps_bind; [|intros [v|]; [apply IH | apply keeps_ret]].
    apply keeps_try_all; [|intros; apply keeps_ret].
    apply keeps_bind; [apply keeps_calm_run_caught|]. intros show_result.
    apply keeps_bind; [|intros; apply keeps_ret].
    apply keeps_lift. apply raises_index_caught, nmcli_device_entry_raises.
Qed.

Lemma systemd_resolv_conf_servers_calm : keeps calm caught_exn systemd_resolv_conf_servers.
Proof.
  intros w Hw. unfold systemd_resolv_conf_servers, path_islink, readlink.
  destruct (fs w !! resolv_conf_path) as [[c|t th]|]; [by split| |by split].
  destruct (contains "systemd/resolve" t); [|by split].
  revert w Hw. apply keeps_bind; [apply keeps_calm_read|]. intros text.
  apply keeps_lift. apply raises_index_caught, nameserver_lines_raises.
Qed.

Lemma get_current_dns_linux_calm : keeps calm no_exn get_current_dns_linux.
Proof.
  unfold get_current_dns_linux.
  apply keeps_bind.
  { unfold get_current_dns_linux_nmcli.
    apply keeps_bind; [apply is_command_available_calm|]. intros [|]; [|apply keeps_ret].
    apply keeps_bind; [|intros; apply keeps_ret].
    apply keeps_try_all; [|intros; apply keeps_ret].
    apply keeps_bind; [apply keeps_calm_run_caught|]. intros result_dev.
    eapply keeps_weaken; [|apply get_current_dns_linux_nmcli_loop_calm]. done. }
  intros [d1 [|]]; cbn [fst snd]; [apply keeps_ret|].
  apply keeps_bind.
  { unfold get_current_dns_linux_resolvectl.
    apply keeps_bind; [apply is_command_available_calm|]. intros [|]; [|apply keeps_ret].
    apply keeps_bind; [apply get_default_linux_interface_calm|].
    intros [interface|]; [|apply keeps_ret].
    apply keeps_try_all; [|intros; apply keeps_ret].
    apply keeps_bind; [apply keeps_calm_run_caught|]. intros result.
    apply keeps_bind; [apply systemd_resolv_conf_servers_calm|]. intros dns_servers.
    apply keeps_bind; [|intros; apply keeps_ret].
    destruct dns_servers; [|apply keeps_ret].
    apply keeps_bind; [|intros []; apply keeps_ret].
    apply keeps_lift. intros e He.
    destruct (resolvectl_status_lines_total (splitlines (stdout result)) []) as [l Hl].
    congruence. }
  intros [d2 [|]]; cbn [fst snd]; [apply keeps_ret|].
  unfold get_current_dns_linux_resolv_conf.
  apply keeps_bind; [|intros []; apply keeps_ret].
  apply keeps_try_all; [|intros; apply keeps_ret].
  intros w Hw.
  destruct (path_exists w resolv_conf_path && negb (path_islink w resolv_conf_path))%bool;
    [|by split].
  revert w Hw.
  apply keeps_bind; [apply keeps_calm_read|]. intros content.
  destruct (contains "# Generated by" content); [apply keeps_ret|].
  apply keeps_bind; [apply keeps_calm_read|]. intros text.
  apply keeps_bind; [|intros []; apply keeps_ret].
  apply keeps_lift. apply raises_index_caught, nameserver_lines_raises.
Qed.

Lemma plain_typed_snapshot (P : AttachmentSnapshot -> Prop) (platform : string) (v : json) :
  typed_snapshot P v -> v <> JNull -> plain (JObj [(platform, v)]).
Proof.
  intros [-> | (points & _ & -> & Hnd & _)] Hne; [done|].
  apply plain_obj. split; [cbn; apply NoDup_cons; split;
                             [apply not_elem_of_nil | constructor]|].
  constructor; [|constructor]. cbn [snd]. by apply plain_points.
Qed.

(** X16.  On a host where no command fails to start for a reason other
    than a missing executable, [get_current_dns_linux] never raises.  When
    it returns a snapshot, saving it under the platform's key, as
    [run_set_dns_flow] does, and loading the file back yields the very
    value that was saved. *)
Theorem linux_snapshot_survives_the_file (w : World) :
  (calm w -> exists v, fst (get_current_dns_linux w) = Ret v)
  /\ (forall v w' filepath,
        fst (get_current_dns_linux w) = Ret v -> v <> JNull ->
        filepath ∉ denied w' ->
        fst (load_original_dns_settings filepath
               (snd (save_original_dns_settings (JObj [("linux", v)]) filepath w')))
        = Ret (JObj [("linux", v)])).
Proof.
  split.
  - intros Hc. destruct (get_current_dns_linux_calm w Hc) as [_ H].
    destruct (fst (get_current_dns_linux w)) as [v|e]; [by exists v | destruct H].
  - intros v w' filepath Hv Hne Hd.
    destruct (get_current_dns_linux_typed w w (only_logged_refl w)) as [_ Ht].
    rewrite Hv in Ht.
    destruct (load_after_save (JObj [("linux", v)]) filepath w') as [Hs Hl];
      [by apply (plain_typed_snapshot linux_entry) | done | done |].
    rewrite Hs. cbn [snd]. by rewrite Hl.
Qed.

Lemma linux_snapshot_survives_the_file_witness :
  fst (load_original_dns_settings ORIGINAL_DNS_CONFIG_FILE
         (snd (save_original_dns_settings
                 (JObj [("linux", points_to_py nmcli_snapshot)])
                 ORIGINAL_DNS_CONFIG_FILE host_nmcli_snapshot)))
  = Ret (JObj [("linux", points_to_py nmcli_snapshot)]).
Proof.
  apply (proj2 (linux_snapshot_survives_the_file host_nmcli_snapshot)).
  - vm_compute. reflexivity.
  - discriminate.
  - apply not_elem_of_empty.
Defined.

(** ** The snapshotter of macOS *)

Lemma keeps_logged_run_caught (w0 : World) (argv : list string)
    (check capture timeout : bool) :
  harmless argv ->
  keeps (only_logged w0) caught_exn (subprocess_run argv check capture timeout).
Proof.
  intros Hh w Hw.
  destruct (keeps_logged_run w0 argv check capture timeout Hh w Hw) as [H _].
  split; [done|]. rewrite subprocess_run_harmless by done. cbn [fst].
  unfold caught_exn. destruct (proc w argv) as [cp|cp| |]; [| |done|done];
    by destruct (returncode cp =? 0), check, timeout.
Qed.

Lemma split_nonempty (sep : ascii) (s : string) : split sep s <> [].
Proof.
  destruct s as [|c s]; [done|]. cbn [split].
  destruct (Ascii.eqb c sep); [done|]. by destruct (split sep s).
Qed.

Lemma get_current_dns_macos_loop_typed (w0 : World) (services : list string) :
  forall d, typed_dict macos_entry d ->
  hoare (only_logged w0) (typed_dict macos_entry) caught_exn
    (get_current_dns_macos_loop services d).
Proof.
  induction services as [|s services IH]; intros d Hd;
    cbn [get_current_dns_macos_loop].
  - by apply hoare_ret.
  - apply (hoare_bind_val _ (typed_dict macos_entry)); [|intros d' Hd'; by apply IH].
    apply (hoare_try _ _ caught_exn); [|intros; by apply hoare_ret|].
    + apply hoare_bind; [apply keeps_logged_run_caught; by apply harmless_other|].
      intros result_dns.
      destruct (_ || _)%bool eqn:E; apply hoare_ret.
      * change (snapshot_entry [] (JBool true) "networksetup")
          with (attachment_to_py {| servers := []; is_dhcp := Dhcp true;
                                    method := "networksetup" |}).
        apply typed_dict_set; [done|]. unfold macos_entry. cbn. auto.
      * set (l := split LF (strip (stdout result_dns))).
        change (snapshot_entry l (JBool false) "networksetup")
          with (attachment_to_py {| servers := l; is_dhcp := Dhcp false;
                                    method := "networksetup" |}).
        apply typed_dict_set; [done|]. unfold macos_entry, restorable. cbn.
        split; [done|]. split; [|auto].
        pose proof (split_nonempty LF (strip (stdout result_dns))) as Hne.
        fold l in Hne. by destruct l.
    + intros e He C. unfold caught_exn in He. congruence.
Qed.

Lemma get_current_dns_macos_typed (w0 : World) :
  hoare (only_logged w0) (typed_snapshot macos_entry) no_exn get_current_dns_macos.
Proof.
  unfold get_current_dns_macos.
  apply (hoare_try _ _ caught_exn).
  - apply hoare_bind; [apply keeps_logged_run_caught; apply harmless_short|].
    intros result_services.
    destruct (List.filter _ _) as [|s services]; [apply hoare_ret; by left|].
    apply (hoare_bind_val _ (typed_dict macos_entry)).
    + apply get_current_dns_macos_loop_typed. apply typed_dict_nil.
    + intros d Hd. apply hoare_ret. by apply typed_dict_snapshot.
  - intros e _ _. apply hoare_ret. by left.
  - intros e He C. unfold caught_exn in He. congruence.
Qed.

(** X17.  [get_current_dns_macos] never raises, whatever the host, and
    changes nothing but the record of commands.  What it returns is [None]
    or a dict that is not empty, with distinct keys, in which every entry
    carries the method tag [networksetup] and either says DHCP or lists at
    least one server: [restore_dns_macos] never meets an entry of this
    snapshotter that it has to skip. *)
Theorem get_current_dns_macos_is_restorable (w : World) :
  only_logged w (snd (get_current_dns_macos w))
  /\ exists v, fst (get_current_dns_macos w) = Ret v /\ typed_snapshot macos_entry v.
Proof.
  destruct (get_current_dns_macos_typed w w (only_logged_refl w)) as [H1 H2].
  split; [done|].
  destruct (fst (get_current_dns_macos w)) as [v|e]; [by exists v | destruct H2].
Qed.

Lemma get_current_dns_macos_is_restorable_witness :
  fst (get_current_dns_macos host_macos) = Ret (points_to_py macos_snapshot)
  /\ typed_snapshot macos_entry (points_to_py macos_snapshot).
Proof.
  assert (fst (get_current_dns_macos host_macos) = Ret (points_to_py macos_snapshot)) as H
    by (vm_compute; reflexivity).
  split; [exact H|].
  destruct (get_current_dns_macos_is_restorable host_macos) as [_ (v & Hv & Ht)].
  rewrite H in Hv. by injection Hv as <-.
Defined.

(** ** The snapshotter reads back what the direct-file method wrote *)

Lemma all_chars_app (p : ascii -> bool) (a b : string) :
  all_chars p (a ++ b) = (all_chars p a && all_chars p b)%bool.
Proof. induction a as [|c a IH]; [done|]. simpl. by rewrite IH, andb_assoc. Qed.

Lemma all_chars_impl (p q : ascii -> bool) (s : string) :
  (forall c, p c = true -> q c = true) -> all_chars p s = true -> all_chars q s = true.
Proof.
  intros Hpq. induction s as [|c s IH]; [done|]. simpl. intros H.
  apply andb_true_iff in H as [Hc Hs]. by rewrite (Hpq c Hc), IH.
Qed.

Lemma all_digits_all_chars (g : string) : all_digits g = all_chars isdigit g.
Proof.
  unfold all_digits. induction g as [|c g IH]; [done|]. simpl. by rewrite IH.
Qed.

Lemma octet_quad_ip_chars (s : string) :
  octet_quad s -> all_chars ip_char s = true /\ s <> EmptyString.
Proof.
  intros (a & b & c & d & -> & (La & Ha & _) & (_ & Hb & _) & (_ & Hc & _) & (_ & Hd & _)).
  assert (forall g, all_digits g = true -> all_chars ip_char g = true) as Hg.
  { intros g H. rewrite all_digits_all_chars in H.
    apply (all_chars_impl isdigit); [|done]. intros x Hx. unfold ip_char. by rewrite Hx. }
  split.
  - unfold dotted. rewrite !all_chars_app, (Hg a), (Hg b), (Hg c), (Hg d) by done.
    reflexivity.
  - unfold dotted. destruct a; [simpl in La; lia | done].
Qed.

Lemma ip_char_plain (c : ascii) :
  ip_char c = true ->
  isspace c = false /\ Ascii.eqb c LF = false /\ Ascii.eqb c CR = false
  /\ Ascii.eqb "#" c = false.
Proof. destruct c as [[] [] [] [] [] [] [] []]; done. Qed.

Lemma new_resolv_content_eq (dns_servers : list string) :
  new_resolv_content dns_servers
  = (resolv_header ++ str1 LF) ++ nameserver_block dns_servers.
Proof.
  unfold new_resolv_content. fold resolv_header.
  generalize (resolv_header ++ str1 LF). intros h.
  revert h. induction dns_servers as [|s l IH]; intros h.
  - cbn. by rewrite str_app_nil_r.
  - cbn [fold_left nameserver_block]. rewrite IH. unfold nameserver_line.
    by rewrite !str_app_assoc.
Qed.

Lemma nameserver_block_chars (p : ascii -> bool) (dns_servers : list string) :
  all_chars p "nameserver " = true -> p LF = true ->
  Forall (fun s => all_chars p s = true) dns_servers ->
  all_chars p (nameserver_block dns_servers) = true.
Proof.
  intros Hn Hl H. induction H as [|s l Hs _ IH]; [done|].
  cbn [nameserver_block]. unfold nameserver_line.
  rewrite !all_chars_app, Hn, Hs, IH. cbn. by rewrite Hl.
Qed.

Lemma no_cr_all_chars (s : string) :
  no_cr s = all_chars (fun c => negb (Ascii.eqb c CR)) s.
Proof. induction s as [|c s IH]; [done|]. simpl. by rewrite IH. Qed.

Lemma servers_chars (p : ascii -> bool) (dns_servers : list string) :
  (forall c, ip_char c = true -> p c = true) ->
  Forall octet_quad dns_servers ->
  Forall (fun s => all_chars p s = true) dns_servers.
Proof.
  intros Hp H. eapply Forall_impl; [exact H|]. intros s Hs.
  apply octet_quad_ip_chars in Hs as [Hs _]. by apply (all_chars_impl ip_char).
Qed.

Lemma new_resolv_content_no_cr (dns_servers : list string) :
  Forall octet_quad dns_servers -> no_cr (new_resolv_content dns_servers) = true.
Proof.
  intros H. rewrite new_resolv_content_eq, no_cr_app, !no_cr_all_chars.
  rewrite nameserver_block_chars; [done|done|done|].
  apply servers_chars; [|done]. intros c Hc.
  apply ip_char_plain in Hc as (_ & _ & -> & _). done.
Qed.

(** A text in which the first character of the needle does not occur does
    not contain the needle. *)
Lemma contains_absent (c : ascii) (needle hay : string) :
  all_chars (fun x => negb (Ascii.eqb c x)) hay = true ->
  contains (String c needle) hay = false.
Proof.
  induction hay as [|x hay IH]; [done|]. simpl. intros H.
  apply andb_true_iff in H as [Hx Hh]. apply negb_true_iff in Hx.
  by rewrite Hx, IH.
Qed.

Lemma new_resolv_content_not_generated (dns_servers : list string) :
  Forall octet_quad dns_servers ->
  contains "# Generated by" (new_resolv_content dns_servers) = false.
Proof.
  intros H. rewrite new_resolv_content_eq.
  set (block := nameserver_block dns_servers).
  assert (all_chars (fun x => negb (Ascii.eqb "#" x)) block = true) as Hb.
  { apply nameserver_block_chars; [done|done|].
    apply servers_chars; [|done]. intros c Hc.
    apply ip_char_plain in Hc as (_ & _ & _ & ->). done. }
  unfold resolv_header. cbn [String.append]. cbn [contains].
  rewrite contains_absent; [|by rewrite all_chars_app, Hb].
  by rewrite orb_false_r.
Qed.

Lemma readlines_line (x rest : string) :
  all_chars (fun c => negb (Ascii.eqb c LF)) x = true ->
  readlines (x ++ String LF rest) = (x ++ str1 LF) :: readlines rest.
Proof.
  induction x as [|c x IH]; [done|]. simpl. intros H.
  apply andb_true_iff in H as [Hc Hx]. apply negb_true_iff in Hc.
  rewrite Hc. by rewrite (IH Hx).
Qed.

Lemma nameserver_line_app (server rest : string) :
  nameserver_line server ++ rest = ("nameserver " ++ server) ++ String LF rest.
Proof. unfold nameserver_line. by rewrite !str_app_assoc. Qed.

Lemma readlines_block (dns_servers : list string) :
  Forall octet_quad dns_servers ->
  readlines (nameserver_block dns_servers) = map nameserver_line dns_servers.
Proof.
  intros H. induction H as [|s l Hs _ IH]; [done|].
  cbn [nameserver_block map]. rewrite nameserver_line_app, readlines_line, IH.
  - unfold nameserver_line. by rewrite str_app_assoc.
  - apply octet_quad_ip_chars in Hs as [Hs _]. rewrite all_chars_app.
    rewrite (all_chars_impl ip_char (fun c => negb (Ascii.eqb c LF)) s); [done| |done].
    intros c Hc. apply ip_char_plain in Hc as (_ & -> & _). done.
Qed.

Lemma readlines_new_resolv_content (dns_servers : list string) :
  Forall octet_quad dns_servers ->
  readlines (new_resolv_content dns_servers)
  = (resolv_header ++ str1 LF) :: map nameserver_line dns_servers.
Proof.
  intros H. rewrite new_resolv_content_eq, str_app_assoc.
  change (str1 LF ++ ?r) with (String LF r).
  rewrite readlines_line by done. by rewrite readlines_block.
Qed.

(** *** A line of the block, as the snapshotter reads it *)

Lemma rstrip_token (s : string) :
  s <> EmptyString -> no_space s = true -> rstrip s = s.
Proof.
  induction s as [|c s IH]; [done|]. intros _ H. unfold no_space in H. simpl in H.
  apply andb_true_iff in H as [Hc Hs]. apply negb_true_iff in Hc. simpl.
  destruct s as [|d s]; [simpl; by rewrite Hc|].
  rewrite IH by done. done.
Qed.

Lemma rstrip_app_token (p s : string) :
  s <> EmptyString -> no_space s = true -> rstrip (p ++ s) = p ++ s.
Proof.
  intros Hne Hs. induction p as [|c p IH]; [by apply rstrip_token|].
  simpl. rewrite IH. destruct (p ++ s) eqn:E; [|done].
  destruct p; [simpl in E; done | discriminate E].
Qed.

Lemma rstrip_snoc_lf (x : string) : rstrip (x ++ str1 LF) = rstrip x.
Proof. induction x as [|c x IH]; [done|]. simpl. by rewrite IH. Qed.

Lemma split_ws_token (s : string) :
  s <> EmptyString -> no_space s = true -> split_ws s = [s].
Proof.
  induction s as [|c s IH]; [done|]. intros _ H. unfold no_space in H. simpl in H.
  apply andb_true_iff in H as [Hc Hs]. apply negb_true_iff in Hc.
  cbn [split_ws]. rewrite Hc. destruct s as [|d s]; [done|].
  pose proof Hs as Hs'. simpl in Hs'. apply andb_true_iff in Hs' as [Hd _].
  apply negb_true_iff in Hd. rewrite Hd. by rewrite IH.
Qed.

Lemma split_ws_word (p s : string) :
  p <> EmptyString -> no_space p = true ->
  split_ws (p ++ String " " s) = p :: split_ws s.
Proof.
  induction p as [|c p IH]; [done|]. intros _ H. unfold no_space in H. simpl in H.
  apply andb_true_iff in H as [Hc Hp]. apply negb_true_iff in Hc.
  cbn [String.append split_ws]. rewrite Hc. destruct p as [|d p].
  - cbn [String.append]. reflexivity.
  - pose proof Hp as Hp'. simpl in Hp'. apply andb_true_iff in Hp' as [Hd _].
    apply negb_true_iff in Hd. cbn [String.append]. rewrite Hd.
    change (String d (p ++ String " " s)) with (String d p ++ String " " s).
    by rewrite IH.
Qed.

Lemma ip_chars_no_space (s : string) : all_chars ip_char s = true -> no_space s = true.
Proof.
  unfold no_space. induction s as [|c s IH]; [done|]. simpl. intros H.
  apply andb_true_iff in H as [Hc Hs]. apply ip_char_plain in Hc as (-> & _).
  by rewrite IH.
Qed.

Lemma nameserver_line_read (server : string) :
  octet_quad server ->
  strip (nameserver_line server) = "nameserver " ++ server
  /\ split_ws ("nameserver " ++ server) = ["nameserver"; server].
Proof.
  intros H. apply octet_quad_ip_chars in H as [Hc Hne].
  apply ip_chars_no_space in Hc. split.
  - unfold strip, nameserver_line.
    change (lstrip ("nameserver " ++ server ++ str1 LF))
      with ("nameserver " ++ server ++ str1 LF).
    by rewrite <- str_app_assoc, rstrip_snoc_lf, rstrip_app_token.
  - change ("nameserver " ++ server) with ("nameserver" ++ String " " server).
    rewrite split_ws_word by done. by rewrite split_ws_token.
Qed.

Lemma nameserver_lines_block (dns_servers : list string) : forall acc,
  Forall octet_quad dns_servers ->
  nameserver_lines (map nameserver_line dns_servers) acc = Ret (acc ++ dns_servers)%list.
Proof.
  induction dns_servers as [|s l IH]; intros acc H.
  - simpl. by rewrite app_nil_r.
  - apply Forall_cons in H as [Hs Hl]. cbn [map nameserver_lines].
    destruct (nameserver_line_read s Hs) as [-> ->].
    change (startswith ("nameserver " ++ s) "nameserver") with true. cbv iota.
    cbn [py_index lookup list_lookup py_bind]. rewrite IH by done.
    by rewrite <- app_assoc.
Qed.

(** X18.  On a host without NetworkManager and systemd-resolved whose
    [/etc/resolv.conf] is the file the direct-file method of
    [set_dns_linux] writes for a list of servers (each four groups of one to
    three digits, as [parse_dns_config] hands them over),
    [get_current_dns_linux] returns exactly one entry, under the key
    [/etc/resolv.conf]: those servers in order, [dhcp] false, method
    [resolv.conf].  The header the mutator writes is not mistaken for a
    generator's marker. *)
Theorem snapshot_reads_back_direct_file (dns_servers : list string) (w : World) :
  dns_servers <> [] -> Forall octet_quad dns_servers ->
  tool_absent w "nmcli" -> tool_absent w "resolvectl" ->
  fs w !! resolv_conf_path = Some (File (new_resolv_content dns_servers)) ->
  resolv_conf_path ∉ denied w ->
  fst (get_current_dns_linux w)
  = Ret (JObj [(resolv_conf_path,
                snapshot_entry dns_servers (JBool false) "resolv.conf")]).
Proof.
  intros Hne Hq Hn Hr Hf Hd.
  unfold get_current_dns_linux. unfold bind at 1.
  unfold get_current_dns_linux_nmcli. unfold bind at 1.
  rewrite is_command_available_absent by done. cbn [fst snd ret].
  unfold bind at 1. unfold get_current_dns_linux_resolvectl. unfold bind at 1.
  rewrite is_command_available_absent by done. cbn [fst snd ret].
  set (w2 := record _ (record _ (record _ (record _ w)))).
  assert (fs w2 = fs w) as F2 by reflexivity.
  assert (denied w2 = denied w) as D2 by reflexivity.
  unfold get_current_dns_linux_resolv_conf, try_except.
  unfold bind at 1. unfold path_exists, path_islink. rewrite F2, Hf. cbn [seen negb andb].
  unfold bind at 1 2. unfold read_text. rewrite D2, F2, Hf.
  rewrite decide_False by done. cbn [seen].
  rewrite universal_newlines_no_cr by (by apply new_resolv_content_no_cr).
  rewrite new_resolv_content_not_generated by done.
  unfold bind at 1. rewrite D2, F2, Hf. rewrite decide_False by done. cbn [seen].
  rewrite universal_newlines_no_cr by (by apply new_resolv_content_no_cr).
  unfold bind, lift. rewrite readlines_new_resolv_content by done.
  cbn [nameserver_lines].
  change (startswith (strip (resolv_header ++ str1 LF)) "nameserver") with false.
  cbv iota. rewrite nameserver_lines_block by done. cbn [app].
  by destruct dns_servers.
Qed.

Lemma snapshot_reads_back_direct_file_witness :
  fst (get_current_dns_linux (host_after_direct_file ["8.8.8.8"; "1.1.1.1"]))
  = Ret (JObj [(resolv_conf_path,
                snapshot_entry ["8.8.8.8"; "1.1.1.1"] (JBool false) "resolv.conf")]).
Proof.
  apply (snapshot_reads_back_direct_file ["8.8.8.8"; "1.1.1.1"]
           (host_after_direct_file ["8.8.8.8"; "1.1.1.1"]));
    [done | | done | done | reflexivity |].
  - assert (forall s, is_valid_ip s = Ret true -> ends_with_lf s = false -> octet_quad s)
      as Hq.
    { intros s Hv Hl. apply is_valid_ip_true_iff in Hv as [Hv | (t & -> & _)]; [done|].
      by rewrite ends_with_lf_snoc in Hl. }
    repeat constructor; by apply Hq.
  - apply not_elem_of_empty.
Defined.

(** ** The snapshotter of Windows *)

Lemma get_current_dns_windows_entry_typed (output : string) :
  exists a, get_current_dns_windows_entry output = attachment_to_py a /\ windows_entry a.
Proof.
  unfold get_current_dns_windows_entry.
  destruct (contains "dhcp" (lower output)).
  - exists {| servers := findall pattern_after_colon output; is_dhcp := Dhcp true;
              method := "netsh" |}.
    split; [done|]. unfold windows_entry. cbn. auto.
  - destruct (_ ++ _)%list as [|x l] eqn:E.
    + exists {| servers := []; is_dhcp := Dhcp true;
                method := "netsh_unknown_fallback_to_dhcp" |}.
      split; [done|]. unfold windows_entry. cbn. auto.
    + exists {| servers := x :: l; is_dhcp := Dhcp false; method := "netsh" |}.
      split; [done|]. unfold windows_entry. cbn. auto.
Qed.

Lemma get_current_dns_windows_loop_typed (P : AttachmentSnapshot -> Prop) (w0 : World)
    (names : list string) :
  (forall output, exists a, get_current_dns_windows_entry output = attachment_to_py a /\ P a) ->
  forall d, typed_dict P d ->
  hoare (only_logged w0) (typed_dict P) caught_exn (get_current_dns_windows_loop names d).
Proof.
  intros HP.
  induction names as [|n names IH]; intros d Hd; cbn [get_current_dns_windows_loop].
  - by apply hoare_ret.
  - apply (hoare_bind_val _ (typed_dict P)); [|intros d' Hd'; by apply IH].
    apply (hoare_try _ _ caught_exn); [|intros; by apply hoare_ret|].
    + apply hoare_bind; [apply keeps_logged_run_caught; by apply harmless_other|].
      intros result. apply hoare_ret.
      destruct (HP (strip (stdout result))) as (a & -> & Ha).
      by apply typed_dict_set.
    + intros e He C. unfold caught_exn in He. congruence.
Qed.

Lemma get_current_dns_windows_typed (P : AttachmentSnapshot -> Prop) (w0 : World) :
  (forall output, exists a, get_current_dns_windows_entry output = attachment_to_py a /\ P a) ->
  hoare (only_logged w0) (typed_snapshot P) no_exn get_current_dns_windows.
Proof.
  intros HP. unfold get_current_dns_windows.
  apply (hoare_try _ _ caught_exn).
  - apply hoare_bind; [apply keeps_logged_run_caught; by apply harmless_other|].
    intros interfaces_result.
    destruct (netsh_active_interfaces _) as [|s names]; [apply hoare_ret; by left|].
    apply (hoare_bind_val _ (typed_dict P)).
    + apply get_current_dns_windows_loop_typed; [done | apply typed_dict_nil].
    + intros d Hd. apply hoare_ret. by apply typed_dict_snapshot.
  - intros e _ _. apply hoare_ret. by left.
  - intros e He C. unfold caught_exn in He. congruence.
Qed.

(** X19.  [get_current_dns_windows] never raises, whatever the host, and
    changes nothing but the record of commands.  What it returns is [None]
    or a dict that is not empty, with distinct keys, in which every entry
    carries one of the two tags of [netsh] and either says DHCP or lists at
    least one server: [restore_dns_windows] never meets an entry of this
    snapshotter that it has to skip. *)
Theorem get_current_dns_windows_is_restorable (w : World) :
  only_logged w (snd (get_current_dns_windows w))
  /\ exists v, fst (get_current_dns_windows w) = Ret v /\ typed_snapshot windows_entry v.
Proof.
  destruct (get_current_dns_windows_typed windows_entry w
              get_current_dns_windows_entry_typed w (only_logged_refl w)) as [H1 H2].
  split; [done|].
  destruct (fst (get_current_dns_windows w)) as [v|e]; [by exists v | destruct H2].
Qed.

Lemma get_current_dns_windows_is_restorable_witness :
  fst (get_current_dns_windows host_windows_snapshot)
  = Ret (points_to_py windows_taken_snapshot)
  /\ typed_snapshot windows_entry (points_to_py windows_taken_snapshot).
Proof.
  assert (fst (get_current_dns_windows host_windows_snapshot)
          = Ret (points_to_py windows_taken_snapshot)) as H by (vm_compute; reflexivity).
  split; [exact H|].
  destruct (get_current_dns_windows_is_restorable host_windows_snapshot)
    as [_ (v & Hv & Ht)].
  rewrite H in Hv. by injection Hv as <-.
Defined.

(** ** The set flow *)

Lemma run_set_dns_flow_privileged (w : World) (current_os : string) :
  fst (check_privileges w) = Ret true ->
  get_os (system_name w) None = Ret current_os ->
  run_set_dns_flow w
  = (let* os_specific_original_dns := current_dns_snapshot current_os in
     save_and_set current_os os_specific_original_dns) w.
Proof.
  intros Hp Hos. unfold run_set_dns_flow. cbv beta. unfold bind at 1.
  pose proof (check_privileges_world w) as Hw.
  destruct (check_privileges w) as [r w']. cbn [fst snd] in Hp, Hw. subst r w'.
  cbn [negb]. unfold bind at 1. unfold lift at 1. rewrite Hos. reflexivity.
Qed.

Lemma parse_dns_config_reads (filepath : string) (w w' : World) :
  file_of filepath w' = file_of filepath w ->
  parse_dns_config filepath w' = (fst (parse_dns_config filepath w), w').
Proof.
  intros [= Hf Hd].
  unfold parse_dns_config, path_exists, try_except, bind, read_text, lift.
  rewrite Hf, Hd.
  destruct (fs w !! filepath) as [n|]; [|done].
  destruct (seen n) as [c|]; [|done]. cbn [negb].
  destruct (decide (filepath ∈ denied w)); [done|].
  destruct (readlines (universal_newlines c)); [done|].
  destruct (parse_dns_config_lines _ _) as [[|]|e]; [done|done|].
  by destruct (is_Exception e).
Qed.

Lemma save_original_dns_settings_outcome (v : json) (filepath : string) (w : World) :
  exists w',
    save_original_dns_settings v filepath w = (Ret tt, w')
    /\ log w' = log w /\ denied w' = denied w /\ proc w' = proc w
    /\ system_name w' = system_name w
    /\ (forall k, k <> filepath -> fs w' !! k = fs w !! k)
    /\ (truthy v = true -> filepath ∉ denied w ->
        content_at w' filepath = Some (json_dumps v)).
Proof.
  unfold save_original_dns_settings.
  destruct (truthy v) eqn:Ht.
  - unfold try_except, write_text.
    destruct (decide (filepath ∈ denied w)) as [Hd|Hd].
    + exists w. by repeat split.
    + eexists. split; [reflexivity|]. cbn [with_fs log denied proc fs system_name].
      repeat split; [intros k Hk; by rewrite lookup_insert_ne|].
      intros _ _. unfold content_at. cbn [fs with_fs]. rewrite lookup_insert_eq.
      by destruct (fs w !! filepath) as [[]|].
  - exists w. by repeat split.
Qed.

Lemma current_dns_snapshot_logged (current_os : string) (w : World) :
  calm w ->
  exists v, fst (current_dns_snapshot current_os w) = Ret v
            /\ only_logged w (snd (current_dns_snapshot current_os w)).
Proof.
  intros Hc. unfold current_dns_snapshot.
  destruct (String.eqb current_os "windows").
  { destruct (get_current_dns_windows_typed windows_entry w
                get_current_dns_windows_entry_typed w (only_logged_refl w)) as [H1 H2].
    destruct (fst (get_current_dns_windows w)) as [v|e]; [by exists v | destruct H2]. }
  destruct (String.eqb current_os "linux").
  { destruct (get_current_dns_linux_typed w w (only_logged_refl w)) as [H1 _].
    destruct (get_current_dns_linux_calm w Hc) as [_ H2].
    destruct (fst (get_current_dns_linux w)) as [v|e]; [by exists v | destruct H2]. }
  destruct (String.eqb current_os "macos").
  { destruct (get_current_dns_macos_typed w w (only_logged_refl w)) as [H1 H2].
    destruct (fst (get_current_dns_macos w)) as [v|e]; [by exists v | destruct H2]. }
  exists (JObj []). split; [done | apply only_logged_refl].
Qed.

(** X20.  [run_set_dns_flow] exits with status 1 before any setting is
    changed in two cases.  Without the privilege it exits at once, having
    run no command and written no file.  With it, when [dnsConf.txt] is
    missing or gives no valid server, it exits after the snapshot: the
    only commands run are those of the snapshotter, no file other than the
    snapshot file is touched, and a snapshot that was taken is already in
    [original_dns_config.json] under the key of the platform (when the
    process may write there); without a snapshot no file is written. *)
Theorem run_set_dns_flow_exits_before_setting (w : World) :
  (fst (check_privileges w) = Ret false ->
   run_set_dns_flow w = (Raise (SystemExit 1), w))
  /\ (forall current_os,
        fst (check_privileges w) = Ret true ->
        get_os (system_name w) None = Ret current_os ->
        calm w ->
        fst (parse_dns_config "dnsConf.txt" w) = Ret None ->
        exists v,
          fst (current_dns_snapshot current_os w) = Ret v
          /\ fst (run_set_dns_flow w) = Raise (SystemExit 1)
          /\ log (snd (run_set_dns_flow w)) = log (snd (current_dns_snapshot current_os w))
          /\ (forall path, path <> ORIGINAL_DNS_CONFIG_FILE ->
                fs (snd (run_set_dns_flow w)) !! path = fs w !! path)
          /\ (truthy v = true -> ORIGINAL_DNS_CONFIG_FILE ∉ denied w ->
              content_at (snd (run_set_dns_flow w)) ORIGINAL_DNS_CONFIG_FILE
              = Some (json_dumps (JObj [(current_os, v)])))
          /\ (truthy v = false -> fs (snd (run_set_dns_flow w)) = fs w)).
Proof.
  split.
  - intros Hp. destruct (check_privileges_get_os w false Hp) as [os Hos].
    unfold run_set_dns_flow. cbv beta. unfold bind at 1.
    pose proof (check_privileges_world w) as Hw.
    destruct (check_privileges w) as [r w']. cbn [fst snd] in Hp, Hw. subst r w'.
    cbn [negb]. unfold bind, lift. by rewrite Hos.
  - intros os Hp Hos Hc Hconf.
    destruct (current_dns_snapshot_logged os w Hc) as (v & Hv & Hl).
    exists v. split; [done|].
    destruct (current_dns_snapshot os w) as [r w1] eqn:Hsnap.
    cbn [fst snd] in Hv, Hl |- *. subst r.
    destruct (only_logged_fields w w1 Hl) as (Hfs & Hden & _).
    destruct (save_original_dns_settings_outcome (JObj [(os, v)])
                ORIGINAL_DNS_CONFIG_FILE w1) as (w2 & Hs & Hlog & Hd2 & _ & _ & Hk & Hcont).
    assert (run_set_dns_flow w
            = (Raise (SystemExit 1), if truthy v then w2 else w1)) as ->.
    { rewrite (run_set_dns_flow_privileged w os Hp Hos).
      unfold bind at 1. rewrite Hsnap. unfold save_and_set, set_from_config.
      destruct (truthy v).
      - unfold bind at 1. rewrite Hs. unfold bind at 1.
        rewrite (parse_dns_config_reads "dnsConf.txt" w w2).
        + by rewrite Hconf.
        + unfold file_of. rewrite (Hk "dnsConf.txt") by done. by rewrite Hfs, Hd2, Hden.
      - unfold bind at 1. cbn [ret]. unfold bind at 1.
        rewrite (parse_dns_config_reads "dnsConf.txt" w w1).
        + by rewrite Hconf.
        + unfold file_of. by rewrite Hfs, Hden. }
    cbn [fst snd].
    destruct (truthy v).
    + repeat split; [done| |by rewrite <- Hden; auto|done].
      intros path Hpath. by rewrite Hk, Hfs.
    + repeat split; [by rewrite Hfs|done|done].
Qed.

Lemma run_set_dns_flow_exits_before_setting_witness :
  run_set_dns_flow host_unprivileged = (Raise (SystemExit 1), host_unprivileged)
  /\ fst (run_set_dns_flow host_without_config) = Raise (SystemExit 1)
  /\ content_at (snd (run_set_dns_flow host_without_config)) ORIGINAL_DNS_CONFIG_FILE
     = Some (json_dumps
               (JObj [("linux",
                       points_to_py
                         [("/etc/resolv.conf",
                           {| servers := ["8.8.8.8"]; is_dhcp := Dhcp false;
                              method := "resolv.conf" |})])])).
Proof.
  split.
  - by apply (proj1 (run_set_dns_flow_exits_before_setting host_unprivileged)).
  - destruct (proj2 (run_set_dns_flow_exits_before_setting host_without_config) "linux")
      as (v & Hv & Hexit & _ & _ & Hcont & _);
      [reflexivity | reflexivity | by intros argv | reflexivity |].
    split; [exact Hexit|].
    assert (v = points_to_py
                  [("/etc/resolv.conf",
                    {| servers := ["8.8.8.8"]; is_dhcp := Dhcp false;
                       method := "resolv.conf" |})]) as ->.
    { assert (fst (current_dns_snapshot "linux" host_without_config)
              = Ret (points_to_py
                       [("/etc/resolv.conf",
                         {| servers := ["8.8.8.8"]; is_dhcp := Dhcp false;
                            method := "resolv.conf" |})])) as E
        by (vm_compute; reflexivity).
      rewrite E in Hv. by injection Hv. }
    apply Hcont; [reflexivity | apply not_elem_of_empty].
Defined.

(** ** Platforms other than Windows and Linux *)

Lemma get_os_unbound (platform_system : string) :
  contains "windows" (lower platform_system) = false ->
  contains "linux" (lower platform_system) = false ->
  get_os platform_system None = Raise NameError.
Proof. intros Hw Hl. unfold get_os. by rewrite Hw, Hl. Qed.

(** X21.  On a host whose system name holds neither [windows] nor
    [linux], whatever the letter case (macOS reports [Darwin]), every entry
    point that asks [get_os] for the platform raises [NameError] before it
    does anything: [check_privileges], [flush_dns], [run_restore_dns_flow]
    and [run_set_dns_flow] run no command and touch no file, and the
    branches for macOS are never reached through them. *)
Theorem entry_points_raise_off_windows_and_linux (w : World) :
  contains "windows" (lower (system_name w)) = false ->
  contains "linux" (lower (system_name w)) = false ->
  check_privileges w = (Raise NameError, w)
  /\ flush_dns w = (Raise NameError, w)
  /\ run_restore_dns_flow w = (Raise NameError, w)
  /\ run_set_dns_flow w = (Raise NameError, w).
Proof.
  intros Hw Hl. pose proof (get_os_unbound (system_name w) Hw Hl) as Hos.
  assert (check_privileges w = (Raise NameError, w)) as Hp.
  { unfold check_privileges. cbv beta. unfold bind, lift. by rewrite Hos. }
  repeat split.
  - exact Hp.
  - unfold flush_dns. cbv beta. unfold bind, lift. by rewrite Hos.
  - unfold run_restore_dns_flow. cbv beta. unfold bind at 1. by rewrite Hp.
  - unfold run_set_dns_flow. cbv beta. unfold bind at 1. by rewrite Hp.
Qed.

Lemma entry_points_raise_off_windows_and_linux_witness :
  run_set_dns_flow (host_all_succeed "Darwin")
  = (Raise NameError, host_all_succeed "Darwin")
  /\ run_restore_dns_flow (host_all_succeed "Darwin")
     = (Raise NameError, host_all_succeed "Darwin").
Proof.
  destruct (entry_points_raise_off_windows_and_linux (host_all_succeed "Darwin"))
    as (_ & _ & Hr & Hs); [reflexivity | reflexivity |].
  by split.
Defined.

(** ** The set flow on Windows *)

Lemma completes_calm (w : World) : completes w -> calm w.
Proof. intros H argv. by destruct (H argv) as [cp [-> | ->]]. Qed.

Lemma flush_dns_windows_completes (w : World) (l : list event) :
  completes w ->
  flush_dns_windows (with_log l w)
  = (Ret (succeeds w ipconfig_flushdns), with_log (l ++ [Ran ipconfig_flushdns]) w).
Proof.
  intros Hw. unfold flush_dns_windows, try_except. unfold bind at 1.
  fold ipconfig_flushdns.
  destruct (subprocess_run_completes ipconfig_flushdns true l w Hw)
    as (cp & -> & _); [by apply harmless_other|].
  by destruct (succeeds w ipconfig_flushdns).
Qed.

Lemma snapshot_and_save_outcome (current_os : string) (w : World) :
  calm w ->
  exists w2,
    snapshot_and_save current_os w = (Ret tt, w2)
    /\ log w2 = log (snd (current_dns_snapshot current_os w))
    /\ proc w2 = proc w /\ denied w2 = denied w
    /\ system_name w2 = system_name w
    /\ (forall k, k <> ORIGINAL_DNS_CONFIG_FILE -> fs w2 !! k = fs w !! k).
Proof.
  intros Hc. unfold snapshot_and_save. unfold bind at 1.
  destruct (current_dns_snapshot_logged current_os w Hc) as (v & Hv & Hl).
  destruct (current_dns_snapshot current_os w) as [r w1].
  cbn [fst snd] in Hv, Hl |- *. subst r.
  destruct (only_logged_fields w w1 Hl) as (Hfs & Hden & Hproc & Hname & _).
  destruct (truthy v).
  - destruct (save_original_dns_settings_outcome (JObj [(current_os, v)])
                ORIGINAL_DNS_CONFIG_FILE w1)
      as (w2 & Hs & Hlog & Hd2 & Hp2 & Hn2 & Hk & _).
    exists w2. rewrite Hs. repeat split; try congruence.
    intros k Hk'. by rewrite Hk, Hfs.
  - exists w1. by rewrite Hfs.
Qed.

Lemma run_set_dns_flow_after_snapshot (w w2 : World) (current_os : string) :
  fst (check_privileges w) = Ret true ->
  get_os (system_name w) None = Ret current_os ->
  snapshot_and_save current_os w = (Ret tt, w2) ->
  run_set_dns_flow w = set_from_config current_os w2.
Proof.
  intros Hp Hos Hs. rewrite (run_set_dns_flow_privileged w current_os Hp Hos).
  unfold snapshot_and_save in Hs. unfold bind at 1 in Hs. unfold bind at 1.
  destruct (current_dns_snapshot current_os w) as [[v|e] w1]; [|done].
  unfold save_and_set. unfold bind at 1. by rewrite Hs.
Qed.

Lemma set_dns_windows_events_proc (w w' : World) (primary : string) (others : list string)
    (active_interfaces : list string) :
  proc w' = proc w ->
  set_dns_windows_events w' primary others active_interfaces
  = set_dns_windows_events w primary others active_interfaces.
Proof. intros H. unfold set_dns_windows_events, succeeds. by rewrite H. Qed.

Lemma existsb_pointwise {A : Type} (f g : A -> bool) (l : list A) :
  (forall a, f a = g a) -> existsb f l = existsb g l.
Proof.
  intros H. induction l as [|a l IH]; [done|]. by rewrite !existsb_cons, H, IH.
Qed.

(** X22.  On Windows, run by an administrator on a host where every
    command runs to completion, [run_set_dns_flow] calls [set_dns_windows]
    twice in a row with the servers of [dnsConf.txt]: after the snapshot,
    the listing and every command of the interfaces are issued a second
    time, and only the result of the second call decides whether the
    caches are flushed with [ipconfig /flushdns].  The flow then returns,
    whether or not any server was set. *)
Theorem run_set_dns_flow_sets_twice_on_windows (w : World) (primary : string)
    (others : list string) (out : string) :
  get_os (system_name w) None = Ret "windows" -> user_is_admin w = Some true ->
  completes w -> output w netsh_show_interfaces = Some out ->
  fst (parse_dns_config "dnsConf.txt" w) = Ret (Some (primary :: others)) ->
  let commands :=
    Ran netsh_show_interfaces
    :: set_dns_windows_events w primary others (netsh_active_interfaces out) in
  let set_successful :=
    existsb (fun i => succeeds w (netsh_set_primary i primary))
      (netsh_active_interfaces out) in
  exists w2,
    snapshot_and_save "windows" w = (Ret tt, w2)
    /\ run_set_dns_flow w
       = (Ret tt,
          with_log (log w2 ++ commands ++ commands
                    ++ (if set_successful then [Ran ipconfig_flushdns] else [])) w2).
Proof.
  intros Hos Hadmin Hw Hout Hconf commands set_successful.
  assert (fst (check_privileges w) = Ret true) as Hp.
  { unfold check_privileges. cbv beta. unfold bind, lift. rewrite Hos.
    rewrite String.eqb_refl. by rewrite Hadmin. }
  destruct (snapshot_and_save_outcome "windows" w (completes_calm w Hw))
    as (w2 & Hs & _ & Hproc & Hden & Hname & Hk).
  exists w2. split; [done|].
  rewrite (run_set_dns_flow_after_snapshot w w2 "windows" Hp Hos Hs).
  assert (completes w2) as Hw2 by (intros argv; rewrite Hproc; apply Hw).
  assert (output w2 netsh_show_interfaces = Some out) as Hout2
    by (unfold output; by rewrite Hproc).
  assert (forall argv, succeeds w2 argv = succeeds w argv) as Hsucc
    by (intros argv; unfold succeeds; by rewrite Hproc).
  unfold set_from_config. unfold bind at 1.
  rewrite (parse_dns_config_reads "dnsConf.txt" w w2).
  2:{ unfold file_of. by rewrite Hk, Hden. }
  rewrite Hconf. rewrite String.eqb_refl.
  unfold bind at 1. unfold bind at 1.
  rewrite <- (with_log_log w2) at 1.
  rewrite (set_dns_windows_completes primary others w2 out) by done.
  rewrite (set_dns_windows_completes primary others w2 out) by done.
  rewrite (set_dns_windows_events_proc w w2) by done.
  fold commands.
  rewrite (existsb_pointwise _ _ _ (fun i => Hsucc (netsh_set_primary i primary))).
  fold set_successful.
  destruct set_successful.
  - unfold flush_dns. cbv beta. unfold bind at 1. unfold lift.
    change (system_name (with_log ?l w2)) with (system_name w2).
    rewrite Hname, Hos. rewrite String.eqb_refl.
    unfold bind at 1. rewrite flush_dns_windows_completes by done.
    cbn [ret]. f_equal. f_equal. by rewrite <- !app_assoc.
  - cbn [ret]. f_equal. f_equal. by rewrite <- !app_assoc, app_nil_r.
Qed.

Lemma run_set_dns_flow_sets_twice_on_windows_witness :
  run_set_dns_flow host_windows_with_config
  = (Ret tt,
     with_log
       [Ran netsh_show_interfaces;
        Ran (netsh_show_dnsservers "Ethernet");
        Ran (netsh_show_dnsservers "Local Area Connection 2");
        Ran netsh_show_interfaces;
        Ran (netsh_set_primary "Ethernet" "8.8.8.8");
        Ran (netsh_set_primary "Local Area Connection 2" "8.8.8.8");
        Ran (netsh_add_server "Local Area Connection 2" "1.1.1.1" 2);
        Ran netsh_show_interfaces;
        Ran (netsh_set_primary "Ethernet" "8.8.8.8");
        Ran (netsh_set_primary "Local Area Connection 2" "8.8.8.8");
        Ran (netsh_add_server "Local Area Connection 2" "1.1.1.1" 2);
        Ran ipconfig_flushdns]
       (snd (snapshot_and_save "windows" host_windows_with_config))).
Proof.
  destruct (run_set_dns_flow_sets_twice_on_windows host_windows_with_config
              "8.8.8.8" ["1.1.1.1"] netsh_listing) as (w2 & Hs & ->);
    [reflexivity | reflexivity | | reflexivity | vm_compute; reflexivity |].
  - intros argv. unfold host_windows_with_config; cbn [proc]. repeat case_decide; eauto.
  - rewrite Hs. cbn [snd]. f_equal. f_equal.
    assert (log w2 = [Ran netsh_show_interfaces;
                      Ran (netsh_show_dnsservers "Ethernet");
                      Ran (netsh_show_dnsservers "Local Area Connection 2")]) as ->.
    { assert (snd (snapshot_and_save "windows" host_windows_with_config) = w2) as <-
        by (by rewrite Hs).
      vm_compute. reflexivity. }
    reflexivity.
Defined.

(** ** The patterns of the snapshotter of Windows *)

Lemma lit_exec_some {A : Type} (lit : string) :
  forall s pos bol (k : string -> nat -> bool -> option A) r,
  lit_exec lit s pos bol k = Some r ->
  exists s' bol', s = lit ++ s' /\ k s' (pos + String.length lit)%nat bol' = Some r.
Proof.
  induction lit as [|a lit IH]; intros s pos bol k r H; cbn [lit_exec] in H.
  - exists s, bol. split; [done|]. by rewrite Nat.add_0_r.
  - destruct s as [|c s]; [done|].
    destruct (Ascii.eqb a c) eqn:E; [|done]. apply Ascii.eqb_eq in E as ->.
    apply IH in H as (s' & bol' & -> & Hk). exists s', bol'. split; [done|].
    cbn [String.length]. by rewrite Nat.add_succ_r.
Qed.

Lemma exactly_exec_some {A : Type} (p : ascii -> bool) (n : nat) :
  forall s pos bol (k : string -> nat -> bool -> option A) r,
  exactly_exec n p s pos bol k = Some r ->
  exists t s' bol', s = t ++ s' /\ String.length t = n /\ all_chars p t = true
                    /\ k s' (pos + n)%nat bol' = Some r.
Proof.
  induction n as [|n IH]; intros s pos bol k r H; cbn [exactly_exec] in H.
  - exists EmptyString, s, bol. by rewrite Nat.add_0_r.
  - destruct s as [|c s]; [done|]. destruct (p c) eqn:Hc; [|done].
    apply IH in H as (t & s' & bol' & -> & Hl & Ht & Hk).
    exists (String c t), s', bol'. cbn [String.length all_chars].
    rewrite Hc, Ht, Hl, Nat.add_succ_r. done.
Qed.

Lemma upto_exec_some {A : Type} (p : ascii -> bool) (n : nat) :
  forall s pos bol (k : string -> nat -> bool -> option A) r,
  upto_exec n p s pos bol k = Some r ->
  exists t s' bol', s = t ++ s' /\ (String.length t <= n)%nat /\ all_chars p t = true
                    /\ k s' (pos + String.length t)%nat bol' = Some r.
Proof.
  assert (forall s pos bol (k : string -> nat -> bool -> option A) r m,
            k s pos bol = Some r ->
            exists t s' bol', s = t ++ s' /\ (String.length t <= m)%nat
                              /\ all_chars p t = true
                              /\ k s' (pos + String.length t)%nat bol' = Some r) as Stop.
  { intros s pos bol k r m H. exists EmptyString, s, bol. cbn [String.length].
    rewrite Nat.add_0_r. repeat split; (done || lia). }
  induction n as [|n IH]; intros s pos bol k r H; cbn [upto_exec] in H.
  - exact (Stop _ _ _ _ _ _ H).
  - destruct s as [|c s]; [exact (Stop _ _ _ _ _ _ H)|]. destruct (p c) eqn:Hc; [|exact (Stop _ _ _ _ _ _ H)].
    destruct (upto_exec n p s (S pos) (Ascii.eqb c LF) k) as [r'|] eqn:E; [|exact (Stop _ _ _ _ _ _ H)].
    injection H as ->.
    apply IH in E as (t & s' & bol' & -> & Hl & Ht & Hk).
    exists (String c t), s', bol'. cbn [String.length all_chars].
    rewrite Hc, Ht, Nat.add_succ_r. repeat split; (done || lia).
Qed.

Lemma star_exec_some {A : Type} (p : ascii -> bool) :
  forall s pos bol (k : string -> nat -> bool -> option A) r,
  star_exec p s pos bol k = Some r ->
  exists t s' bol', s = t ++ s' /\ all_chars p t = true
                    /\ k s' (pos + String.length t)%nat bol' = Some r.
Proof.
  assert (forall s pos bol (k : string -> nat -> bool -> option A) r,
            k s pos bol = Some r ->
            exists t s' bol', s = t ++ s' /\ all_chars p t = true
                              /\ k s' (pos + String.length t)%nat bol' = Some r) as Stop.
  { intros s pos bol k r H. exists EmptyString, s, bol. cbn [String.length].
    by rewrite Nat.add_0_r. }
  induction s as [|c s IH]; intros pos bol k r H; cbn [star_exec] in H.
  - exact (Stop _ _ _ _ _ H).
  - destruct (p c) eqn:Hc; [|exact (Stop _ _ _ _ _ H)].
    destruct (star_exec p s (S pos) (Ascii.eqb c LF) k) as [r'|] eqn:E; [|exact (Stop _ _ _ _ _ H)].
    injection H as ->.
    apply IH in E as (t & s' & bol' & -> & Ht & Hk).
    exists (String c t), s', bol'. cbn [String.length all_chars].
    by rewrite Hc, Ht, Nat.add_succ_r.
Qed.

Lemma string_app_assoc (a b c : string) : (a ++ b) ++ c = a ++ b ++ c.
Proof. induction a as [|x a IH]; [done|]. simpl. by rewrite IH. Qed.

Lemma string_length_app (a b : string) :
  String.length (a ++ b) = (String.length a + String.length b)%nat.
Proof. induction a as [|x a IH]; [done|]. simpl. by rewrite IH. Qed.

(** What the items before the group pass over. *)
Lemma items_exec_prefix (pre rest : list item) :
  forallb group_free pre = true ->
  forall s pos bol g_start g_end x,
  items_exec (pre ++ rest) s pos bol g_start g_end = Some x ->
  exists t s' bol',
    s = t ++ s'
    /\ items_exec rest s' (pos + String.length t)%nat bol' g_start g_end = Some x.
Proof.
  induction pre as [|i pre IH]; intros Hfree s pos bol gs ge x H.
  - exists EmptyString, s, bol. by rewrite Nat.add_0_r.
  - cbn [forallb] in Hfree. apply andb_true_iff in Hfree as [Hi Hfree].
    specialize (IH Hfree).
    destruct i as [lit|lo extra p|p|p| | |]; cbn [app items_exec] in H; try done.
    + apply lit_exec_some in H as (s1 & b1 & -> & H).
      apply IH in H as (t & s' & bol' & -> & H).
      exists (lit ++ t), s', bol'.
      by rewrite string_app_assoc, string_length_app, Nat.add_assoc.
    + apply exactly_exec_some in H as (t1 & s1 & b1 & -> & Hl1 & _ & H).
      apply upto_exec_some in H as (t2 & s2 & b2 & -> & _ & _ & H).
      apply IH in H as (t & s' & bol' & -> & H).
      exists (t1 ++ t2 ++ t), s', bol'.
      rewrite !string_app_assoc, !string_length_app, Hl1, !Nat.add_assoc. done.
    + apply star_exec_some in H as (t1 & s1 & b1 & -> & _ & H).
      apply IH in H as (t & s' & bol' & -> & H).
      exists (t1 ++ t), s', bol'.
      by rewrite !string_app_assoc, !string_length_app, !Nat.add_assoc.
    + apply exactly_exec_some in H as (t1 & s1 & b1 & -> & Hl1 & _ & H).
      apply star_exec_some in H as (t2 & s2 & b2 & -> & _ & H).
      apply IH in H as (t & s' & bol' & -> & H).
      exists (t1 ++ t2 ++ t), s', bol'.
      rewrite !string_app_assoc, !string_length_app, Hl1, !Nat.add_assoc. done.
    + destruct bol; [|done]. by apply IH in H.
Qed.

(** One group of digits of the address. *)
Lemma digit_group_exec (r : list item) (s : string) (pos : nat) (bol : bool)
    (g_start g_end : nat) (x : nat * nat * nat) :
  items_exec (IRep 1 2 isdigit :: r) s pos bol g_start g_end = Some x ->
  exists g s' bol',
    s = g ++ s' /\ digits13 g
    /\ items_exec r s' (pos + String.length g)%nat bol' g_start g_end = Some x.
Proof.
  cbn [items_exec]. intros H.
  apply exactly_exec_some in H as (t1 & s1 & b1 & -> & Hl1 & Hd1 & H).
  apply upto_exec_some in H as (t2 & s2 & b2 & -> & Hl2 & Hd2 & H).
  exists (t1 ++ t2), s2, b2. rewrite string_app_assoc. split; [done|]. split.
  - unfold digits13. rewrite string_length_app, all_digits_all_chars, all_chars_app.
    rewrite Hd1, Hd2. split; [lia|done].
  - by rewrite string_length_app, Hl1, Nat.add_assoc.
Qed.

Lemma dot_exec (r : list item) (s : string) (pos : nat) (bol : bool)
    (g_start g_end : nat) (x : nat * nat * nat) :
  items_exec (ILit "." :: r) s pos bol g_start g_end = Some x ->
  exists s' bol',
    s = "." ++ s' /\ items_exec r s' (pos + 1)%nat bol' g_start g_end = Some x.
Proof.
  cbn [items_exec]. intros H. by apply lit_exec_some in H.
Qed.

(** The group of the address. *)
Lemma ip_items_exec (s : string) (pos : nat) (bol : bool) (g_start g_end : nat)
    (e gs ge : nat) :
  items_exec (ip_items ++ [IClose]) s pos bol g_start g_end = Some (e, gs, ge) ->
  exists q s', s = q ++ s' /\ digit_quad q
               /\ gs = g_start /\ ge = (pos + String.length q)%nat.
Proof.
  unfold ip_items. cbn [app]. intros H.
  apply digit_group_exec in H as (a & s1 & b1 & -> & Ha & H).
  apply dot_exec in H as (s2 & b2 & -> & H).
  apply digit_group_exec in H as (b & s3 & b3 & -> & Hb & H).
  apply dot_exec in H as (s4 & b4 & -> & H).
  apply digit_group_exec in H as (c & s5 & b5 & -> & Hc & H).
  apply dot_exec in H as (s6 & b6 & -> & H).
  apply digit_group_exec in H as (d & s7 & b7 & -> & Hd & H).
  cbn [items_exec] in H. injection H as <- <- <-.
  exists (dotted a b c d), s7. split; [|split; [|split]].
  - unfold dotted. by rewrite !string_app_assoc.
  - by exists a, b, c, d.
  - done.
  - unfold dotted. rewrite !string_length_app. cbn [String.length]. lia.
Qed.

Lemma quad_pattern_exec (items : list item) (s : string) (pos : nat) (bol : bool)
    (e gs ge : nat) :
  quad_pattern items ->
  items_exec items s pos bol 0 0 = Some (e, gs, ge) ->
  exists t q s', s = t ++ q ++ s' /\ digit_quad q
                 /\ gs = (pos + String.length t)%nat
                 /\ ge = (gs + String.length q)%nat.
Proof.
  intros (pre & Hfree & ->) H.
  apply (items_exec_prefix pre _ Hfree) in H as (t & s1 & b1 & -> & H).
  cbn [items_exec] in H.
  apply ip_items_exec in H as (q & s' & -> & Hq & -> & ->).
  by exists t, q, s'.
Qed.

Lemma substring_skip (a b : string) (n : nat) :
  String.substring (String.length a) n (a ++ b) = String.substring 0 n b.
Proof. induction a as [|x a IH]; [done|]. simpl. by rewrite IH. Qed.

Lemma substring_prefix (q r : string) :
  String.substring 0 (String.length q) (q ++ r) = q.
Proof.
  induction q as [|x q IH]; [by destruct r|]. simpl. by rewrite IH.
Qed.

Lemma findall_from_quads (items : list item) (subject : string) :
  quad_pattern items ->
  forall s pre pos bol skip,
  subject = pre ++ s -> pos = String.length pre ->
  Forall digit_quad (findall_from items subject s pos bol skip).
Proof.
  intros Hp.
  assert (forall s pre pos bol e gs ge,
            subject = pre ++ s -> pos = String.length pre ->
            items_exec items s pos bol 0 0 = Some (e, gs, ge) ->
            digit_quad (String.substring gs (ge - gs) subject)) as Hit.
  { intros s pre pos bol e gs ge -> -> H.
    apply (quad_pattern_exec items) in H as (t & q & s' & -> & Hq & -> & ->); [|done].
    replace (String.length pre + String.length t + String.length q
             - (String.length pre + String.length t))%nat
      with (String.length q) by lia.
    rewrite <- string_length_app, <- string_app_assoc, substring_skip.
    by rewrite substring_prefix. }
  assert (forall pre c s, pre ++ String c s = (pre ++ str1 c) ++ s) as Hsnoc.
  { intros pre c s. by rewrite string_app_assoc. }
  assert (forall pre c, S (String.length pre) = String.length (pre ++ str1 c)) as Hlen.
  { intros pre c. rewrite string_length_app. cbn [String.length str1]. lia. }
  induction s as [|c s IH]; intros pre pos bol skip Hs Hpos.
  - destruct skip as [|skip]; cbn [findall_from]; [|constructor].
    destruct (items_exec items EmptyString pos bol 0 0) as [[[e gs] ge]|] eqn:E;
      [|constructor].
    constructor; [|constructor]. by apply (Hit EmptyString pre pos bol e gs ge).
  - destruct skip as [|skip]; cbn [findall_from].
    + destruct (items_exec items (String c s) pos bol 0 0) as [[[e gs] ge]|] eqn:E.
      * constructor; [by apply (Hit (String c s) pre pos bol e gs ge)|].
        apply (IH (pre ++ str1 c)); [by rewrite Hs, Hsnoc | rewrite Hpos; apply Hlen].
      * apply (IH (pre ++ str1 c)); [by rewrite Hs, Hsnoc | rewrite Hpos; apply Hlen].
    + apply (IH (pre ++ str1 c)); [by rewrite Hs, Hsnoc | rewrite Hpos; apply Hlen].
Qed.

Lemma findall_quads (items : list item) (subject : string) :
  quad_pattern items -> Forall digit_quad (findall items subject).
Proof.
  intros Hp. unfold findall.
  by apply (findall_from_quads items subject Hp subject EmptyString).
Qed.

Lemma pattern_after_colon_quad : quad_pattern pattern_after_colon.
Proof. by exists [ILit ":"; IStar isspace]. Qed.

Lemma pattern_static_quad : quad_pattern pattern_static.
Proof. by exists [ILit "Statically Configured DNS Servers:"; IStar isspace]. Qed.

Lemma pattern_additional_quad : quad_pattern pattern_additional.
Proof. by exists [IBol; IPlus isspace]. Qed.

Lemma get_current_dns_windows_entry_quads (output : string) :
  exists a, get_current_dns_windows_entry output = attachment_to_py a /\ quad_servers a.
Proof.
  unfold get_current_dns_windows_entry, quad_servers.
  destruct (contains "dhcp" (lower output)).
  - exists {| servers := findall pattern_after_colon output; is_dhcp := Dhcp true;
              method := "netsh" |}.
    split; [done|]. cbn [servers]. apply findall_quads, pattern_after_colon_quad.
  - destruct (_ ++ _)%list as [|x l] eqn:E.
    + exists {| servers := []; is_dhcp := Dhcp true;
                method := "netsh_unknown_fallback_to_dhcp" |}.
      split; [done|]. constructor.
    + exists {| servers := x :: l; is_dhcp := Dhcp false; method := "netsh" |}.
      split; [done|]. cbn [servers]. rewrite <- E. apply Forall_app. split.
      * apply findall_quads, pattern_static_quad.
      * apply findall_quads, pattern_additional_quad.
Qed.

(** X23.  Every server that [get_current_dns_windows] records, for every
    interface and whatever [netsh] prints, is text of the form
    [d.d.d.d] where each [d] is one to three digits: the three patterns
    capture nothing else.  (The groups are not bounded by 255.) *)
Theorem get_current_dns_windows_records_digit_quads (w : World) (v : json) :
  fst (get_current_dns_windows w) = Ret v -> typed_snapshot quad_servers v.
Proof.
  intros Hv.
  destruct (get_current_dns_windows_typed quad_servers w
              get_current_dns_windows_entry_quads w (only_logged_refl w)) as [_ H].
  by rewrite Hv in H.
Qed.

Lemma get_current_dns_windows_records_digit_quads_witness :
  typed_snapshot quad_servers (points_to_py windows_taken_snapshot).
Proof.
  apply (get_current_dns_windows_records_digit_quads host_windows_snapshot).
  vm_compute. reflexivity.
Defined.
